(** * CloudBridge, Azure provider: resource adapters

    A shallow embedding of [cloudbridge/cloud/providers/azure/resources.py]
    and a verification of the behaviour of its adapters: volume and instance
    state derivation, firewall rule listing and creation, port-range parsing,
    tag-backed names, subnet identities, and the error behaviour of
    [delete] and [remove_floating_ip].

    Python semantics are those of Python 3.  Strings are sequences of
    one-byte characters; [int()] and [str.split] are modelled on them. *)

From Stdlib Require Import ZArith NArith List Ascii String Lia Bool.
From stdpp Require Import base option list gmap strings pretty.

Local Open Scope Z_scope.

(* ===================================================================== *)
(** * Python preliminaries *)
(* ===================================================================== *)

(** ** Values stored in tag dictionaries *)

Inductive pyval : Type :=
| VNone
| VBool (b : bool)
| VInt (z : Z)
| VStr (s : string).

Definition Z_of_bool (b : bool) : Z := if b then 1 else 0.

(** Python's [==] on these values: [bool] is a subtype of [int], so
    [True == 1]; a string never equals a number, a bool or [None]. *)
Definition py_eq (a b : pyval) : bool :=
  match a, b with
  | VNone, VNone => true
  | VBool x, VBool y => Bool.eqb x y
  | VBool x, VInt y => Z.eqb (Z_of_bool x) y
  | VInt x, VBool y => Z.eqb x (Z_of_bool y)
  | VInt x, VInt y => Z.eqb x y
  | VStr x, VStr y => String.eqb x y
  | _, _ => false
  end.

(** ** Truth value testing ([if x:], [not x], [x and y]) *)

Class Truthy (A : Type) := truthy : A -> bool.

#[global] Instance truthy_string : Truthy string :=
  fun s => match s with EmptyString => false | String _ _ => true end.
#[global] Instance truthy_Z : Truthy Z := fun z => negb (Z.eqb z 0).
#[global] Instance truthy_list {A} : Truthy (list A) :=
  fun l => match l with [] => false | _ :: _ => true end.
#[global] Instance truthy_dict {V} : Truthy (gmap string V) :=
  fun m => negb (bool_decide (m = ∅)).
(** [None] is falsy; [Some x] has the truth value of [x]. *)
#[global] Instance truthy_option {A} `{Truthy A} : Truthy (option A) :=
  fun o => match o with None => false | Some x => truthy x end.
#[global] Instance truthy_pyval : Truthy pyval :=
  fun v => match v with
           | VNone => false
           | VBool b => b
           | VInt z => truthy z
           | VStr s => truthy s
           end.

(** An SDK model object defines neither [__bool__] nor [__len__]: it is
    always true, so only its absence is falsy. *)
Definition truthy_object {A} (o : option A) : bool :=
  match o with None => false | Some _ => true end.

(** ** Dictionaries *)

(** [d.get(key, default)] on a dict literal kept in source order. *)
Fixpoint dict_get {V} (d : list (string * V)) (key : string) (dflt : V) : V :=
  match d with
  | [] => dflt
  | (k, v) :: d' => if String.eqb k key then v else dict_get d' key dflt
  end.

(** A state table is looked up with the adapter's [_state], which is a
    string or [None]; [None] is not a key of any table. *)
Definition state_get {V} (d : list (string * V)) (key : option string) (dflt : V) : V :=
  match key with
  | None => dflt
  | Some k => dict_get d k dflt
  end.

(** Tag dictionaries: [tags.get(key, default)] and [tags.update(key=value)]. *)
Definition tags_get (tags : gmap string pyval) (key : string) (dflt : pyval) : pyval :=
  default dflt (tags !! key).

Definition tags_update (tags : gmap string pyval) (key : string) (value : pyval)
  : gmap string pyval :=
  <[key := value]> tags.

(** ** [str(n)] on integers *)

Definition py_str (z : Z) : string := pretty z.

(** ** [str.split(sep)] and [str.split(sep, maxsplit)], for a non-empty [sep]

    The string is scanned left to right; at each position where [sep] starts
    (and splits remain) the piece read so far is emitted and the scan resumes
    after the separator.  [skip] counts the separator characters still to be
    passed over. *)

Definition splits_remain (maxsplit : option nat) : bool :=
  match maxsplit with
  | None => true
  | Some 0%nat => false
  | Some (S _) => true
  end.

Definition one_split_less (maxsplit : option nat) : option nat :=
  match maxsplit with
  | None => None
  | Some n => Some (Nat.pred n)
  end.

Fixpoint split_go (sep : string) (maxsplit : option nat) (skip : nat)
         (piece : string) (s : string) : list string :=
  match s with
  | EmptyString => [piece]
  | String c s' =>
      match skip with
      | S k => split_go sep maxsplit k piece s'
      | O =>
          if splits_remain maxsplit && String.prefix sep s
          then piece :: split_go sep (one_split_less maxsplit)
                                 (Nat.pred (String.length sep)) EmptyString s'
          else split_go sep maxsplit 0 (piece +:+ String c EmptyString) s'
      end
  end.

Definition py_split (sep : string) (maxsplit : option nat) (s : string) : list string :=
  split_go sep maxsplit 0 EmptyString s.


(** [c in s] for a single character. *)
Fixpoint has_char (c : ascii) (s : string) : bool :=
  match s with
  | EmptyString => false
  | String d s' => Ascii.eqb c d || has_char c s'
  end.

(** ** [int(s)] on strings, base ten

    Surrounding whitespace is stripped, one sign is allowed, then come
    decimal digits, where single underscores may separate digits.  The result
    is [None] where Python raises [ValueError]. *)

Definition is_space (c : ascii) : bool :=
  let n := nat_of_ascii c in
  ((9 <=? n) && (n <=? 13) || (28 <=? n) && (n <=? 32))%nat.

Definition digit_val (c : ascii) : option N :=
  let n := N_of_ascii c in
  if ((48 <=? n) && (n <=? 57))%N then Some (n - 48)%N else None.

Fixpoint lstrip (s : string) : string :=
  match s with
  | EmptyString => EmptyString
  | String c s' => if is_space c then lstrip s' else s
  end.

Fixpoint string_rev_onto (s acc : string) : string :=
  match s with
  | EmptyString => acc
  | String c s' => string_rev_onto s' (String c acc)
  end.

Definition string_rev (s : string) : string := string_rev_onto s EmptyString.

Definition rstrip (s : string) : string := string_rev (lstrip (string_rev s)).

Definition py_strip (s : string) : string := rstrip (lstrip s).

(** What the digit scanner has just read. *)
Inductive scanned := AtStart | AfterDigit | AfterUnderscore.

Fixpoint scan_digits (acc : N) (last : scanned) (s : string) : option N :=
  match s with
  | EmptyString => match last with AfterDigit => Some acc | _ => None end
  | String c s' =>
      match digit_val c with
      | Some d => scan_digits (10 * acc + d)%N AfterDigit s'
      | None =>
          if Ascii.eqb c "_"%char
          then match last with
               | AfterDigit => scan_digits acc AfterUnderscore s'
               | _ => None
               end
          else None
      end
  end.

Definition py_int (s : string) : option Z :=
  match py_strip s with
  | EmptyString => None
  | String c body =>
      if Ascii.eqb c "-"%char
      then (fun n => - Z.of_N n) <$> scan_digits 0 AtStart body
      else if Ascii.eqb c "+"%char
      then Z.of_N <$> scan_digits 0 AtStart body
      else Z.of_N <$> scan_digits 0 AtStart (String c body)
  end.

(* ===================================================================== *)
(** * Exceptions, and the monad of adapter methods *)
(* ===================================================================== *)

(** [CloudError] is the provider-level exception of the Azure SDK; it always
    has a [message] attribute.  A [ValueError] has one only when it was given
    one (on Python 3 it has none). *)
Inductive exn : Type :=
| CloudError (message : string)
| ValueError (message : option string)
| TypeError
| AttributeError
| IndexError
| InvalidNameException
| RecursionError.

Inductive outcome (A : Type) : Type :=
| Returned (a : A)
| Raised (e : exn).
Arguments Returned {A} a.
Arguments Raised {A} e.

Definition is_CloudError (e : exn) : bool :=
  match e with CloudError _ => true | _ => false end.

(* ===================================================================== *)
(** * Provider payloads (the SDK objects the adapters wrap) *)
(* ===================================================================== *)

(** A reference to another resource by its id ([SubResource]). *)
Module SubResource.
Record t := Build { id : string }.
End SubResource.

Module SecurityRule.
Record t := Build {
  name : string;
  priority : Z;
  protocol : string;
  source_port_range : string;
  source_address_prefix : string;
  destination_port_range : string;
  destination_address_prefix : string;
  access : string;
  direction : string
}.
End SecurityRule.

Module NetworkSecurityGroup.
Record t := Build {
  name : string;
  id : string;
  tags : option (gmap string pyval);
  security_rules : list SecurityRule.t
}.
Definition set_tags (v : option (gmap string pyval)) (x : t) : t :=
  Build (name x) (id x) v (security_rules x).
Definition set_security_rules (v : list SecurityRule.t) (x : t) : t :=
  Build (name x) (id x) (tags x) v.
End NetworkSecurityGroup.

Module Disk.
Record t := Build {
  name : string;
  id : string;
  tags : option (gmap string pyval);
  provisioning_state : option string;
  managed_by : option string
}.
Definition set_tags (v : option (gmap string pyval)) (x : t) : t :=
  Build (name x) (id x) v (provisioning_state x) (managed_by x).
End Disk.

Module Snapshot.
Record t := Build {
  name : string;
  id : string;
  tags : option (gmap string pyval);
  provisioning_state : option string
}.
Definition set_tags (v : option (gmap string pyval)) (x : t) : t :=
  Build (name x) (id x) v (provisioning_state x).
End Snapshot.

Module Image.
Record t := Build {
  name : string;
  id : string;
  tags : option (gmap string pyval);
  provisioning_state : option string
}.
Definition set_tags (v : option (gmap string pyval)) (x : t) : t :=
  Build (name x) (id x) v (provisioning_state x).
End Image.

Module VirtualNetwork.
Record t := Build {
  name : string;
  id : string;
  tags : option (gmap string pyval);
  provisioning_state : option string;
  location : string
}.
Definition set_tags (v : option (gmap string pyval)) (x : t) : t :=
  Build (name x) (id x) v (provisioning_state x) (location x).
End VirtualNetwork.

Module Subnet.
Record t := Build {
  name : string;
  id : string;
  provisioning_state : option string;
  address_prefix : string
}.
End Subnet.

Module RouteTable.
Record t := Build {
  name : string;
  id : string;
  tags : option (gmap string pyval);
  subnets : option (list SubResource.t)
}.
Definition set_tags (v : option (gmap string pyval)) (x : t) : t :=
  Build (name x) (id x) v (subnets x).
End RouteTable.

Module PublicIPAddress.
Record t := Build {
  id : string;
  ip_address : option string
}.
End PublicIPAddress.

Module IPConfiguration.
Record t := Build {
  private_ip_address : option string;
  public_ip_address : option SubResource.t
}.
Definition set_public_ip_address (v : option SubResource.t) (x : t) : t :=
  Build (private_ip_address x) v.
End IPConfiguration.

Module NetworkInterface.
Record t := Build {
  network_security_group : option SubResource.t;
  ip_configurations : option (list IPConfiguration.t)
}.
Definition set_ip_configurations (v : option (list IPConfiguration.t)) (x : t) : t :=
  Build (network_security_group x) v.
End NetworkInterface.

Module InstanceViewStatus.
Record t := Build { display_status : option string }.
End InstanceViewStatus.

Module VirtualMachineInstanceView.
Record t := Build { statuses : option (list InstanceViewStatus.t) }.
End VirtualMachineInstanceView.

(** A data disk or the OS disk of a VM's storage profile. *)
Module VMDisk.
Record t := Build { managed_disk : option SubResource.t }.
End VMDisk.

Module StorageProfile.
Record t := Build {
  data_disks : list VMDisk.t;
  os_disk : VMDisk.t
}.
End StorageProfile.

Module NetworkProfile.
Record t := Build { network_interfaces : list SubResource.t }.
End NetworkProfile.

Module VirtualMachine.
Record t := Build {
  name : string;
  id : string;
  tags : option (gmap string pyval);
  provisioning_state : option string;
  instance_view : option VirtualMachineInstanceView.t;
  network_profile : NetworkProfile.t;
  storage_profile : StorageProfile.t
}.
Definition set_tags (v : option (gmap string pyval)) (x : t) : t :=
  Build (name x) (id x) v (provisioning_state x) (instance_view x)
        (network_profile x) (storage_profile x).
End VirtualMachine.

(** The [parameters] dictionary sent to [create_vm_firewall_rule]. *)
Module RuleParameters.
Record t := Build {
  priority : Z;
  protocol : string;
  source_port_range : string;
  source_address_prefix : string;
  destination_port_range : string;
  destination_address_prefix : string;
  access : string;
  direction : string
}.
End RuleParameters.

(* ===================================================================== *)
(** * The client facade and the provider *)
(* ===================================================================== *)

(** The calls the adapters make on [self._provider.azure_client] (and on the
    provider's firewall service), with their arguments.  A name looked up in
    parsed url parameters may be [None]. *)
Module azure_client.
Inductive request : Type :=
| delete_vm_firewall (fw_id : string)
| update_vm_firewall_tags (fw_id : string) (tags : option (gmap string pyval))
| create_vm_firewall_rule (fw_id : string) (rule_name : string)
                          (parameters : RuleParameters.t)
| vm_firewalls_get (fw_id : string)
| update_disk_tags (disk_id : string) (tags : option (gmap string pyval))
| get_disk (disk_name : option string)
| delete_disk (disk_name : option string)
| update_snapshot_tags (snapshot_id : string) (tags : option (gmap string pyval))
| update_image_tags (image_id : string) (tags : option (gmap string pyval))
| update_network_tags (network_id : string) (network : VirtualNetwork.t)
| get_network (network_name : option string)
| delete_subnet (network_id : string) (subnet_name : string)
| update_route_table_tags (name : string) (route_table : RouteTable.t)
| get_vm (vm_id : string)
| update_vm_tags (vm_id : string) (vm : VirtualMachine.t)
| deallocate_vm (vm_id : string)
| delete_vm (vm_id : string)
| get_nic (nic_name : option string)
| update_nic (nic_name : option string) (nic : NetworkInterface.t)
| delete_nic (nic_name : option string)
| get_public_ip (name : option string)
| delete_public_ip (name : option string).

(** What each call returns when it does not raise. *)
Definition response (r : request) : Type :=
  match r with
  | create_vm_firewall_rule _ _ _ => SecurityRule.t
  | vm_firewalls_get _ => option NetworkSecurityGroup.t
  | get_disk _ => option Disk.t
  | get_network _ => VirtualNetwork.t
  | get_vm _ => VirtualMachine.t
  | get_nic _ => NetworkInterface.t
  | get_public_ip _ => PublicIPAddress.t
  | _ => unit
  end.
End azure_client.

(** What the adapters are given from outside this module: the remote control
    plane, with a state of its own, answering each call or raising; the
    resource-id parser of [azure_helpers]; and the name check of the base
    resource class. *)
Class Provider := {
  world : Type;
  handle : forall r : azure_client.request,
      world -> outcome (azure_client.response r) * world;
  parse_url : string -> string -> gmap string string;
  is_valid_resource_name : string -> bool
}.

(** A call together with its answer, as recorded in the trace. *)
Record event := Event {
  request_of : azure_client.request;
  outcome_of : outcome (azure_client.response request_of)
}.

(** ** The state a method runs in: [self], the remote state, the calls made
       so far with their answers, and what was logged. *)

Record store `{Provider} (Self : Type) := Store {
  self : Self;
  remote : world;
  trace : list event;
  logged : list string
}.
Arguments Store {_ _} _ _ _ _.
Arguments self {_ _} _.
Arguments remote {_ _} _.
Arguments trace {_ _} _.
Arguments logged {_ _} _.

Definition M `{Provider} (Self A : Type) : Type :=
  store Self -> outcome A * store Self.

Section Monad.
Context `{Provider} {Self : Type}.

Definition ret {A} (a : A) : M Self A := fun s => (Returned a, s).

Definition bind {A B} (m : M Self A) (k : A -> M Self B) : M Self B :=
  fun s => match m s with
           | (Returned a, s') => k a s'
           | (Raised e, s') => (Raised e, s')
           end.

Definition raise {A} (e : exn) : M Self A := fun s => (Raised e, s).

Definition get_self : M Self Self := fun s => (Returned (self s), s).

Definition set_self (x : Self) : M Self unit :=
  fun s => (Returned tt, Store x (remote s) (trace s) (logged s)).

(** [log.exception(msg)] *)
Definition log_exception (msg : string) : M Self unit :=
  fun s => (Returned tt, Store (self s) (remote s) (trace s) (logged s ++ [msg])).

(** A call on the client facade: recorded, then answered by the provider. *)
Definition invoke (r : azure_client.request) : M Self (azure_client.response r) :=
  fun s =>
    let '(o, w) := handle r (remote s) in
    (o, Store (self s) w (trace s ++ [Event r o]) (logged s)).

(** [try: body except <caught> as e: handler(e)] *)
Definition try_except {A} (body : M Self A) (caught : exn -> bool)
           (handler : exn -> M Self A) : M Self A :=
  fun s => match body s with
           | (Returned a, s') => (Returned a, s')
           | (Raised e, s') => if caught e then handler e s' else (Raised e, s')
           end.

(** [for x in l: body(x)] over a list that the body does not change. *)
Fixpoint for_each {A} (l : list A) (body : A -> M Self unit) : M Self unit :=
  match l with
  | [] => ret tt
  | x :: l' => bind (body x) (fun _ => for_each l' body)
  end.

(** A computation that touches no state. *)
Definition lift_outcome {A} (o : outcome A) : M Self A := fun s => (o, s).

(** [e.message] on a caught exception. *)
Definition exn_message (e : exn) : M Self string :=
  match e with
  | CloudError msg => ret msg
  | ValueError (Some msg) => ret msg
  | _ => raise AttributeError
  end.
End Monad.

Declare Scope py_scope.
Delimit Scope py_scope with py.
Notation "x <- m ;; k" := (bind m (fun x => k))
  (at level 100, m at next level, right associativity) : py_scope.
Notation "m ;; k" := (bind m (fun _ => k))
  (at level 100, right associativity) : py_scope.
Local Open Scope py_scope.

(** What a run added to the trace is read off with these. *)
Definition requests (tr : list event) : list azure_client.request :=
  map request_of tr.

(* ===================================================================== *)
(** * Enumerations of the cloud-neutral interface *)
(* ===================================================================== *)

Module TrafficDirection.
Inductive t := INBOUND | OUTBOUND.
Definition eqb (a b : t) : bool :=
  match a, b with
  | INBOUND, INBOUND | OUTBOUND, OUTBOUND => true
  | _, _ => false
  end.
End TrafficDirection.

Module VolumeState.
Inductive t := UNKNOWN | CREATING | CONFIGURING | AVAILABLE | IN_USE | DELETED | ERROR.
End VolumeState.

Module InstanceState.
Inductive t := UNKNOWN | PENDING | CONFIGURING | RUNNING | REBOOTING | DELETED
             | STOPPED | ERROR.
End InstanceState.

(** [self.assert_valid_resource_name(value)] of the base resource class. *)
Definition assert_valid_resource_name `{Provider} {Self} (value : string) : M Self unit :=
  if is_valid_resource_name value then ret tt else raise InvalidNameException.

(** The resource-id templates, and the names of their url parameters. *)
Definition NETWORK_INTERFACE_RESOURCE_ID : string :=
  "/subscriptions/{subscriptionId}/resourceGroups/{resourceGroupName}/providers/Microsoft.Network/networkInterfaces/{networkInterfaceName}".
Definition PUBLIC_IP_RESOURCE_ID : string :=
  "/subscriptions/{subscriptionId}/resourceGroups/{resourceGroupName}/providers/Microsoft.Network/publicIPAddresses/{publicIpAddressName}".
Definition SUBNET_RESOURCE_ID : string :=
  "/subscriptions/{subscriptionId}/resourceGroups/{resourceGroupName}/providers/Microsoft.Network/virtualNetworks/{virtualNetworkName}/subnets/{subnetName}".
Definition VOLUME_RESOURCE_ID : string :=
  "/subscriptions/{subscriptionId}/resourceGroups/{resourceGroupName}/providers/Microsoft.Compute/disks/{diskName}".
Definition VM_FIREWALL_RESOURCE_ID : string :=
  "/subscriptions/{subscriptionId}/resourceGroups/{resourceGroupName}/providers/Microsoft.Network/networkSecurityGroups/{networkSecurityGroupName}".

Definition NETWORK_NAME : string := "virtualNetworkName".
Definition NETWORK_INTERFACE_NAME : string := "networkInterfaceName".
Definition PUBLIC_IP_NAME : string := "publicIpAddressName".
Definition VOLUME_NAME : string := "diskName".
Definition VM_FIREWALL_NAME : string := "networkSecurityGroupName".

(* ===================================================================== *)
(** * AzureVMFirewall *)
(* ===================================================================== *)

Module AzureVMFirewall.
Record t := Build { _vm_firewall : NetworkSecurityGroup.t }.

Definition __init__ (vm_firewall : NetworkSecurityGroup.t) : t :=
  if negb (truthy (NetworkSecurityGroup.tags vm_firewall))
  then Build (NetworkSecurityGroup.set_tags (Some ∅) vm_firewall)
  else Build vm_firewall.

Definition id (self : t) : string := NetworkSecurityGroup.name (_vm_firewall self).

Definition resource_id (self : t) : string := NetworkSecurityGroup.id (_vm_firewall self).

(** [self._vm_firewall.tags.get('Name', self._vm_firewall.name)] *)
Definition name (self : t) : outcome pyval :=
  match NetworkSecurityGroup.tags (_vm_firewall self) with
  | None => Raised AttributeError
  | Some tags =>
      Returned (tags_get tags "Name" (VStr (NetworkSecurityGroup.name (_vm_firewall self))))
  end.

Section Methods.
Context `{Provider}.

(** The [name] setter. *)
Definition set_name (value : string) : M t unit :=
  assert_valid_resource_name value ;;
  self <- get_self ;;
  match NetworkSecurityGroup.tags (_vm_firewall self) with
  | None => raise AttributeError
  | Some tags =>
      set_self (Build (NetworkSecurityGroup.set_tags
                         (Some (tags_update tags "Name" (VStr value)))
                         (_vm_firewall self))) ;;
      self <- get_self ;;
      invoke (azure_client.update_vm_firewall_tags
                (id self) (NetworkSecurityGroup.tags (_vm_firewall self)))
  end.

Definition delete : M t bool :=
  try_except
    (self <- get_self ;;
     invoke (azure_client.delete_vm_firewall (id self)) ;;
     ret true)
    is_CloudError
    (fun cloudError =>
       msg <- exn_message cloudError ;;
       log_exception msg ;;
       ret false).
End Methods.
End AzureVMFirewall.

(* ===================================================================== *)
(** * AzureVMFirewallRule *)
(* ===================================================================== *)

(** [PortRange = collections.namedtuple('PortRange', ['from_port', 'to_port'])] *)
Record PortRange := Build_PortRange { from_port : Z; to_port : Z }.

(** [l[i]] on a list. *)
Definition py_index {A} (l : list A) (i : nat) : outcome A :=
  match l !! i with
  | Some x => Returned x
  | None => Raised IndexError
  end.

(** [int(s)], raising [ValueError] where the string is no integer. *)
Definition int_or_raise (s : string) : outcome Z :=
  match py_int s with
  | Some z => Returned z
  | None => Raised (ValueError None)
  end.

Definition outcome_bind {A B} (o : outcome A) (k : A -> outcome B) : outcome B :=
  match o with
  | Returned a => k a
  | Raised e => Raised e
  end.

Module AzureVMFirewallRule.
Record t := Build { firewall : AzureVMFirewall.t; _rule : SecurityRule.t }.

Definition id (self : t) : string := SecurityRule.name (_rule self).

Definition direction (self : t) : TrafficDirection.t :=
  if String.eqb (SecurityRule.direction (_rule self)) "Inbound"
  then TrafficDirection.INBOUND
  else TrafficDirection.OUTBOUND.

Definition name (self : t) : string := SecurityRule.name (_rule self).

Definition protocol (self : t) : string := SecurityRule.protocol (_rule self).

Definition _port_range_tuple (self : t) : outcome PortRange :=
  if String.eqb (SecurityRule.destination_port_range (_rule self)) "*"
  then Returned (Build_PortRange 1 65535)
  else
    let destination_port_range := SecurityRule.destination_port_range (_rule self) in
    let port_range_split := py_split "-" (Some 1%nat) destination_port_range in
    outcome_bind (py_index port_range_split 0) (fun lo_s =>
    outcome_bind (int_or_raise lo_s) (fun lo =>
    outcome_bind (py_index port_range_split 1) (fun hi_s =>
    outcome_bind (int_or_raise hi_s) (fun hi =>
    Returned (Build_PortRange lo hi))))).

Definition from_port (self : t) : outcome Z :=
  outcome_bind (_port_range_tuple self) (fun r => Returned (from_port r)).

Definition to_port (self : t) : outcome Z :=
  outcome_bind (_port_range_tuple self) (fun r => Returned (to_port r)).

Definition cidr (self : t) : string := SecurityRule.source_address_prefix (_rule self).
End AzureVMFirewallRule.

(* ===================================================================== *)
(** * AzureVMFirewallRuleContainer *)
(* ===================================================================== *)

(** [ClientPagedResultList(provider, objects, limit, marker)] of the base
    resources: kept as what it is constructed from.  [data] is the complete
    list of objects, which is also what iterating the container walks over. *)
Module ClientPagedResultList.
Record t (A : Type) := Build {
  data : list A;
  limit : option nat;
  marker : option string
}.
Arguments Build {A} _ _ _.
Arguments data {A} _.
Arguments limit {A} _.
Arguments marker {A} _.
End ClientPagedResultList.

(** The container's [self.firewall] is the state its methods run in. *)
Module AzureVMFirewallRuleContainer.

Definition rule_is_listed (rule : SecurityRule.t) : bool :=
  SecurityRule.priority rule <? 3500.

Definition list (firewall : AzureVMFirewall.t)
           (limit : option nat) (marker : option string)
  : ClientPagedResultList.t AzureVMFirewallRule.t :=
  let rules :=
    map (AzureVMFirewallRule.Build firewall)
        (List.filter rule_is_listed
           (NetworkSecurityGroup.security_rules (AzureVMFirewall._vm_firewall firewall))) in
  ClientPagedResultList.Build rules limit marker.

Section Methods.
Context `{Provider}.

Definition _create_rule (direction : TrafficDirection.t) (protocol : string)
           (from_port to_port : Z) (cidr : option string)
  : M AzureVMFirewall.t AzureVMFirewallRule.t :=
  let cidr := if negb (truthy cidr) then "0.0.0.0/0" else default "" cidr in
  firewall <- get_self ;;
  let count :=
    Z.of_nat (length (NetworkSecurityGroup.security_rules
                        (AzureVMFirewall._vm_firewall firewall))) + 1 in
  let rule_name := "Rule - " +:+ py_str count in
  let priority := 1000 + count in
  let destination_port_range := py_str from_port +:+ "-" +:+ py_str to_port in
  let source_port_range := "*" in
  let destination_address_prefix := "*" in
  let access := "Allow" in
  let direction :=
    if TrafficDirection.eqb direction TrafficDirection.INBOUND
    then "Inbound" else "Outbound" in
  let parameters :=
    {| RuleParameters.priority := priority;
       RuleParameters.protocol := protocol;
       RuleParameters.source_port_range := source_port_range;
       RuleParameters.source_address_prefix := cidr;
       RuleParameters.destination_port_range := destination_port_range;
       RuleParameters.destination_address_prefix := destination_address_prefix;
       RuleParameters.access := access;
       RuleParameters.direction := direction |} in
  result <- invoke (azure_client.create_vm_firewall_rule
                      (AzureVMFirewall.id firewall) rule_name parameters) ;;
  firewall <- get_self ;;
  let vm_firewall := AzureVMFirewall._vm_firewall firewall in
  set_self (AzureVMFirewall.Build
              (NetworkSecurityGroup.set_security_rules
                 (NetworkSecurityGroup.security_rules vm_firewall ++ [result])
                 vm_firewall)) ;;
  firewall <- get_self ;;
  ret (AzureVMFirewallRule.Build firewall result).

(** The loop of [create] over the rules of the source firewall; [result]
    is the rule created last. *)
Fixpoint clone_rules (rules : Datatypes.list AzureVMFirewallRule.t)
         (result : option AzureVMFirewallRule.t)
  : M AzureVMFirewall.t (option AzureVMFirewallRule.t) :=
  match rules with
  | [] => ret result
  | rule :: rules' =>
      rule_from_port <- lift_outcome (AzureVMFirewallRule.from_port rule) ;;
      rule_to_port <- lift_outcome (AzureVMFirewallRule.to_port rule) ;;
      created <- _create_rule (AzureVMFirewallRule.direction rule)
                              (AzureVMFirewallRule.protocol rule)
                              rule_from_port rule_to_port
                              (Some (AzureVMFirewallRule.cidr rule)) ;;
      clone_rules rules' (Some created)
  end.

(** [src_dest_fw] is a firewall id (a [str]) or a firewall. *)
Definition truthy_src_dest_fw (src_dest_fw : option (string + AzureVMFirewall.t)) : bool :=
  match src_dest_fw with
  | None => false
  | Some (inl fw_id) => truthy fw_id
  | Some (inr _) => true
  end.

Definition create (direction : TrafficDirection.t) (protocol : option string)
           (from_port to_port : option Z) (cidr : option string)
           (src_dest_fw : option (string + AzureVMFirewall.t))
  : M AzureVMFirewall.t (option AzureVMFirewallRule.t) :=
  if truthy protocol && truthy from_port && truthy to_port
  then
    rule <- _create_rule direction (default "" protocol)
                         (default 0 from_port) (default 0 to_port) cidr ;;
    ret (Some rule)
  else if truthy_src_dest_fw src_dest_fw
  then
    fw <- match src_dest_fw with
          | Some (inl fw_id) =>
              found <- invoke (azure_client.vm_firewalls_get fw_id) ;;
              ret (AzureVMFirewall.__init__ <$> found)
          | Some (inr fw) => ret (Some fw)
          | None => ret None
          end ;;
    match fw with
    | None => raise AttributeError
    | Some fw =>
        clone_rules (ClientPagedResultList.data (list fw None None)) None
    end
  else ret None.
End Methods.
End AzureVMFirewallRuleContainer.

(* ===================================================================== *)
(** * AzureVolume *)
(* ===================================================================== *)

Module AzureVolume.
Definition VOLUME_STATE_MAP : list (string * VolumeState.t) :=
  [ ("InProgress", VolumeState.CREATING);
    ("Creating", VolumeState.CREATING);
    ("Unattached", VolumeState.AVAILABLE);
    ("Attached", VolumeState.IN_USE);
    ("Deleting", VolumeState.CONFIGURING);
    ("Updating", VolumeState.CONFIGURING);
    ("Deleted", VolumeState.DELETED);
    ("Failed", VolumeState.ERROR);
    ("Canceled", VolumeState.ERROR) ].

Record t := Build {
  _volume : Disk.t;
  _description : option string;
  _state : option string
}.

Definition _update_state (self : t) : t :=
  if negb (bool_decide (Disk.provisioning_state (_volume self) = Some "Succeeded"))
  then Build (_volume self) (_description self) (Disk.provisioning_state (_volume self))
  else if truthy (Disk.managed_by (_volume self))
  then Build (_volume self) (_description self) (Some "Attached")
  else Build (_volume self) (_description self) (Some "Unattached").

Definition __init__ (volume : Disk.t) : t :=
  let self := Build volume None (Some "unknown") in
  let self := _update_state self in
  if negb (truthy (Disk.tags (_volume self)))
  then Build (Disk.set_tags (Some ∅) (_volume self)) (_description self) (_state self)
  else self.

Definition id (self : t) : string := Disk.name (_volume self).

Definition name (self : t) : outcome pyval :=
  match Disk.tags (_volume self) with
  | None => Raised AttributeError
  | Some tags => Returned (tags_get tags "Name" (VStr (Disk.name (_volume self))))
  end.

Definition state (self : t) : VolumeState.t :=
  state_get VOLUME_STATE_MAP (_state self) VolumeState.UNKNOWN.

Section Methods.
Context `{Provider}.

Definition set_name (value : string) : M t unit :=
  assert_valid_resource_name value ;;
  self <- get_self ;;
  match Disk.tags (_volume self) with
  | None => raise AttributeError
  | Some tags =>
      set_self (Build (Disk.set_tags (Some (tags_update tags "Name" (VStr value)))
                                     (_volume self))
                      (_description self) (_state self)) ;;
      self <- get_self ;;
      invoke (azure_client.update_disk_tags (id self) (Disk.tags (_volume self)))
  end.
End Methods.
End AzureVolume.

(* ===================================================================== *)
(** * AzureSnapshot, AzureMachineImage, AzureNetwork, AzureRouter *)
(* ===================================================================== *)

Module AzureSnapshot.
Record t := Build {
  _snapshot : Snapshot.t;
  _description : option string;
  _state : option string
}.

Definition __init__ (snapshot : Snapshot.t) : t :=
  let self := Build snapshot None (Snapshot.provisioning_state snapshot) in
  if negb (truthy (Snapshot.tags (_snapshot self)))
  then Build (Snapshot.set_tags (Some ∅) (_snapshot self)) (_description self) (_state self)
  else self.

Definition id (self : t) : string := Snapshot.name (_snapshot self).

Definition name (self : t) : outcome pyval :=
  match Snapshot.tags (_snapshot self) with
  | None => Raised AttributeError
  | Some tags => Returned (tags_get tags "Name" (VStr (Snapshot.name (_snapshot self))))
  end.

Section Methods.
Context `{Provider}.

Definition set_name (value : string) : M t unit :=
  assert_valid_resource_name value ;;
  self <- get_self ;;
  match Snapshot.tags (_snapshot self) with
  | None => raise AttributeError
  | Some tags =>
      set_self (Build (Snapshot.set_tags (Some (tags_update tags "Name" (VStr value)))
                                         (_snapshot self))
                      (_description self) (_state self)) ;;
      self <- get_self ;;
      invoke (azure_client.update_snapshot_tags (id self)
                                                (Snapshot.tags (_snapshot self)))
  end.
End Methods.
End AzureSnapshot.

Module AzureMachineImage.
Record t := Build {
  _image : Image.t;
  _state : option string
}.

Definition __init__ (image : Image.t) : t :=
  let self := Build image (Image.provisioning_state image) in
  if negb (truthy (Image.tags (_image self)))
  then Build (Image.set_tags (Some ∅) (_image self)) (_state self)
  else self.

Definition id (self : t) : string := Image.name (_image self).

Definition name (self : t) : outcome pyval :=
  match Image.tags (_image self) with
  | None => Raised AttributeError
  | Some tags => Returned (tags_get tags "Name" (VStr (Image.name (_image self))))
  end.

Section Methods.
Context `{Provider}.

Definition set_name (value : string) : M t unit :=
  assert_valid_resource_name value ;;
  self <- get_self ;;
  match Image.tags (_image self) with
  | None => raise AttributeError
  | Some tags =>
      set_self (Build (Image.set_tags (Some (tags_update tags "Name" (VStr value)))
                                      (_image self))
                      (_state self)) ;;
      self <- get_self ;;
      invoke (azure_client.update_image_tags (id self) (Image.tags (_image self)))
  end.
End Methods.
End AzureMachineImage.

Module AzureNetwork.
Record t := Build {
  _network : VirtualNetwork.t;
  _state : option string
}.

Definition __init__ (network : VirtualNetwork.t) : t :=
  let self := Build network (VirtualNetwork.provisioning_state network) in
  if negb (truthy (VirtualNetwork.tags (_network self)))
  then Build (VirtualNetwork.set_tags (Some ∅) (_network self)) (_state self)
  else self.

Definition id (self : t) : string := VirtualNetwork.name (_network self).

Definition name (self : t) : outcome pyval :=
  match VirtualNetwork.tags (_network self) with
  | None => Raised AttributeError
  | Some tags =>
      Returned (tags_get tags "Name" (VStr (VirtualNetwork.name (_network self))))
  end.

Section Methods.
Context `{Provider}.

Definition set_name (value : string) : M t unit :=
  assert_valid_resource_name value ;;
  self <- get_self ;;
  match VirtualNetwork.tags (_network self) with
  | None => raise AttributeError
  | Some tags =>
      set_self (Build (VirtualNetwork.set_tags
                         (Some (tags_update tags "Name" (VStr value)))
                         (_network self))
                      (_state self)) ;;
      self <- get_self ;;
      invoke (azure_client.update_network_tags (id self) (_network self))
  end.
End Methods.
End AzureNetwork.

Module AzureRouter.
Record t := Build { _route_table : RouteTable.t }.

Definition __init__ (route_table : RouteTable.t) : t :=
  let self := Build route_table in
  if negb (truthy (RouteTable.tags (_route_table self)))
  then Build (RouteTable.set_tags (Some ∅) (_route_table self))
  else self.

Definition id (self : t) : string := RouteTable.name (_route_table self).

Definition name (self : t) : outcome pyval :=
  match RouteTable.tags (_route_table self) with
  | None => Raised AttributeError
  | Some tags =>
      Returned (tags_get tags "Name" (VStr (RouteTable.name (_route_table self))))
  end.

Section Methods.
Context `{Provider}.

Definition set_name (value : string) : M t unit :=
  assert_valid_resource_name value ;;
  self <- get_self ;;
  match RouteTable.tags (_route_table self) with
  | None => raise AttributeError
  | Some tags =>
      set_self (Build (RouteTable.set_tags
                         (Some (tags_update tags "Name" (VStr value)))
                         (_route_table self))) ;;
      self <- get_self ;;
      invoke (azure_client.update_route_table_tags
                (RouteTable.name (_route_table self)) (_route_table self))
  end.
End Methods.
End AzureRouter.

(* ===================================================================== *)
(** * AzureSubnet *)
(* ===================================================================== *)

Module AzureSubnet.
Record t := Build {
  _subnet : Subnet.t;
  _state : option string;
  _url_params : gmap string string;
  _network : VirtualNetwork.t
}.

Definition network_id (self : t) : option string := _url_params self !! NETWORK_NAME.

(** [self.network_id + '|$|' + self._subnet.name]; [None + str] is a
    [TypeError]. *)
Definition id (self : t) : outcome string :=
  match network_id self with
  | None => Raised TypeError
  | Some network_id => Returned (network_id +:+ "|$|" +:+ Subnet.name (_subnet self))
  end.

Section Methods.
Context `{Provider}.

(** The constructor; the store it runs in has no [self] yet. *)
Definition __init__ (subnet : Subnet.t) : M unit t :=
  let url_params := parse_url SUBNET_RESOURCE_ID (Subnet.id subnet) in
  network <- invoke (azure_client.get_network (url_params !! NETWORK_NAME)) ;;
  ret (Build subnet (Subnet.provisioning_state subnet) url_params network).

Definition delete : M t bool :=
  try_except
    (self <- get_self ;;
     self_id <- lift_outcome (id self) ;;
     let subnet_id_parts := py_split "|$|" None self_id in
     part0 <- lift_outcome (py_index subnet_id_parts 0) ;;
     part1 <- lift_outcome (py_index subnet_id_parts 1) ;;
     invoke (azure_client.delete_subnet part0 part1) ;;
     ret true)
    is_CloudError
    (fun cloudError =>
       msg <- exn_message cloudError ;;
       log_exception msg ;;
       ret false).
End Methods.
End AzureSubnet.

(* ===================================================================== *)
(** * AzureFloatingIP (identity only) and AzureInstance *)
(* ===================================================================== *)

Module AzureFloatingIP.
Record t := Build { _ip : PublicIPAddress.t; _network_id : string }.
Definition id (self : t) : string := PublicIPAddress.id (_ip self).
End AzureFloatingIP.

Module AzureInstance.
Definition INSTANCE_STATE_MAP : list (string * InstanceState.t) :=
  [ ("InProgress", InstanceState.PENDING);
    ("Creating", InstanceState.PENDING);
    ("VM running", InstanceState.RUNNING);
    ("Updating", InstanceState.CONFIGURING);
    ("Deleted", InstanceState.DELETED);
    ("Stopping", InstanceState.CONFIGURING);
    ("Deleting", InstanceState.CONFIGURING);
    ("Stopped", InstanceState.STOPPED);
    ("Canceled", InstanceState.ERROR);
    ("Failed", InstanceState.ERROR);
    ("VM stopped", InstanceState.STOPPED);
    ("VM deallocated", InstanceState.STOPPED);
    ("VM deallocating", InstanceState.CONFIGURING);
    ("VM stopping", InstanceState.CONFIGURING);
    ("VM starting", InstanceState.CONFIGURING) ].

Record t := Build {
  _vm : VirtualMachine.t;
  _state : option string;
  _private_ips : list (option string);
  _public_ips : list (option string);
  _vm_firewall_ids : list (option string);
  _public_ip_ids : list (option string);
  _nic_ids : list (option string)
}.

Definition set_vm (v : VirtualMachine.t) (x : t) : t :=
  Build v (_state x) (_private_ips x) (_public_ips x) (_vm_firewall_ids x)
        (_public_ip_ids x) (_nic_ids x).
Definition set_state (v : option string) (x : t) : t :=
  Build (_vm x) v (_private_ips x) (_public_ips x) (_vm_firewall_ids x)
        (_public_ip_ids x) (_nic_ids x).
Definition append_private_ip (v : option string) (x : t) : t :=
  Build (_vm x) (_state x) (_private_ips x ++ [v]) (_public_ips x) (_vm_firewall_ids x)
        (_public_ip_ids x) (_nic_ids x).
Definition append_public_ip (v : option string) (x : t) : t :=
  Build (_vm x) (_state x) (_private_ips x) (_public_ips x ++ [v]) (_vm_firewall_ids x)
        (_public_ip_ids x) (_nic_ids x).
Definition append_vm_firewall_id (v : option string) (x : t) : t :=
  Build (_vm x) (_state x) (_private_ips x) (_public_ips x) (_vm_firewall_ids x ++ [v])
        (_public_ip_ids x) (_nic_ids x).
Definition append_public_ip_id (v : option string) (x : t) : t :=
  Build (_vm x) (_state x) (_private_ips x) (_public_ips x) (_vm_firewall_ids x)
        (_public_ip_ids x ++ [v]) (_nic_ids x).
Definition append_nic_id (v : option string) (x : t) : t :=
  Build (_vm x) (_state x) (_private_ips x) (_public_ips x) (_vm_firewall_ids x)
        (_public_ip_ids x) (_nic_ids x ++ [v]).

Definition id (self : t) : string := VirtualMachine.name (_vm self).

Definition name (self : t) : outcome pyval :=
  match VirtualMachine.tags (_vm self) with
  | None => Raised AttributeError
  | Some tags => Returned (tags_get tags "Name" (VStr (VirtualMachine.name (_vm self))))
  end.

Definition state (self : t) : InstanceState.t :=
  state_get INSTANCE_STATE_MAP (_state self) InstanceState.UNKNOWN.

(** The test of [delete] on a fetched data disk:
    [disk and disk.tags and disk.tags.get('delete_on_terminate', 'False') == 'True'] *)
Definition delete_on_terminate (disk : option Disk.t) : bool :=
  match disk with
  | None => false
  | Some disk =>
      truthy (Disk.tags disk) &&
      match Disk.tags disk with
      | None => false
      | Some tags => py_eq (tags_get tags "delete_on_terminate" (VStr "False")) (VStr "True")
      end
  end.

Section Methods.
Context `{Provider}.

Definition modify_self (f : t -> t) : M t unit :=
  self <- get_self ;; set_self (f self).

Definition _get_network_attributes : M t unit :=
  modify_self (fun self => Build (_vm self) (_state self) [] [] [] [] []) ;;
  self <- get_self ;;
  for_each (NetworkProfile.network_interfaces (VirtualMachine.network_profile (_vm self)))
    (fun nic =>
       let nic_params := parse_url NETWORK_INTERFACE_RESOURCE_ID (SubResource.id nic) in
       let nic_name := nic_params !! NETWORK_INTERFACE_NAME in
       modify_self (append_nic_id nic_name) ;;
       nic <- invoke (azure_client.get_nic nic_name) ;;
       match NetworkInterface.network_security_group nic with
       | Some network_security_group =>
           let fw_params :=
             parse_url VM_FIREWALL_RESOURCE_ID (SubResource.id network_security_group) in
           modify_self (append_vm_firewall_id (fw_params !! VM_FIREWALL_NAME))
       | None => ret tt
       end ;;
       if truthy (NetworkInterface.ip_configurations nic)
       then
         for_each (default [] (NetworkInterface.ip_configurations nic))
           (fun ip_config =>
              modify_self (append_private_ip
                             (IPConfiguration.private_ip_address ip_config)) ;;
              match IPConfiguration.public_ip_address ip_config with
              | Some public_ip_address =>
                  let url_params :=
                    parse_url PUBLIC_IP_RESOURCE_ID (SubResource.id public_ip_address) in
                  let public_ip_name := url_params !! PUBLIC_IP_NAME in
                  public_ip <- invoke (azure_client.get_public_ip public_ip_name) ;;
                  modify_self (append_public_ip_id public_ip_name) ;;
                  modify_self (append_public_ip (PublicIPAddress.ip_address public_ip))
              | None => ret tt
              end)
       else ret tt).

(** [refresh] and [_update_state] call each other; [refresh_with] is
    [refresh] with the call to [_update_state] left open. *)
Definition refresh_with (update_state : M t unit) : M t unit :=
  try_except
    (self <- get_self ;;
     vm <- invoke (azure_client.get_vm (id self)) ;;
     modify_self (set_vm vm) ;;
     self <- get_self ;;
     (if negb (truthy (VirtualMachine.tags (_vm self)))
      then modify_self (set_vm (VirtualMachine.set_tags (Some ∅) (_vm self)))
      else ret tt) ;;
     update_state ;;
     _get_network_attributes)
    (fun e => match e with CloudError _ | ValueError _ => true | _ => false end)
    (fun cloudError =>
       msg <- exn_message cloudError ;;
       log_exception msg ;;
       modify_self (set_state (Some "unknown"))).

(** [depth] bounds the nesting of calls the way the interpreter's
    recursion limit does: when it is used up, [RecursionError] is raised. *)
Fixpoint _update_state (depth : nat) : M t unit :=
  match depth with
  | O => raise RecursionError
  | S depth' =>
      self <- get_self ;;
      (if negb (truthy_object (VirtualMachine.instance_view (_vm self)))
       then refresh_with (_update_state depth')
       else ret tt) ;;
      self <- get_self ;;
      match VirtualMachine.instance_view (_vm self) with
      | Some instance_view =>
          match VirtualMachineInstanceView.statuses instance_view with
          | None => raise TypeError
          | Some statuses =>
              if (1 <? length statuses)%nat
              then
                status <- lift_outcome (py_index statuses 1) ;;
                modify_self (set_state (InstanceViewStatus.display_status status))
              else
                modify_self (set_state (VirtualMachine.provisioning_state (_vm self)))
          end
      | None =>
          modify_self (set_state (VirtualMachine.provisioning_state (_vm self)))
      end
  end.

Definition refresh (depth : nat) : M t unit := refresh_with (_update_state depth).

Definition __init__ (depth : nat) (vm_instance : VirtualMachine.t) : M t unit :=
  modify_self (set_vm vm_instance) ;;
  _update_state depth ;;
  _get_network_attributes ;;
  self <- get_self ;;
  if negb (truthy (VirtualMachine.tags (_vm self)))
  then modify_self (set_vm (VirtualMachine.set_tags (Some ∅) (_vm self)))
  else ret tt.

Definition set_name (value : string) : M t unit :=
  assert_valid_resource_name value ;;
  self <- get_self ;;
  match VirtualMachine.tags (_vm self) with
  | None => raise AttributeError
  | Some tags =>
      modify_self (set_vm (VirtualMachine.set_tags
                             (Some (tags_update tags "Name" (VStr value))) (_vm self))) ;;
      self <- get_self ;;
      invoke (azure_client.update_vm_tags (id self) (_vm self))
  end.

(** The body of the loop of [delete] over the data disks. *)
Definition delete_data_disk (data_disk : VMDisk.t) : M t unit :=
  match VMDisk.managed_disk data_disk with
  | Some managed_disk =>
      let disk_params := parse_url VOLUME_RESOURCE_ID (SubResource.id managed_disk) in
      disk <- invoke (azure_client.get_disk (disk_params !! VOLUME_NAME)) ;;
      if delete_on_terminate disk
      then invoke (azure_client.delete_disk (disk_params !! VOLUME_NAME))
      else ret tt
  | None => ret tt
  end.

Definition delete : M t unit :=
  self <- get_self ;;
  invoke (azure_client.deallocate_vm (id self)) ;;
  invoke (azure_client.delete_vm (id self)) ;;
  for_each (_nic_ids self) (fun nic_id => invoke (azure_client.delete_nic nic_id)) ;;
  for_each (_public_ip_ids self)
    (fun public_ip_id => invoke (azure_client.delete_public_ip public_ip_id)) ;;
  for_each (StorageProfile.data_disks (VirtualMachine.storage_profile (_vm self)))
    delete_data_disk ;;
  match VMDisk.managed_disk
          (StorageProfile.os_disk (VirtualMachine.storage_profile (_vm self))) with
  | Some managed_disk =>
      let disk_params := parse_url VOLUME_RESOURCE_ID (SubResource.id managed_disk) in
      invoke (azure_client.delete_disk (disk_params !! VOLUME_NAME))
  | None => ret tt
  end.

(** The loop of [remove_floating_ip].  A Python list iterator reads the
    live list by position, so the loop does: [nic] is the interface as
    the loop has changed it so far, [i] the position of the iterator and
    [n] the number of positions left. *)
Fixpoint remove_floating_ip_loop (n i : nat) (nic : NetworkInterface.t)
         (floating_ip : AzureFloatingIP.t) : M t unit :=
  match n with
  | O => ret tt
  | S n' =>
      match default [] (NetworkInterface.ip_configurations nic) !! i with
      | None => ret tt
      | Some ip_config =>
          match IPConfiguration.public_ip_address ip_config with
          | None => raise AttributeError
          | Some public_ip_address =>
              if String.eqb (SubResource.id public_ip_address)
                            (AzureFloatingIP.id floating_ip)
              then
                let nic :=
                  NetworkInterface.set_ip_configurations
                    (alter (IPConfiguration.set_public_ip_address None) 0%nat
                       <$> NetworkInterface.ip_configurations nic) nic in
                self <- get_self ;;
                nic_id <- lift_outcome (py_index (_nic_ids self) 0) ;;
                invoke (azure_client.update_nic nic_id nic) ;;
                remove_floating_ip_loop n' (S i) nic floating_ip
              else remove_floating_ip_loop n' (S i) nic floating_ip
          end
      end
  end.

Definition remove_floating_ip (floating_ip : AzureFloatingIP.t) : M t unit :=
  self <- get_self ;;
  nic_id <- lift_outcome (py_index (_nic_ids self) 0) ;;
  nic <- invoke (azure_client.get_nic nic_id) ;;
  match NetworkInterface.ip_configurations nic with
  | None => raise TypeError
  | Some ip_configurations =>
      remove_floating_ip_loop (length ip_configurations) 0 nic floating_ip
  end.
End Methods.
End AzureInstance.

(* ===================================================================== *)
(** * A control plane that stores what it is asked to create *)
(* ===================================================================== *)

(** The security rule a control plane holds after a creation request that it
    accepted unchanged. *)
Definition rule_of_parameters (rule_name : string) (p : RuleParameters.t) : SecurityRule.t :=
  {| SecurityRule.name := rule_name;
     SecurityRule.priority := RuleParameters.priority p;
     SecurityRule.protocol := RuleParameters.protocol p;
     SecurityRule.source_port_range := RuleParameters.source_port_range p;
     SecurityRule.source_address_prefix := RuleParameters.source_address_prefix p;
     SecurityRule.destination_port_range := RuleParameters.destination_port_range p;
     SecurityRule.destination_address_prefix := RuleParameters.destination_address_prefix p;
     SecurityRule.access := RuleParameters.access p;
     SecurityRule.direction := RuleParameters.direction p |}.

(** A provider stores rules as requested when every rule creation is answered
    with the rule of the request. *)
Definition stores_rules_as_requested `{Provider} : Prop :=
  forall fw_id rule_name parameters w,
    exists w',
      handle (azure_client.create_vm_firewall_rule fw_id rule_name parameters) w
      = (Returned (rule_of_parameters rule_name parameters), w').

(** A provider that answers every call. *)
Definition never_raises `{Provider} : Prop :=
  forall r w, exists a w', handle r w = (Returned a, w').

(** A provider whose [update_nic] always succeeds. *)
Definition update_nic_succeeds `{Provider} : Prop :=
  forall nic_name nic w,
    exists w', handle (azure_client.update_nic nic_name nic) w = (Returned tt, w').

(** ** A scripted provider, to run the adapters on examples

    Its remote state is trivial: the answers are read from fixed tables and
    [faults] says which calls raise. *)
Module Scripted.
Record script := Script {
  faults : azure_client.request -> option exn;
  disks : option string -> option Disk.t;
  vms : string -> VirtualMachine.t;
  nics : option string -> NetworkInterface.t;
  firewalls : string -> option NetworkSecurityGroup.t
}.

Definition a_network : VirtualNetwork.t :=
  VirtualNetwork.Build "net1" "/virtualNetworks/net1" None (Some "Succeeded") "eastus".

Definition a_public_ip : PublicIPAddress.t :=
  PublicIPAddress.Build "/publicIPAddresses/ip1" (Some "13.0.0.1").

Definition answer (sc : script) (r : azure_client.request) : azure_client.response r :=
  match r with
  | azure_client.create_vm_firewall_rule _ rule_name parameters =>
      rule_of_parameters rule_name parameters
  | azure_client.vm_firewalls_get fw_id => firewalls sc fw_id
  | azure_client.get_disk disk_name => disks sc disk_name
  | azure_client.get_network _ => a_network
  | azure_client.get_vm vm_id => vms sc vm_id
  | azure_client.get_nic nic_name => nics sc nic_name
  | azure_client.get_public_ip _ => a_public_ip
  | _ => tt
  end.

(** In the examples a resource id is the resource's name, which is what
    the parser returns under every parameter name. *)
Definition parse (template url : string) : gmap string string :=
  list_to_map
    [ (NETWORK_NAME, url); (NETWORK_INTERFACE_NAME, url); (PUBLIC_IP_NAME, url);
      (VOLUME_NAME, url); (VM_FIREWALL_NAME, url) ].

Definition provider (sc : script) : Provider :=
  {| world := unit;
     handle r w :=
       (match faults sc r with
        | Some e => Raised e
        | None => Returned (answer sc r)
        end, w);
     parse_url := parse;
     is_valid_resource_name := fun value => truthy value |}.

Definition start {Self} (sc : script) (x : Self) : @store (provider sc) Self :=
  @Store (provider sc) Self x tt [] [].

Definition no_faults : azure_client.request -> option exn := fun _ => None.

Definition a_vm (instance_view : option VirtualMachineInstanceView.t) : VirtualMachine.t :=
  VirtualMachine.Build "vm1" "/virtualMachines/vm1" None (Some "Succeeded") instance_view
    (NetworkProfile.Build []) (StorageProfile.Build [] (VMDisk.Build None)).

Definition a_nic : NetworkInterface.t := NetworkInterface.Build None (Some []).

Definition plain : script :=
  Script no_faults (fun _ => None) (fun _ => a_vm None) (fun _ => a_nic) (fun _ => None).
End Scripted.

(* ===================================================================== *)
(** * Vocabulary of the statements *)
(* ===================================================================== *)


(** The creation request that [_create_rule] sends. *)
Definition rule_request (firewall : AzureVMFirewall.t) (direction : TrafficDirection.t)
           (protocol : string) (from_port to_port : Z) (cidr : option string)
  : azure_client.request :=
  let count :=
    Z.of_nat (length (NetworkSecurityGroup.security_rules
                        (AzureVMFirewall._vm_firewall firewall))) + 1 in
  azure_client.create_vm_firewall_rule
    (AzureVMFirewall.id firewall)
    ("Rule - " +:+ py_str count)
    {| RuleParameters.priority := 1000 + count;
       RuleParameters.protocol := protocol;
       RuleParameters.source_port_range := "*";
       RuleParameters.source_address_prefix :=
         if negb (truthy cidr) then "0.0.0.0/0" else default "" cidr;
       RuleParameters.destination_port_range := py_str from_port +:+ "-" +:+ py_str to_port;
       RuleParameters.destination_address_prefix := "*";
       RuleParameters.access := "Allow";
       RuleParameters.direction :=
         if TrafficDirection.eqb direction TrafficDirection.INBOUND
         then "Inbound" else "Outbound" |}.

(** The firewall with one more rule at the end of its in-memory list. *)
Definition with_rule_appended (firewall : AzureVMFirewall.t) (result : SecurityRule.t)
  : AzureVMFirewall.t :=
  AzureVMFirewall.Build
    (NetworkSecurityGroup.set_security_rules
       (NetworkSecurityGroup.security_rules (AzureVMFirewall._vm_firewall firewall) ++ [result])
       (AzureVMFirewall._vm_firewall firewall)).

(** The disk a [get_disk] call fetched, with the name it was asked for. *)
Definition fetched_disk (ev : event) : option (option string * option Disk.t) :=
  match ev with
  | Event r o =>
      match r as r0
            return outcome (azure_client.response r0)
                   -> option (option string * option Disk.t) with
      | azure_client.get_disk disk_name =>
          fun o => match o with
                   | Returned disk => Some (disk_name, disk)
                   | Raised _ => None
                   end
      | _ => fun _ => None
      end o
  end.

(** The name a [delete_disk] call was made on. *)
Definition deleted_disk (ev : event) : option (option string) :=
  match request_of ev with
  | azure_client.delete_disk disk_name => Some disk_name
  | _ => None
  end.

(** The disk name that [delete] reads out of a managed disk reference. *)
Definition managed_disk_name `{Provider} (managed_disk : SubResource.t) : option string :=
  parse_url VOLUME_RESOURCE_ID (SubResource.id managed_disk) !! VOLUME_NAME.

(** What a tag-backed adapter promises, in terms of its payload's tags and
    raw name, its constructor, its [name] property and the setter of [name]:
    the constructed adapter has a tag mapping; it is the empty one when the
    payload had none, and then [name] is the raw name; [name] is the value of
    the [Name] tag when there is one and the raw name otherwise; and after
    the setter was given a valid name, [name] is that name. *)
Definition tag_backed {Payload Adapter : Type}
           (payload_tags : Payload -> option (gmap string pyval))
           (raw_name : Payload -> string)
           (init : Payload -> Adapter)
           (payload : Adapter -> Payload)
           (name : Adapter -> outcome pyval)
           (set_name : forall P : Provider, string -> @M P Adapter unit) : Prop :=
  (forall p, payload_tags (payload (init p)) <> None
             /\ raw_name (payload (init p)) = raw_name p)
  /\ (forall p, truthy (payload_tags p) = false ->
                payload_tags (payload (init p)) = Some ∅
                /\ name (init p) = Returned (VStr (raw_name p)))
  /\ (forall a tags, payload_tags (payload a) = Some tags ->
                     name a = Returned (default (VStr (raw_name (payload a)))
                                                (tags !! "Name")))
  /\ (forall (P : Provider) (s : @store P Adapter) (value : string) tags,
         payload_tags (payload (self s)) = Some tags ->
         is_valid_resource_name value = true ->
         name (self (snd (set_name P value s))) = Returned (VStr value)
         /\ raw_name (payload (self (snd (set_name P value s))))
            = raw_name (payload (self s))).

Section RunVocabulary.
Context `{Provider}.

(** What a run added to the trace: [calls], with the same [self]. *)
Definition adds {Self} (s s' : store Self) (calls : list event) : Prop :=
  trace s' = trace s ++ calls /\ self s' = self s.

(** Calls that neither fetch nor delete a disk. *)
Definition no_disk_calls (calls : list event) : Prop :=
  omap fetched_disk calls = [] /\ omap deleted_disk calls = [].

(** A computation that leaves the payload [_vm] of the instance alone,
    however it ends. *)
Definition keeps_vm {A} (m : M AzureInstance.t A) : Prop :=
  forall s, AzureInstance._vm (self (snd (m s))) = AzureInstance._vm (self s).

(** A computation that returns from every state. *)
Definition returns {A} (m : M AzureInstance.t A) : Prop :=
  forall s, exists a s', m s = (Returned a, s').

(** The last step of the instance constructor. *)
Definition fill_in_tags : M AzureInstance.t unit :=
  self <- get_self ;;
  if negb (truthy (VirtualMachine.tags (AzureInstance._vm self)))
  then AzureInstance.modify_self
         (AzureInstance.set_vm (VirtualMachine.set_tags (Some ∅) (AzureInstance._vm self)))
  else ret tt.
End RunVocabulary.

(* ===================================================================== *)
(** * Payloads and providers for the examples *)
(* ===================================================================== *)

Definition attached_volume : Disk.t :=
  Disk.Build "disk1" "/disks/disk1" None (Some "Succeeded") (Some "/virtualMachines/vm1").

Definition running_view : VirtualMachineInstanceView.t :=
  VirtualMachineInstanceView.Build
    (Some [ InstanceViewStatus.Build (Some "Provisioning succeeded");
            InstanceViewStatus.Build (Some "VM running") ]).

Definition a_subnet (network_id name : string) : AzureSubnet.t :=
  AzureSubnet.Build (Subnet.Build name ("/subnets/" +:+ name) (Some "Succeeded") "10.0.0.0/24")
                    (Some "Succeeded") {[ NETWORK_NAME := network_id ]} Scripted.a_network.

Definition an_empty_firewall : AzureVMFirewall.t :=
  AzureVMFirewall.__init__ (NetworkSecurityGroup.Build "fw1" "/nsg/fw1" None []).

Definition tagged_disk (name : string) (tags : option (gmap string pyval)) : Disk.t :=
  Disk.Build name name tags (Some "Succeeded") (Some "vm1").

Definition some_disks (disk_name : option string) : option Disk.t :=
  match disk_name with
  | Some name =>
      if String.eqb name "d1"
      then Some (tagged_disk "d1" (Some {[ "delete_on_terminate" := VStr "True" ]}))
      else if String.eqb name "d2"
      then Some (tagged_disk "d2" (Some {[ "delete_on_terminate" := VBool true ]}))
      else if String.eqb name "d3"
      then Some (tagged_disk "d3" None)
      else if String.eqb name "d4"
      then Some (tagged_disk "d4" (Some {[ "delete_on_terminate" := VStr "False" ]}))
      else if String.eqb name "d5"
      then Some (tagged_disk "d5" (Some {[ "Name" := VStr "data" ]}))
      else None
  | None => None
  end.

Definition a_vm_with_disks : VirtualMachine.t :=
  let managed name := VMDisk.Build (Some (SubResource.Build name)) in
  VirtualMachine.Build "vm1" "vm1" (Some ∅) (Some "Succeeded") None
    (NetworkProfile.Build [SubResource.Build "nic1"])
    (StorageProfile.Build
       [managed "d1"; managed "d2"; VMDisk.Build None; managed "d3"; managed "d4";
        managed "d5"; managed "gone"]
       (managed "os")).

Definition an_instance_with_disks : AzureInstance.t :=
  AzureInstance.Build a_vm_with_disks (Some "VM running") [Some "10.0.0.4"] [Some "13.0.0.1"]
                      [] [Some "ip1"] [Some "nic1"].

Definition disks_script : Scripted.script :=
  Scripted.Script Scripted.no_faults some_disks (fun _ => a_vm_with_disks)
                  (fun _ => Scripted.a_nic) (fun _ => None).

Definition a_nic_with_unbound_configuration : NetworkInterface.t :=
  NetworkInterface.Build None
    (Some [ IPConfiguration.Build (Some "10.0.0.4")
              (Some (SubResource.Build "/publicIPAddresses/ip1"));
            IPConfiguration.Build (Some "10.0.0.5") None ]).

Definition unbound_script : Scripted.script :=
  Scripted.Script Scripted.no_faults (fun _ => None) (fun _ => Scripted.a_vm None)
                  (fun _ => a_nic_with_unbound_configuration) (fun _ => None).

Definition an_instance : AzureInstance.t :=
  AzureInstance.Build (Scripted.a_vm None) (Some "VM running") [] [] [] [] [Some "nic1"].

Definition a_blank_instance : AzureInstance.t :=
  AzureInstance.Build (Scripted.a_vm None) None [] [] [] [] [].

Definition a_fetched_vm : VirtualMachine.t :=
  VirtualMachine.Build "vm1" "/virtualMachines/vm1" (Some {[ "Name" := VStr "web" ]})
    (Some "Succeeded") (Some running_view)
    (NetworkProfile.Build []) (StorageProfile.Build [] (VMDisk.Build None)).

Definition refetch_script : Scripted.script :=
  Scripted.Script Scripted.no_faults (fun _ => None) (fun _ => a_fetched_vm)
                  (fun _ => Scripted.a_nic) (fun _ => None).

(* ===================================================================== *)
(** * More of the adapters *)
(* ===================================================================== *)

(** ** Further calls on the client facade

    The methods below make calls that the ones above do not.  They are
    answered by the same remote control plane, and recorded, with their
    answers, next to the object the method works on. *)
Module azure_client_more.
Inductive request : Type :=
| delete_vm_firewall_rule (fw_rule_id : string) (vm_firewall : pyval)
| list_vm
| update_vm (vm_name : string) (vm : VirtualMachine.t).

Definition response (r : request) : Type :=
  match r with
  | list_vm => list VirtualMachine.t
  | _ => unit
  end.
End azure_client_more.

Class MoreCalls `{Provider} := {
  handle_more : forall r : azure_client_more.request,
      world -> outcome (azure_client_more.response r) * world
}.

Record more_event := MoreEvent {
  more_request_of : azure_client_more.request;
  more_outcome_of : outcome (azure_client_more.response more_request_of)
}.

(** An object together with the further calls made while working on it. *)
Record called (T : Type) := Called {
  object : T;
  more_trace : list more_event
}.
Arguments Called {T} _ _.
Arguments object {T} _.
Arguments more_trace {T} _.

Definition more_requests (tr : list more_event) : list azure_client_more.request :=
  map more_request_of tr.

Section MoreMonad.
Context `{MoreCalls} {T : Type}.

Definition get_object : M (called T) T :=
  fun s => (Returned (object (self s)), s).

Definition set_object (x : T) : M (called T) unit :=
  fun s => (Returned tt,
            Store (Called x (more_trace (self s))) (remote s) (trace s) (logged s)).

Definition invoke_more (r : azure_client_more.request)
  : M (called T) (azure_client_more.response r) :=
  fun s =>
    let '(o, w) := handle_more r (remote s) in
    (o, Store (Called (object (self s)) (more_trace (self s) ++ [MoreEvent r o]))
              w (trace s) (logged s)).
End MoreMonad.

(** ** AzureVMFirewall: description *)

Module AzureVMFirewallRest.
(** [self._vm_firewall.tags.get('Description', None)] *)
Definition description (self : AzureVMFirewall.t) : outcome pyval :=
  match NetworkSecurityGroup.tags (AzureVMFirewall._vm_firewall self) with
  | None => Raised AttributeError
  | Some tags => Returned (tags_get tags "Description" VNone)
  end.

Section Methods.
Context `{Provider}.

(** The [description] setter; the value is not checked. *)
Definition set_description (value : pyval) : M AzureVMFirewall.t unit :=
  self <- get_self ;;
  match NetworkSecurityGroup.tags (AzureVMFirewall._vm_firewall self) with
  | None => raise AttributeError
  | Some tags =>
      set_self (AzureVMFirewall.Build
                  (NetworkSecurityGroup.set_tags
                     (Some (tags_update tags "Description" value))
                     (AzureVMFirewall._vm_firewall self))) ;;
      self <- get_self ;;
      invoke (azure_client.update_vm_firewall_tags
                (AzureVMFirewall.id self)
                (NetworkSecurityGroup.tags (AzureVMFirewall._vm_firewall self)))
  end.
End Methods.
End AzureVMFirewallRest.

(** ** AzureVMFirewallRule: delete

    The rule's [self.firewall] is the firewall object it was made from; that
    shared object is the one the method runs on. *)

(** [for i, o in enumerate(rules): if o.name == name: del rules[i]; break] *)
Fixpoint remove_first_named (name : string) (rules : list SecurityRule.t)
  : list SecurityRule.t :=
  match rules with
  | [] => []
  | o :: rest =>
      if String.eqb (SecurityRule.name o) name
      then rest
      else o :: remove_first_named name rest
  end.

Module AzureVMFirewallRuleRest.
Section Methods.
Context `{MoreCalls}.

Definition delete (self : AzureVMFirewallRule.t) : M (called AzureVMFirewall.t) unit :=
  firewall <- get_object ;;
  vm_firewall <- lift_outcome (AzureVMFirewall.name firewall) ;;
  invoke_more (azure_client_more.delete_vm_firewall_rule
                 (AzureVMFirewallRule.id self) vm_firewall) ;;
  firewall <- get_object ;;
  let vm_firewall := AzureVMFirewall._vm_firewall firewall in
  set_object (AzureVMFirewall.Build
                (NetworkSecurityGroup.set_security_rules
                   (remove_first_named (AzureVMFirewallRule.name self)
                      (NetworkSecurityGroup.security_rules vm_firewall))
                   vm_firewall)).
End Methods.
End AzureVMFirewallRuleRest.

(** ** AzureVolume: attachments and detach *)

Definition INSTANCE_RESOURCE_ID : string :=
  "/subscriptions/{subscriptionId}/resourceGroups/{resourceGroupName}/providers/Microsoft.Compute/virtualMachines/{vmName}".
Definition VM_NAME : string := "vmName".

(** [BaseAttachmentInfo(volume, instance_id, device)] of the base resources. *)
Module BaseAttachmentInfo.
Record t := Build {
  volume : AzureVolume.t;
  instance_id : option string;
  device : option string
}.
End BaseAttachmentInfo.

Definition set_data_disks (v : list VMDisk.t) (vm : VirtualMachine.t) : VirtualMachine.t :=
  VirtualMachine.Build
    (VirtualMachine.name vm) (VirtualMachine.id vm) (VirtualMachine.tags vm)
    (VirtualMachine.provisioning_state vm) (VirtualMachine.instance_view vm)
    (VirtualMachine.network_profile vm)
    (StorageProfile.Build v (StorageProfile.os_disk (VirtualMachine.storage_profile vm))).

Definition data_disks_of (vm : VirtualMachine.t) : list VMDisk.t :=
  StorageProfile.data_disks (VirtualMachine.storage_profile vm).

#[global] Instance SubResource_eq_dec : EqDecision SubResource.t.
Proof. solve_decision. Defined.
#[global] Instance VMDisk_eq_dec : EqDecision VMDisk.t.
Proof. solve_decision. Defined.

(** [l.remove(item)]: the first element equal to [item] goes; [ValueError]
    when there is none. *)
Fixpoint py_remove (l : list VMDisk.t) (item : VMDisk.t) : outcome (list VMDisk.t) :=
  match l with
  | [] => Raised (ValueError None)
  | x :: rest =>
      if decide (x = item) then Returned rest
      else outcome_bind (py_remove rest item) (fun rest' => Returned (x :: rest'))
  end.

Module AzureVolumeRest.
Definition resource_id (self : AzureVolume.t) : string := Disk.id (AzureVolume._volume self).

(** [item.managed_disk and item.managed_disk.id == self.resource_id] *)
Definition is_disk_of (self : AzureVolume.t) (item : VMDisk.t) : bool :=
  match VMDisk.managed_disk item with
  | Some managed_disk => String.eqb (SubResource.id managed_disk) (resource_id self)
  | None => false
  end.

Definition attachments `{Provider} (self : AzureVolume.t) : option BaseAttachmentInfo.t :=
  if truthy (Disk.managed_by (AzureVolume._volume self))
  then
    let url_params :=
      parse_url INSTANCE_RESOURCE_ID (default "" (Disk.managed_by (AzureVolume._volume self))) in
    Some (BaseAttachmentInfo.Build self (url_params !! VM_NAME) None)
  else None.

Section Methods.
Context `{MoreCalls}.

(** The inner loop of [detach], over the data disks of one VM.  The loop
    removes from the list it iterates, and a list iterator reads the live
    list by position: [vm] is the VM as changed so far, [i] the position of
    the iterator and [n] the number of positions left. *)
Fixpoint detach_from_vm (n i : nat) (vm : VirtualMachine.t) : M (called AzureVolume.t) unit :=
  match n with
  | O => ret tt
  | S n' =>
      match data_disks_of vm !! i with
      | None => ret tt
      | Some item =>
          self <- get_object ;;
          if is_disk_of self item
          then
            data_disks <- lift_outcome (py_remove (data_disks_of vm) item) ;;
            let vm := set_data_disks data_disks vm in
            invoke_more (azure_client_more.update_vm (VirtualMachine.name vm) vm) ;;
            detach_from_vm n' (S i) vm
          else detach_from_vm n' (S i) vm
      end
  end.

(** [force] is accepted and not used. *)
Definition detach (force : bool) : M (called AzureVolume.t) bool :=
  vms <- invoke_more azure_client_more.list_vm ;;
  for_each vms (fun vm => detach_from_vm (length (data_disks_of vm)) 0 vm) ;;
  ret true.
End Methods.
End AzureVolumeRest.

(** ** AzureNetwork: state and refresh *)

Module NetworkState.
Inductive t := UNKNOWN | PENDING | AVAILABLE | DOWN | ERROR.
End NetworkState.

Module AzureNetworkRest.
Definition NETWORK_STATE_MAP : list (string * NetworkState.t) :=
  [ ("InProgress", NetworkState.PENDING);
    ("Succeeded", NetworkState.AVAILABLE) ].

Definition state (self : AzureNetwork.t) : NetworkState.t :=
  state_get NETWORK_STATE_MAP (AzureNetwork._state self) NetworkState.UNKNOWN.

Section Methods.
Context `{Provider}.

Definition refresh : M AzureNetwork.t unit :=
  try_except
    (self <- get_self ;;
     network <- invoke (azure_client.get_network (Some (AzureNetwork.id self))) ;;
     self <- get_self ;;
     set_self (AzureNetwork.Build network (AzureNetwork._state self)) ;;
     self <- get_self ;;
     set_self (AzureNetwork.Build
                 (AzureNetwork._network self)
                 (VirtualNetwork.provisioning_state (AzureNetwork._network self))))
    (fun e => match e with CloudError _ | ValueError _ => true | _ => false end)
    (fun cloudError =>
       msg <- exn_message cloudError ;;
       log_exception msg ;;
       self <- get_self ;;
       set_self (AzureNetwork.Build (AzureNetwork._network self) (Some "unknown"))).
End Methods.
End AzureNetworkRest.

(** ** AzureSubnet: refresh *)

Module AzureSubnetRest.
Section Methods.
Context `{Provider}.

Definition refresh : M AzureSubnet.t unit :=
  try_except
    (self <- get_self ;;
     self_id <- lift_outcome (AzureSubnet.id self) ;;
     network <- invoke (azure_client.get_network (Some self_id)) ;;
     self <- get_self ;;
     set_self (AzureSubnet.Build (AzureSubnet._subnet self) (AzureSubnet._state self)
                                 (AzureSubnet._url_params self) network) ;;
     self <- get_self ;;
     set_self (AzureSubnet.Build
                 (AzureSubnet._subnet self)
                 (VirtualNetwork.provisioning_state (AzureSubnet._network self))
                 (AzureSubnet._url_params self) (AzureSubnet._network self)))
    (fun e => match e with CloudError _ | ValueError _ => true | _ => false end)
    (fun cloudError =>
       msg <- exn_message cloudError ;;
       log_exception msg ;;
       self <- get_self ;;
       set_self (AzureSubnet.Build (AzureSubnet._subnet self) (Some "unknown")
                                   (AzureSubnet._url_params self) (AzureSubnet._network self))).
End Methods.
End AzureSubnetRest.

(** ** AzureInstance: add_floating_ip *)

Module AzureInstanceRest.
Section Methods.
Context `{Provider}.

(** The dictionary [{'id': floating_ip.id}] that is bound stands for the
    reference it is sent as. *)
Definition add_floating_ip (floating_ip : AzureFloatingIP.t) : M AzureInstance.t unit :=
  self <- get_self ;;
  nic_id <- lift_outcome (py_index (AzureInstance._nic_ids self) 0) ;;
  nic <- invoke (azure_client.get_nic nic_id) ;;
  match NetworkInterface.ip_configurations nic with
  | None => raise TypeError
  | Some ip_configurations =>
      lift_outcome (py_index ip_configurations 0) ;;
      let nic :=
        NetworkInterface.set_ip_configurations
          (Some (alter (IPConfiguration.set_public_ip_address
                          (Some (SubResource.Build (AzureFloatingIP.id floating_ip))))
                       0%nat ip_configurations))
          nic in
      self <- get_self ;;
      nic_id <- lift_outcome (py_index (AzureInstance._nic_ids self) 0) ;;
      invoke (azure_client.update_nic nic_id nic)
  end.
End Methods.
End AzureInstanceRest.

(* ===================================================================== *)
(** * Vocabulary of the further statements *)
(* ===================================================================== *)

(** The rule a creation call was answered with. *)
Definition created_rule (ev : event) : option SecurityRule.t :=
  match ev with
  | Event r o =>
      match r as r0
            return outcome (azure_client.response r0) -> option SecurityRule.t with
      | azure_client.create_vm_firewall_rule _ _ _ =>
          fun o => match o with
                   | Returned rule => Some rule
                   | Raised _ => None
                   end
      | _ => fun _ => None
      end o
  end.

(** The name and the priority a creation call asked for. *)
Definition requested_rule (r : azure_client.request) : option (string * Z) :=
  match r with
  | azure_client.create_vm_firewall_rule _ rule_name parameters =>
      Some (rule_name, RuleParameters.priority parameters)
  | _ => None
  end.

(** The calls [create] makes for the firewall [fw_id]: look-ups of a source
    firewall, and creations of rules for this firewall that allow traffic
    from any source port to any destination address on a port range written
    with a dash, at a priority above 1000. *)
Definition is_create_call (fw_id : string) (r : azure_client.request) : Prop :=
  match r with
  | azure_client.vm_firewalls_get _ => True
  | azure_client.create_vm_firewall_rule id _ p =>
      id = fw_id
      /\ RuleParameters.access p = "Allow"
      /\ RuleParameters.source_port_range p = "*"
      /\ RuleParameters.destination_address_prefix p = "*"
      /\ 1000 < RuleParameters.priority p
      /\ has_char "-" (RuleParameters.destination_port_range p) = true
      /\ RuleParameters.destination_port_range p <> "*"
      /\ (RuleParameters.direction p = "Inbound" \/ RuleParameters.direction p = "Outbound")
  | _ => False
  end.

(** The rules a firewall holds in memory. *)
Definition rules_of (firewall : AzureVMFirewall.t) : list SecurityRule.t :=
  NetworkSecurityGroup.security_rules (AzureVMFirewall._vm_firewall firewall).

(** The name and priority of the [i]-th rule a container creates. *)
Definition numbered (i : nat) : string * Z :=
  ("Rule - " +:+ py_str (Z.of_nat i), 1000 + Z.of_nat i).


(** The store of an object alone, and an object's store with no further
    calls made yet. *)
Definition object_store `{Provider} {T} (s : store (called T)) : store T :=
  Store (object (self s)) (remote s) (trace s) (logged s).

Definition called_store `{Provider} {T} (s : store T) : store (called T) :=
  Store (Called (self s) []) (remote s) (trace s) (logged s).

(** A provider that answers every further call. *)
Definition more_never_raises `{MoreCalls} : Prop :=
  forall r w, exists a w', handle_more r w = (Returned a, w').

(** A provider whose [get_vm] always answers, with a VM that has no
    instance view. *)
Definition never_has_instance_view `{Provider} : Prop :=
  forall vm_id w,
    exists vm w',
      handle (azure_client.get_vm vm_id) w = (Returned vm, w')
      /\ VirtualMachine.instance_view vm = None.

(** ** Further providers for the examples *)

Definition scripted_more (sc : Scripted.script) (vms : list VirtualMachine.t)
           (faults_more : azure_client_more.request -> option exn)
  : @MoreCalls (Scripted.provider sc) :=
  {| handle_more r w :=
       (match faults_more r with
        | Some e => Raised e
        | None =>
            Returned (match r return azure_client_more.response r with
                      | azure_client_more.list_vm => vms
                      | _ => tt
                      end)
        end, w) |}.



(** Two firewall objects over the same security group, rules apart. *)
Definition same_group (a b : AzureVMFirewall.t) : Prop :=
  NetworkSecurityGroup.name (AzureVMFirewall._vm_firewall a)
  = NetworkSecurityGroup.name (AzureVMFirewall._vm_firewall b)
  /\ NetworkSecurityGroup.id (AzureVMFirewall._vm_firewall a)
     = NetworkSecurityGroup.id (AzureVMFirewall._vm_firewall b)
  /\ NetworkSecurityGroup.tags (AzureVMFirewall._vm_firewall a)
     = NetworkSecurityGroup.tags (AzureVMFirewall._vm_firewall b).

(** What a run of the rule container did: it made [calls], all of them
    calls of [create] for this firewall, and the rules in memory grew by the
    rules those calls were answered with. *)
Definition create_effect `{Provider} (s s' : store AzureVMFirewall.t)
           (calls : list event) : Prop :=
  trace s' = trace s ++ calls
  /\ rules_of (self s') = rules_of (self s) ++ omap created_rule calls
  /\ same_group (self s) (self s')
  /\ Forall (is_create_call (AzureVMFirewall.id (self s))) (requests calls).


(** ** Vocabulary for [detach] *)

(** The VM holds the volume as a data disk. *)
Definition holds_volume (self : AzureVolume.t) (vm : VirtualMachine.t) : bool :=
  existsb (AzureVolumeRest.is_disk_of self) (data_disks_of vm).

(** The VM holds the volume as at most one of its data disks. *)
Definition holds_at_most_once (self : AzureVolume.t) (vm : VirtualMachine.t) : Prop :=
  (length (List.filter (AzureVolumeRest.is_disk_of self) (data_disks_of vm)) <= 1)%nat.

(** The VM with the data disks of the volume taken out. *)
Definition without_volume (self : AzureVolume.t) (vm : VirtualMachine.t)
  : VirtualMachine.t :=
  set_data_disks
    (List.filter (fun item => negb (AzureVolumeRest.is_disk_of self item))
                 (data_disks_of vm))
    vm.

(** One update for every VM that holds the volume, in the order of the VMs. *)
Definition detach_requests (self : AzureVolume.t) (vms : list VirtualMachine.t)
  : list azure_client_more.request :=
  omap (fun vm =>
          if holds_volume self vm
          then Some (azure_client_more.update_vm (VirtualMachine.name vm)
                                                 (without_volume self vm))
          else None) vms.


(** A provider for which the VM is gone: [get_vm] raises [CloudError]. *)
Definition vanished_script : Scripted.script :=
  Scripted.Script
    (fun r => match r with
              | azure_client.get_vm _ => Some (CloudError "not found")
              | _ => None
              end)
    (fun _ => None) (fun _ => Scripted.a_vm None) (fun _ => Scripted.a_nic) (fun _ => None).

(** A call that fetches a VM. *)
Definition is_get_vm (r : azure_client.request) : Prop :=
  match r with
  | azure_client.get_vm _ => True
  | _ => False
  end.


(** ** Vocabulary for the network attributes of an instance *)





(** ** Vocabulary for floating IPs *)

(** The IP configuration has the floating IP bound. *)
Definition binds (floating_ip : AzureFloatingIP.t) (c : IPConfiguration.t) : bool :=
  match IPConfiguration.public_ip_address c with
  | Some public_ip_address =>
      String.eqb (SubResource.id public_ip_address) (AzureFloatingIP.id floating_ip)
  | None => false
  end.

(** The interface with the public IP address of its first configuration
    set to [v], the configurations being [configs] otherwise. *)
Definition with_first_bound_to (v : option SubResource.t) (nic : NetworkInterface.t)
           (configs : list IPConfiguration.t) : NetworkInterface.t :=
  NetworkInterface.set_ip_configurations
    (Some (alter (IPConfiguration.set_public_ip_address v) 0%nat configs)) nic.

(** An interface with two configurations, each with a public IP address. *)
Definition a_nic_with_two_addresses : NetworkInterface.t :=
  NetworkInterface.Build None
    (Some [ IPConfiguration.Build (Some "10.0.0.4")
              (Some (SubResource.Build "/publicIPAddresses/ip1"));
            IPConfiguration.Build (Some "10.0.0.5")
              (Some (SubResource.Build "/publicIPAddresses/ip2")) ]).

Definition two_addresses_script : Scripted.script :=
  Scripted.Script Scripted.no_faults (fun _ => None) (fun _ => Scripted.a_vm None)
                  (fun _ => a_nic_with_two_addresses) (fun _ => None).

Definition a_floating_ip (id : string) : AzureFloatingIP.t :=
  AzureFloatingIP.Build (PublicIPAddress.Build id (Some "13.0.0.2")) "net1".

(** A provider that hands back the interface it was last sent. *)
Definition stores_interfaces `{Provider} : Prop :=
  forall nic_name nic w w',
    handle (azure_client.update_nic nic_name nic) w = (Returned tt, w') ->
    exists w'', handle (azure_client.get_nic nic_name) w' = (Returned nic, w'').

(** A provider whose remote state is one interface: [update_nic] replaces
    it and [get_nic] reads it; other calls are answered as by the scripted
    provider. *)
Definition interface_keeping : Provider :=
  {| world := NetworkInterface.t;
     handle r w :=
       match r return outcome (azure_client.response r) * NetworkInterface.t with
       | azure_client.update_nic _ nic => (Returned tt, nic)
       | azure_client.get_nic _ => (Returned w, w)
       | r' => (Returned (Scripted.answer Scripted.plain r'), w)
       end;
     parse_url := Scripted.parse;
     is_valid_resource_name := fun value => truthy value |}.


(** ** Vocabulary for the payload of an instance *)

(** The VM a [get_vm] call was answered with. *)
Definition fetched_vm (ev : event) : option VirtualMachine.t :=
  match ev with
  | Event r o =>
      match r as r0
            return outcome (azure_client.response r0) -> option VirtualMachine.t with
      | azure_client.get_vm _ =>
          fun o => match o with
                   | Returned vm => Some vm
                   | Raised _ => None
                   end
      | _ => fun _ => None
      end o
  end.

(** The VM the last answered [get_vm] call among [calls] was answered with. *)
Definition last_fetched_vm (calls : list event) : option VirtualMachine.t :=
  last (omap fetched_vm calls).

(** [if not vm.tags: vm.tags = {}] *)
Definition with_tags_filled (vm : VirtualMachine.t) : VirtualMachine.t :=
  if negb (truthy (VirtualMachine.tags vm))
  then VirtualMachine.set_tags (Some ∅) vm
  else vm.

(** The payload after [calls]: the VM last fetched, its tags filled in, or
    the payload of [before] when none was fetched. *)
Definition payload_after (before : VirtualMachine.t) (calls : list event)
  : VirtualMachine.t :=
  match last_fetched_vm calls with
  | Some vm => with_tags_filled vm
  | None => before
  end.

(** A computation whose payload follows the VMs it fetches, however it
    ends. *)
Definition follows_fetches `{Provider} {A} (m : M AzureInstance.t A) : Prop :=
  forall s,
    exists calls,
      trace (snd (m s)) = trace s ++ calls
      /\ AzureInstance._vm (self (snd (m s)))
         = payload_after (AzureInstance._vm (self s)) calls.

(** A provider that answers every [get_nic] and [get_public_ip] call. *)
Definition network_calls_answered `{Provider} : Prop :=
  forall name w,
    (exists nic w', handle (azure_client.get_nic name) w = (Returned nic, w'))
    /\ (exists public_ip w',
           handle (azure_client.get_public_ip name) w = (Returned public_ip, w')).


(** ** What [_get_network_attributes] gathers

    The lists are read off the interfaces that [get_nic] answers with and
    the public IP addresses that [get_public_ip] answers with. *)











(* ===================================================================== *)
(** * Verification *)
(* ===================================================================== *)

(** ** Volume state *)

Lemma volume_init_state (volume : Disk.t) :
  AzureVolume._state (AzureVolume.__init__ volume)
  = AzureVolume._state
      (AzureVolume._update_state (AzureVolume.Build volume None (Some "unknown"))).
Proof.
  unfold AzureVolume.__init__.
  destruct (negb (truthy (Disk.tags _))); reflexivity.
Qed.

Lemma dict_get_not_key {V} (d : list (string * V)) (key : string) (dflt : V) :
  key ∉ map fst d -> dict_get d key dflt = dflt.
Proof.
  induction d as [|[k v] d IH]; simpl; intros Hk; [reflexivity|].
  destruct (String.eqb_spec k key) as [->|Hne].
  - exfalso. apply Hk. left.
  - apply IH. intros Hin. apply Hk. right. exact Hin.
Qed.

(** C1, as the code has it: a freshly constructed volume whose provisioning
    state is not "Succeeded" has that string looked up in the state table
    (so "Failed" gives ERROR whatever the managing reference is, and a string
    that is not a key gives UNKNOWN); a "Succeeded" volume is IN_USE when its
    [managed_by] is true in Python's sense, that is neither absent nor the
    empty string, and AVAILABLE otherwise. *)
Theorem volume_state_derivation (volume : Disk.t) :
  let self := AzureVolume.__init__ volume in
  AzureVolume.state self
  = (if bool_decide (Disk.provisioning_state volume = Some "Succeeded")
     then match Disk.managed_by volume with
          | Some (String _ _) => VolumeState.IN_USE
          | Some EmptyString | None => VolumeState.AVAILABLE
          end
     else state_get AzureVolume.VOLUME_STATE_MAP (Disk.provisioning_state volume)
                    VolumeState.UNKNOWN)
  /\ (Disk.provisioning_state volume = Some "Failed" ->
      AzureVolume.state self = VolumeState.ERROR)
  /\ (forall raw, Disk.provisioning_state volume = Some raw ->
                  raw <> "Succeeded" ->
                  raw ∉ map fst AzureVolume.VOLUME_STATE_MAP ->
                  AzureVolume.state self = VolumeState.UNKNOWN)
  /\ (Disk.provisioning_state volume = None ->
      AzureVolume.state self = VolumeState.UNKNOWN).
Proof.
  cbv zeta.
  assert (Hmain : AzureVolume.state (AzureVolume.__init__ volume)
    = (if bool_decide (Disk.provisioning_state volume = Some "Succeeded")
       then match Disk.managed_by volume with
            | Some (String _ _) => VolumeState.IN_USE
            | Some EmptyString | None => VolumeState.AVAILABLE
            end
       else state_get AzureVolume.VOLUME_STATE_MAP (Disk.provisioning_state volume)
                      VolumeState.UNKNOWN)).
  { unfold AzureVolume.state. rewrite volume_init_state.
    unfold AzureVolume._update_state. simpl.
    destruct (bool_decide (Disk.provisioning_state volume = Some "Succeeded")); simpl.
    - destruct (Disk.managed_by volume) as [[|c m]|]; reflexivity.
    - reflexivity. }
  split; [exact Hmain|]. rewrite Hmain. repeat split.
  - intros ->. reflexivity.
  - intros raw -> Hne Hkey.
    rewrite bool_decide_eq_false_2 by congruence.
    unfold state_get. apply dict_get_not_key. exact Hkey.
  - intros ->. reflexivity.
Qed.

Lemma volume_state_derivation_witness :
  AzureVolume.state (AzureVolume.__init__ attached_volume) = VolumeState.IN_USE
  /\ AzureVolume.state
       (AzureVolume.__init__ (Disk.Build "disk2" "/disks/disk2" None (Some "Failed")
                                         (Some "/virtualMachines/vm1")))
     = VolumeState.ERROR
  /\ AzureVolume.state
       (AzureVolume.__init__ (Disk.Build "disk3" "/disks/disk3" None (Some "Moving") None))
     = VolumeState.UNKNOWN.
Proof.
  split; [|split].
  - exact (proj1 (volume_state_derivation attached_volume)).
  - apply (volume_state_derivation
             (Disk.Build "disk2" "/disks/disk2" None (Some "Failed")
                         (Some "/virtualMachines/vm1"))).
    reflexivity.
  - apply (volume_state_derivation
             (Disk.Build "disk3" "/disks/disk3" None (Some "Moving") None)) with "Moving".
    + reflexivity.
    + discriminate.
    + rewrite list_elem_of_In. simpl. intuition discriminate.
Defined.

(** C1 as stated fails: a "Succeeded" disk whose managing reference is
    present but is the empty string is AVAILABLE, not IN_USE. *)
Lemma volume_state_empty_managed_by :
  let volume := Disk.Build "disk1" "/disks/disk1" None (Some "Succeeded") (Some "") in
  Disk.provisioning_state volume = Some "Succeeded"
  /\ Disk.managed_by volume <> None
  /\ AzureVolume.state (AzureVolume.__init__ volume) = VolumeState.AVAILABLE
  /\ AzureVolume.state (AzureVolume.__init__ volume) <> VolumeState.IN_USE.
Proof.
  cbv zeta. repeat split; try discriminate.
Qed.

(** ** Running the monad *)

Ltac unfold_monad :=
  unfold assert_valid_resource_name, exn_message in *;
  unfold bind, ret, raise, get_self, set_self, log_exception, invoke, try_except,
    lift_outcome in *.

Section MonadFacts.
Context `{Provider} {Self : Type}.

Lemma bind_returned {A B} (m : M Self A) (k : A -> M Self B) s a s' :
  m s = (Returned a, s') -> bind m k s = k a s'.
Proof. unfold bind. intros ->. reflexivity. Qed.

Lemma bind_raised {A B} (m : M Self A) (k : A -> M Self B) s e s' :
  m s = (Raised e, s') -> bind m k s = (Raised e, s').
Proof. unfold bind. intros ->. reflexivity. Qed.

Lemma invoke_eq (r : azure_client.request) (s : store Self) :
  invoke r s
  = (fst (handle r (remote s)),
     Store (self s) (snd (handle r (remote s)))
           (trace s ++ [Event r (fst (handle r (remote s)))]) (logged s)).
Proof. unfold invoke. destruct (handle r (remote s)). reflexivity. Qed.
End MonadFacts.

(** ** Instance state *)

Lemma instance_state_map_keys_distinct :
  NoDup (map fst AzureInstance.INSTANCE_STATE_MAP).
Proof.
  apply NoDup_ListNoDup. simpl.
  repeat (constructor; [simpl; intuition discriminate|]).
  constructor.
Qed.

(** With an instance view in the payload, [_update_state] does not refresh:
    it only sets [_state]. *)
Lemma update_state_with_view `{Provider} (s : store AzureInstance.t) (depth : nat)
      (instance_view : VirtualMachineInstanceView.t) (statuses : list InstanceViewStatus.t) :
  VirtualMachine.instance_view (AzureInstance._vm (self s)) = Some instance_view ->
  VirtualMachineInstanceView.statuses instance_view = Some statuses ->
  AzureInstance._update_state (S depth) s
  = (Returned tt,
     Store (AzureInstance.set_state
              match statuses with
              | _ :: second :: _ => InstanceViewStatus.display_status second
              | _ => VirtualMachine.provisioning_state (AzureInstance._vm (self s))
              end (self s))
           (remote s) (trace s) (logged s)).
Proof.
  intros Hview Hstatuses.
  destruct s as [x w tr lg]. cbn [self] in Hview.
  cbn [AzureInstance._update_state]. unfold AzureInstance.modify_self. unfold_monad.
  cbn [self remote trace logged]. rewrite Hview.
  cbn [truthy_object negb self remote trace logged]. rewrite Hview, Hstatuses.
  destruct statuses as [|first [|second rest]]; reflexivity.
Qed.

(** C2, as the code has it: on an instance whose payload carries an instance
    view, [_update_state] makes no call and keeps the payload; when the view
    lists two or more statuses the display status of the second is the
    instance's state, whatever the provisioning state is, and when it lists
    none or one the provisioning state is; the state is looked up in the
    table of fifteen entries, values that are not keys giving UNKNOWN. *)
Theorem instance_state_derivation `{Provider} (s : store AzureInstance.t) (depth : nat)
        (instance_view : VirtualMachineInstanceView.t) (statuses : list InstanceViewStatus.t) :
  VirtualMachine.instance_view (AzureInstance._vm (self s)) = Some instance_view ->
  VirtualMachineInstanceView.statuses instance_view = Some statuses ->
  exists s',
    AzureInstance._update_state (S depth) s = (Returned tt, s')
    /\ trace s' = trace s
    /\ remote s' = remote s
    /\ AzureInstance._vm (self s') = AzureInstance._vm (self s)
    /\ AzureInstance.state (self s')
       = state_get AzureInstance.INSTANCE_STATE_MAP (AzureInstance._state (self s'))
                   InstanceState.UNKNOWN
    /\ ((2 <= length statuses)%nat ->
        exists second,
          statuses !! 1%nat = Some second
          /\ AzureInstance._state (self s') = InstanceViewStatus.display_status second)
    /\ ((length statuses <= 1)%nat ->
        AzureInstance._state (self s')
        = VirtualMachine.provisioning_state (AzureInstance._vm (self s)))
    /\ length AzureInstance.INSTANCE_STATE_MAP = 15%nat
    /\ (forall raw, raw ∉ map fst AzureInstance.INSTANCE_STATE_MAP ->
                    state_get AzureInstance.INSTANCE_STATE_MAP (Some raw)
                              InstanceState.UNKNOWN = InstanceState.UNKNOWN).
Proof.
  intros Hview Hstatuses.
  pose proof (update_state_with_view s depth instance_view statuses Hview Hstatuses)
    as Hrun.
  eexists. split; [exact Hrun|]. cbn [self remote trace logged].
  split; [reflexivity|]. split; [reflexivity|]. split; [reflexivity|].
  split; [reflexivity|]. split; [|split; [|split]].
  - intros Hlen. destruct statuses as [|first [|second rest]]; simpl in Hlen; try lia.
    exists second. split; reflexivity.
  - intros Hlen. destruct statuses as [|first [|second rest]]; simpl in Hlen; try lia;
      reflexivity.
  - reflexivity.
  - intros raw Hraw. apply dict_get_not_key. exact Hraw.
Qed.

Lemma instance_state_derivation_witness :
  exists s',
    @AzureInstance._update_state (Scripted.provider Scripted.plain) 1
      (Scripted.start Scripted.plain
         (AzureInstance.Build (Scripted.a_vm (Some running_view)) None [] [] [] [] []))
    = (Returned tt, s')
    /\ AzureInstance.state (self s') = InstanceState.RUNNING.
Proof.
  destruct (@instance_state_derivation (Scripted.provider Scripted.plain)
              (Scripted.start Scripted.plain
                 (AzureInstance.Build (Scripted.a_vm (Some running_view)) None [] [] [] [] []))
              0%nat running_view
              [ InstanceViewStatus.Build (Some "Provisioning succeeded");
                InstanceViewStatus.Build (Some "VM running") ]
              eq_refl eq_refl)
    as (s' & Hrun & _ & _ & _ & Hstate & Htwo & _).
  exists s'. split; [exact Hrun|].
  destruct (Htwo ltac:(simpl; lia)) as (second & Hsecond & Hst).
  rewrite Hstate, Hst. simpl in Hsecond. inversion Hsecond. reflexivity.
Defined.

(** C2 as stated fails on the size of the table: it has fifteen entries. *)
Lemma instance_state_map_has_fifteen_entries :
  length AzureInstance.INSTANCE_STATE_MAP = 15%nat
  /\ length AzureInstance.INSTANCE_STATE_MAP <> 13%nat
  /\ size (list_to_map AzureInstance.INSTANCE_STATE_MAP : gmap string InstanceState.t)
     <> 13%nat.
Proof.
  split; [reflexivity|]. split; [discriminate|]. vm_compute. discriminate.
Qed.

(** ** Listing firewall rules *)

Lemma rule_is_listed_iff (rule : SecurityRule.t) :
  AzureVMFirewallRuleContainer.rule_is_listed rule = true <-> SecurityRule.priority rule < 3500.
Proof. unfold AzureVMFirewallRuleContainer.rule_is_listed. apply Z.ltb_lt. Qed.

(** C5: the rules that [list] hands to the paged result are the rules of the
    security group whose priority is strictly below 3500, in their order,
    each wrapped with the firewall; no listed rule has a priority of 3500 or
    more, and every rule below 3500 is listed. *)
Theorem firewall_rules_list_below_3500
        (firewall : AzureVMFirewall.t) (limit : option nat) (marker : option string) :
  let security_rules :=
    NetworkSecurityGroup.security_rules (AzureVMFirewall._vm_firewall firewall) in
  let listed :=
    ClientPagedResultList.data (AzureVMFirewallRuleContainer.list firewall limit marker) in
  map AzureVMFirewallRule._rule listed
  = List.filter (fun rule => SecurityRule.priority rule <? 3500) security_rules
  /\ (forall r, In r listed ->
                SecurityRule.priority (AzureVMFirewallRule._rule r) < 3500
                /\ ~ 3500 <= SecurityRule.priority (AzureVMFirewallRule._rule r)
                /\ In (AzureVMFirewallRule._rule r) security_rules
                /\ AzureVMFirewallRule.firewall r = firewall)
  /\ (forall rule, In rule security_rules ->
                   (SecurityRule.priority rule < 3500
                    <-> In (AzureVMFirewallRule.Build firewall rule) listed)).
Proof.
  cbv zeta. unfold AzureVMFirewallRuleContainer.list. cbn [ClientPagedResultList.data].
  set (rules := NetworkSecurityGroup.security_rules (AzureVMFirewall._vm_firewall firewall)).
  split; [|split].
  - rewrite map_map. cbn [AzureVMFirewallRule._rule]. apply map_id.
  - intros r Hr. apply in_map_iff in Hr. destruct Hr as (rule & <- & Hin).
    apply filter_In in Hin. destruct Hin as [Hin Hlisted].
    apply rule_is_listed_iff in Hlisted. cbn [AzureVMFirewallRule._rule
      AzureVMFirewallRule.firewall]. repeat split; [lia|lia|exact Hin].
  - intros rule Hin. split.
    + intros Hlt. apply in_map. apply filter_In. split; [exact Hin|].
      apply rule_is_listed_iff. exact Hlt.
    + intros Hr. apply in_map_iff in Hr. destruct Hr as (rule' & Heq & Hin').
      inversion Heq; subst rule'. apply filter_In in Hin'.
      apply rule_is_listed_iff. tauto.
Qed.

Example firewall_rules_list_example :
  let rule n p := SecurityRule.Build n p "tcp" "*" "*" "22-22" "*" "Allow" "Inbound" in
  let firewall :=
    AzureVMFirewall.__init__
      (NetworkSecurityGroup.Build "fw1" "/nsg/fw1" None
         [rule "a" 1001; rule "b" 3500; rule "c" 3499; rule "d" 4096; rule "e" 100]) in
  map AzureVMFirewallRule.name
      (ClientPagedResultList.data (AzureVMFirewallRuleContainer.list firewall None None))
  = ["a"; "c"; "e"].
Proof. reflexivity. Qed.

(** ** Deleting a firewall *)

(** C9: [delete] makes one call, [delete_vm_firewall] on the firewall's id.
    It returns true exactly when that call succeeds; when the call raises a
    [CloudError] the message is logged and false is returned; in no case does
    a [CloudError] reach the caller.  (Any other exception is not caught.) *)
Theorem firewall_delete_reports_boolean `{Provider} (s : store AzureVMFirewall.t) :
  let r := azure_client.delete_vm_firewall (AzureVMFirewall.id (self s)) in
  let answer := fst (handle r (remote s)) in
  let result := fst (AzureVMFirewall.delete s) in
  let s' := snd (AzureVMFirewall.delete s) in
  trace s' = trace s ++ [Event r answer]
  /\ self s' = self s
  /\ match answer with
     | Returned _ => result = Returned true /\ logged s' = logged s
     | Raised (CloudError message) =>
         result = Returned false /\ logged s' = logged s ++ [message]
     | Raised e => result = Raised e /\ logged s' = logged s
     end
  /\ (result = Returned true <-> exists u, answer = Returned u)
  /\ (forall message, result <> Raised (CloudError message)).
Proof.
  cbv zeta. unfold AzureVMFirewall.delete. unfold_monad.
  destruct s as [x w tr lg]. cbn [self remote trace logged].
  destruct (handle (azure_client.delete_vm_firewall (AzureVMFirewall.id x)) w)
    as [[u|e] w'] eqn:Hcall; cbn [fst snd self remote trace logged].
  - repeat split; try reflexivity; try discriminate.
    intros _. exists u. reflexivity.
  - destruct e; cbn; repeat split; try reflexivity; try discriminate;
      try (intros [u Hu]; discriminate Hu).
Qed.

Example firewall_delete_cloud_error :
  let sc := Scripted.Script (fun _ => Some (CloudError "not found")) (fun _ => None)
                            (fun _ => Scripted.a_vm None) (fun _ => Scripted.a_nic)
                            (fun _ => None) in
  let fw := AzureVMFirewall.__init__ (NetworkSecurityGroup.Build "fw1" "/nsg/fw1" None []) in
  let run := @AzureVMFirewall.delete (Scripted.provider sc) (Scripted.start sc fw) in
  fst run = Returned false
  /\ logged (snd run) = ["not found"]
  /\ requests (trace (snd run)) = [azure_client.delete_vm_firewall "fw1"].
Proof. repeat split. Qed.

(** ** Facts about [str.split] *)

Section SplitFacts.

Lemma append_empty_r (s : string) : s +:+ EmptyString = s.
Proof.
  induction s as [|c s IH]; [reflexivity|].
  change (String c (s +:+ EmptyString) = String c s). rewrite IH. reflexivity.
Qed.

Lemma append_assoc (a b c : string) : (a +:+ b) +:+ c = a +:+ (b +:+ c).
Proof.
  induction a as [|x a IH]; [reflexivity|].
  change (String x ((a +:+ b) +:+ c) = String x (a +:+ (b +:+ c))).
  rewrite IH. reflexivity.
Qed.

Lemma append_char (piece : string) (c : ascii) (s : string) :
  (piece +:+ String c EmptyString) +:+ s = piece +:+ String c s.
Proof. rewrite append_assoc. reflexivity. Qed.

(** A separator cannot start at a character that is not its first one. *)
Lemma prefix_other_head (c0 : ascii) (sep' : string) (c : ascii) (s : string) :
  Ascii.eqb c0 c = false -> String.prefix (String c0 sep') (String c s) = false.
Proof.
  intros Hne. simpl. destruct (ascii_dec c0 c) as [->|_]; [|reflexivity].
  rewrite Ascii.eqb_refl in Hne. discriminate.
Qed.


(** Once no split remains, the rest is one piece. *)
Lemma split_go_no_budget (sep : string) (s piece : string) :
  split_go sep (Some 0%nat) 0 piece s = [piece +:+ s].
Proof.
  revert piece. induction s as [|c s IH]; intros piece.
  - simpl. rewrite append_empty_r. reflexivity.
  - cbn [split_go splits_remain andb]. rewrite IH, append_char. reflexivity.
Qed.

(** Characters that are not the separator's first are read into the piece. *)
Lemma split_go_before_separator (c0 : ascii) (sep' : string) (maxsplit : option nat)
      (a rest piece : string) :
  has_char c0 a = false ->
  split_go (String c0 sep') maxsplit 0 piece (a +:+ rest)
  = split_go (String c0 sep') maxsplit 0 (piece +:+ a) rest.
Proof.
  revert piece. induction a as [|c a IH]; intros piece Hno.
  - simpl. rewrite append_empty_r. reflexivity.
  - cbn [has_char] in Hno. apply orb_false_iff in Hno. destruct Hno as [Hc Ha].
    change (String c a +:+ rest) with (String c (a +:+ rest)).
    cbn [split_go]. rewrite (prefix_other_head _ _ _ _ Hc), andb_false_r.
    rewrite (IH _ Ha), append_char. reflexivity.
Qed.

(** [(a + "-" + b).split("-", 1) == [a, b]] when [a] has no "-". *)
Lemma split_first_dash (a b : string) :
  has_char "-" a = false ->
  py_split "-" (Some 1%nat) (a +:+ "-" +:+ b) = [a; b].
Proof.
  intros Ha. unfold py_split.
  rewrite (split_go_before_separator "-"%char EmptyString _ a _ EmptyString Ha).
  change (EmptyString +:+ a) with a.
  assert (Hcut : split_go "-" (Some 1%nat) 0 a ("-" +:+ b)
                 = a :: split_go "-" (Some 0%nat) 0 EmptyString b)
    by (destruct b; reflexivity).
  rewrite Hcut, split_go_no_budget. reflexivity.
Qed.

End SplitFacts.

(** ** Subnet identity *)




(** ** Creating firewall rules *)

Section CreateRule.
Context `{Provider}.

Lemma create_rule_run (s : store AzureVMFirewall.t) direction protocol from_port to_port cidr :
  let r := rule_request (self s) direction protocol from_port to_port cidr in
  AzureVMFirewallRuleContainer._create_rule direction protocol from_port to_port cidr s
  = match handle r (remote s) return _ with
    | (Returned result, w') =>
        (Returned (AzureVMFirewallRule.Build (with_rule_appended (self s) result) result),
         Store (with_rule_appended (self s) result) w'
               (trace s ++ [Event r (Returned result)]) (logged s))
    | (Raised e, w') =>
        (Raised e, Store (self s) w' (trace s ++ [Event r (Raised e)]) (logged s))
    end.
Proof.
  cbv zeta. destruct s as [x w tr lg]. cbn [self remote trace logged].
  unfold AzureVMFirewallRuleContainer._create_rule. unfold_monad.
  cbn [self remote trace logged].
  change (azure_client.create_vm_firewall_rule _ _ _)
    with (rule_request x direction protocol from_port to_port cidr).
  destruct (handle (rule_request x direction protocol from_port to_port cidr) w)
    as [[result|e] w']; reflexivity.
Qed.

(** The request, field by field. *)
Lemma rule_request_fields firewall direction protocol from_port to_port cidr :
  let ordinal :=
    Z.of_nat (length (NetworkSecurityGroup.security_rules
                        (AzureVMFirewall._vm_firewall firewall))) + 1 in
  rule_request firewall direction protocol from_port to_port cidr
  = azure_client.create_vm_firewall_rule
      (AzureVMFirewall.id firewall)
      ("Rule - " +:+ py_str ordinal)
      {| RuleParameters.priority := 1000 + ordinal;
         RuleParameters.protocol := protocol;
         RuleParameters.source_port_range := "*";
         RuleParameters.source_address_prefix :=
           match cidr with
           | Some (String _ _ as given) => given
           | Some EmptyString | None => "0.0.0.0/0"
           end;
         RuleParameters.destination_port_range :=
           py_str from_port +:+ "-" +:+ py_str to_port;
         RuleParameters.destination_address_prefix := "*";
         RuleParameters.access := "Allow";
         RuleParameters.direction :=
           match direction with
           | TrafficDirection.INBOUND => "Inbound"
           | TrafficDirection.OUTBOUND => "Outbound"
           end |}.
Proof.
  cbv zeta. unfold rule_request. f_equal. f_equal.
  - destruct cidr as [[|c g]|]; reflexivity.
  - destruct direction; reflexivity.
Qed.
End CreateRule.

(** C4, as the code has it: when [create] is given a protocol and two ports
    that are true in Python's sense (a non-empty protocol, ports other than
    0), it makes exactly one call, the creation of one rule whose name is
    "Rule - " and the ordinal (the number of rules in memory plus one), with
    priority 1000 plus the ordinal, the given protocol, source port range
    "*", the given cidr or "0.0.0.0/0" when there is none, destination port
    range "<from>-<to>", destination address prefix "*", access "Allow" and
    direction "Inbound" or "Outbound"; the rule the provider answers with is
    appended to the rule list in memory and returned. *)
Theorem create_single_rule `{Provider} (s : store AzureVMFirewall.t)
        (direction : TrafficDirection.t) (protocol : string) (from_port to_port : Z)
        (cidr : option string) (src_dest_fw : option (string + AzureVMFirewall.t)) :
  protocol <> EmptyString -> from_port <> 0 -> to_port <> 0 ->
  let vm_firewall := AzureVMFirewall._vm_firewall (self s) in
  let ordinal := Z.of_nat (length (NetworkSecurityGroup.security_rules vm_firewall)) + 1 in
  let r := rule_request (self s) direction protocol from_port to_port cidr in
  let answer := fst (handle r (remote s)) in
  let run := AzureVMFirewallRuleContainer.create
               direction (Some protocol) (Some from_port) (Some to_port) cidr src_dest_fw s in
  r = azure_client.create_vm_firewall_rule
        (NetworkSecurityGroup.name vm_firewall)
        ("Rule - " +:+ py_str ordinal)
        {| RuleParameters.priority := 1000 + ordinal;
           RuleParameters.protocol := protocol;
           RuleParameters.source_port_range := "*";
           RuleParameters.source_address_prefix :=
             match cidr with
             | Some (String _ _ as given) => given
             | Some EmptyString | None => "0.0.0.0/0"
             end;
           RuleParameters.destination_port_range :=
             py_str from_port +:+ "-" +:+ py_str to_port;
           RuleParameters.destination_address_prefix := "*";
           RuleParameters.access := "Allow";
           RuleParameters.direction :=
             match direction with
             | TrafficDirection.INBOUND => "Inbound"
             | TrafficDirection.OUTBOUND => "Outbound"
             end |}
  /\ trace (snd run) = trace s ++ [Event r answer]
  /\ match answer with
     | Returned result =>
         NetworkSecurityGroup.security_rules (AzureVMFirewall._vm_firewall (self (snd run)))
         = NetworkSecurityGroup.security_rules vm_firewall ++ [result]
         /\ fst run = Returned (Some (AzureVMFirewallRule.Build (self (snd run)) result))
     | Raised e =>
         self (snd run) = self s /\ fst run = Raised e
     end.
Proof.
  intros Hprotocol Hfrom Hto. cbv zeta.
  split; [apply rule_request_fields|].
  unfold AzureVMFirewallRuleContainer.create.
  assert (Htruthy : truthy (Some protocol) && truthy (Some from_port)
                    && truthy (Some to_port) = true).
  { destruct protocol; [congruence|].
    change (negb (from_port =? 0) && negb (to_port =? 0) = true).
    apply Z.eqb_neq in Hfrom, Hto. rewrite Hfrom, Hto. reflexivity. }
  rewrite Htruthy. cbv [default from_option id].
  unfold bind, ret. rewrite create_rule_run.
  destruct (handle (rule_request (self s) direction protocol from_port to_port cidr)
                   (remote s)) as [[result|e] w']; cbn; repeat split.
Qed.

Lemma create_single_rule_witness :
  let run := @AzureVMFirewallRuleContainer.create (Scripted.provider Scripted.plain)
               TrafficDirection.INBOUND (Some "tcp") (Some 22) (Some 22) None None
               (Scripted.start Scripted.plain an_empty_firewall) in
  requests (trace (snd run))
  = [ azure_client.create_vm_firewall_rule "fw1" "Rule - 1"
        (RuleParameters.Build 1001 "tcp" "*" "0.0.0.0/0" "22-22" "*" "Allow" "Inbound") ].
Proof.
  cbv zeta.
  destruct (@create_single_rule (Scripted.provider Scripted.plain)
              (Scripted.start Scripted.plain an_empty_firewall)
              TrafficDirection.INBOUND "tcp" 22 22 None None
              ltac:(discriminate) ltac:(discriminate) ltac:(discriminate))
    as (_ & Htrace & _).
  rewrite Htrace. reflexivity.
Defined.

(** C4 as stated fails: with a port that is 0 all three of protocol and ports
    are supplied, and no rule is created. *)
Lemma create_with_port_zero_creates_no_rule :
  let run := @AzureVMFirewallRuleContainer.create (Scripted.provider Scripted.plain)
               TrafficDirection.INBOUND (Some "tcp") (Some 0) (Some 80) None None
               (Scripted.start Scripted.plain an_empty_firewall) in
  fst run = Returned None
  /\ trace (snd run) = []
  /\ self (snd run) = an_empty_firewall.
Proof. cbv zeta. repeat split. Qed.

(** ** Facts about [str(n)] and [int(s)] *)

Section DigitFacts.















(** A range with a dash in it is not the wildcard. *)
Lemma dash_range_not_star (a b : string) : String.eqb (a +:+ "-" +:+ b) "*" = false.
Proof.
  destruct a as [|c [|c' a]].
  - reflexivity.
  - change (String.eqb (String c (String "-" b)) (String "*" EmptyString) = false).
    cbn [String.eqb]. destruct (Ascii.eqb c "*"); reflexivity.
  - change (String.eqb (String c (String c' (a +:+ "-" +:+ b)))
                       (String "*" EmptyString) = false).
    cbn [String.eqb]. destruct (Ascii.eqb c "*"); reflexivity.
Qed.
End DigitFacts.

(** ** Port ranges *)





Section CreatedRule.
Context `{Provider}.
Hypothesis Hstores : stores_rules_as_requested.

End CreatedRule.


Lemma scripted_stores_rules (sc : Scripted.script) :
  Scripted.faults sc = Scripted.no_faults ->
  @stores_rules_as_requested (Scripted.provider sc).
Proof.
  intros Hfaults fw_id rule_name parameters w. exists tt. destruct w.
  cbn. rewrite Hfaults. reflexivity.
Defined.



Example port_range_examples :
  let rule range :=
    AzureVMFirewallRule.Build an_empty_firewall
      (SecurityRule.Build "r" 1001 "tcp" "*" "*" range "*" "Allow" "Inbound") in
  AzureVMFirewallRule._port_range_tuple (rule "*") = Returned (Build_PortRange 1 65535)
  /\ AzureVMFirewallRule._port_range_tuple (rule "8000-8080")
     = Returned (Build_PortRange 8000 8080)
  /\ AzureVMFirewallRule._port_range_tuple (rule "22") = Raised IndexError
  /\ AzureVMFirewallRule._port_range_tuple (rule "-1--1") = Raised (ValueError None).
Proof. repeat split. Qed.

(** ** Deleting an instance *)

Lemma delete_on_terminate_iff (disk : option Disk.t) :
  AzureInstance.delete_on_terminate disk = true
  <-> exists d tags,
      disk = Some d /\ Disk.tags d = Some tags
      /\ tags !! "delete_on_terminate" = Some (VStr "True").
Proof.
  unfold AzureInstance.delete_on_terminate. split.
  - destruct disk as [d|]; [|discriminate].
    destruct (Disk.tags d) as [tags|] eqn:Htags; [|rewrite andb_false_r; discriminate].
    intros Hand. apply andb_true_iff in Hand. destruct Hand as [_ Heq].
    exists d, tags. split; [reflexivity|]. split; [exact Htags|].
    unfold tags_get in Heq.
    destruct (tags !! "delete_on_terminate") as [[| | |v]|]; simpl in Heq;
      try discriminate.
    apply String.eqb_eq in Heq. subst v. reflexivity.
  - intros (d & tags & -> & Htags & Hlookup). rewrite Htags.
    unfold tags_get. rewrite Hlookup. simpl. rewrite andb_true_r.
    unfold truthy, truthy_option, truthy, truthy_dict.
    rewrite negb_true_iff, bool_decide_eq_false.
    intros ->. rewrite lookup_empty in Hlookup. discriminate.
Qed.

Section InstanceDelete.
Context `{Provider}.

Lemma bind_inv {Self A B} (m : M Self A) (k : A -> M Self B) s b s' :
  bind m k s = (Returned b, s') ->
  exists a s1, m s = (Returned a, s1) /\ k a s1 = (Returned b, s').
Proof.
  unfold bind. destruct (m s) as [[a|e] s1]; [|discriminate].
  intros Hk. exists a, s1. split; [reflexivity|exact Hk].
Qed.

Lemma invoke_inv {Self} (r : azure_client.request) (s s' : store Self) a :
  invoke r s = (Returned a, s') ->
  trace s' = trace s ++ [Event r (Returned a)] /\ self s' = self s.
Proof.
  unfold invoke. destruct (handle r (remote s)) as [o w].
  intros Heq. inversion Heq; subst. split; reflexivity.
Qed.

Lemma adds_trans {Self} (s s1 s2 : store Self) c1 c2 :
  adds s s1 c1 -> adds s1 s2 c2 -> adds s s2 (c1 ++ c2).
Proof.
  intros [Ht1 Hs1] [Ht2 Hs2]. split.
  - rewrite Ht2, Ht1, app_assoc. reflexivity.
  - congruence.
Qed.

Lemma adds_nothing {Self} (s : store Self) : adds s s [].
Proof. split; [rewrite app_nil_r|]; reflexivity. Qed.

Lemma for_each_inv {Self A} (x : A) (l : list A) (body : A -> M Self unit) s s' :
  for_each (x :: l) body s = (Returned tt, s') ->
  exists s1, body x s = (Returned tt, s1) /\ for_each l body s1 = (Returned tt, s').
Proof.
  cbn [for_each]. intros Hrun. apply bind_inv in Hrun.
  destruct Hrun as ([] & s1 & Hbody & Hrest). exists s1. split; assumption.
Qed.

(** A loop whose every round adds calls with a property that holds of no
    calls and of concatenations adds calls with that property. *)
Lemma for_each_adds {Self A} (P : list event -> Prop) (body : A -> M Self unit)
      (l : list A) :
  P [] ->
  (forall c1 c2, P c1 -> P c2 -> P (c1 ++ c2)) ->
  (forall x s s', body x s = (Returned tt, s') -> exists calls, adds s s' calls /\ P calls) ->
  forall s s', for_each l body s = (Returned tt, s') ->
               exists calls, adds s s' calls /\ P calls.
Proof.
  intros Hnil Happ Hbody. induction l as [|x l IH]; intros s s' Hrun.
  - cbn in Hrun. inversion Hrun; subst. exists []. split; [apply adds_nothing|exact Hnil].
  - apply for_each_inv in Hrun. destruct Hrun as (s1 & Hx & Hl).
    destruct (Hbody _ _ _ Hx) as (c1 & Hadds1 & HP1).
    destruct (IH _ _ Hl) as (c2 & Hadds2 & HP2).
    exists (c1 ++ c2). split; [eapply adds_trans; eassumption|auto].
Qed.

Lemma no_disk_calls_app c1 c2 :
  no_disk_calls c1 -> no_disk_calls c2 -> no_disk_calls (c1 ++ c2).
Proof.
  intros [Hf1 Hd1] [Hf2 Hd2]. split; rewrite omap_app.
  - rewrite Hf1, Hf2. reflexivity.
  - rewrite Hd1, Hd2. reflexivity.
Qed.

(** The loop of [delete] over the data disks: every managed data disk is
    fetched, and the disks deleted are the fetched ones that pass the test. *)
Lemma delete_data_disks_run (data_disks : list VMDisk.t) :
  forall s s' : store AzureInstance.t,
    for_each data_disks AzureInstance.delete_data_disk s = (Returned tt, s') ->
    exists calls,
      adds s s' calls
      /\ map fst (omap fetched_disk calls)
         = omap (fun d => managed_disk_name <$> VMDisk.managed_disk d) data_disks
      /\ omap deleted_disk calls
         = map fst (List.filter (fun nd => AzureInstance.delete_on_terminate (snd nd))
                                (omap fetched_disk calls)).
Proof.
  induction data_disks as [|d l IH]; intros s s' Hrun.
  - cbn in Hrun. inversion Hrun; subst. exists []. split; [apply adds_nothing|].
    split; reflexivity.
  - apply for_each_inv in Hrun. destruct Hrun as (s1 & Hd & Hl).
    destruct (IH _ _ Hl) as (c2 & Hadds2 & Hf2 & Hd2).
    unfold AzureInstance.delete_data_disk in Hd.
    destruct (VMDisk.managed_disk d) as [managed_disk|] eqn:Hmanaged.
    + apply bind_inv in Hd. destruct Hd as (disk & s0 & Hget & Hdel).
      apply invoke_inv in Hget.
      fold (managed_disk_name managed_disk) in *.
      destruct (AzureInstance.delete_on_terminate disk) eqn:Htest.
      * destruct (invoke (azure_client.delete_disk (managed_disk_name managed_disk)) s0)
          as [[u|e] s0'] eqn:Hinv; [|discriminate].
        inversion Hdel; subst s0'. apply invoke_inv in Hinv.
        exists (([Event (azure_client.get_disk (managed_disk_name managed_disk))
                        (Returned disk)]
                 ++ [Event (azure_client.delete_disk (managed_disk_name managed_disk))
                           (Returned u)]) ++ c2).
        split; [eapply adds_trans; [eapply adds_trans|]; eassumption|].
        cbn [app omap list_omap fetched_disk deleted_disk request_of fmap].
        cbn. rewrite Hmanaged, Htest. cbn. rewrite Hf2, Hd2. split; reflexivity.
      * cbn in Hdel. inversion Hdel; subst s0.
        exists ([Event (azure_client.get_disk (managed_disk_name managed_disk))
                       (Returned disk)] ++ c2).
        split; [eapply adds_trans; eassumption|].
        cbn. rewrite Hmanaged, Htest. cbn. rewrite Hf2, Hd2. split; reflexivity.
    + cbn in Hd. inversion Hd; subst s1. exists c2. split; [exact Hadds2|].
      cbn. rewrite Hmanaged. cbn. split; assumption.
Qed.
End InstanceDelete.

(** C3: when [delete] completes, every data disk that is a managed disk has
    been fetched by its name; the disks deleted are, in order, the fetched
    data disks that carry a tag [delete_on_terminate] whose value is the
    string "True" (no tags, no such tag, or any other value, the boolean
    [True] included, leaves the disk), followed by the OS disk whenever it is
    a managed disk. *)
Theorem instance_delete_disks `{Provider} (s s' : store AzureInstance.t) :
  AzureInstance.delete s = (Returned tt, s') ->
  let storage_profile := VirtualMachine.storage_profile (AzureInstance._vm (self s)) in
  exists calls,
    trace s' = trace s ++ calls
    /\ map fst (omap fetched_disk calls)
       = omap (fun d => managed_disk_name <$> VMDisk.managed_disk d)
              (StorageProfile.data_disks storage_profile)
    /\ omap deleted_disk calls
       = map fst (List.filter (fun nd => AzureInstance.delete_on_terminate (snd nd))
                              (omap fetched_disk calls))
         ++ match VMDisk.managed_disk (StorageProfile.os_disk storage_profile) with
            | Some managed_disk => [managed_disk_name managed_disk]
            | None => []
            end
    /\ (forall disk,
           AzureInstance.delete_on_terminate disk = true
           <-> exists d tags,
               disk = Some d /\ Disk.tags d = Some tags
               /\ tags !! "delete_on_terminate" = Some (VStr "True"))
    /\ AzureInstance.delete_on_terminate None = false
    /\ (forall d tags v,
           Disk.tags d = Some tags ->
           tags !! "delete_on_terminate" = Some v -> v <> VStr "True" ->
           AzureInstance.delete_on_terminate (Some d) = false).
Proof.
  intros Hrun. cbv zeta. unfold AzureInstance.delete in Hrun.
  apply bind_inv in Hrun. destruct Hrun as (x & s0 & Hself & Hrun).
  unfold get_self in Hself. inversion Hself; subst x s0. clear Hself.
  apply bind_inv in Hrun. destruct Hrun as (u1 & s1 & Hdealloc & Hrun).
  apply invoke_inv in Hdealloc.
  apply bind_inv in Hrun. destruct Hrun as (u2 & s2 & Hdelvm & Hrun).
  apply invoke_inv in Hdelvm.
  apply bind_inv in Hrun. destruct Hrun as ([] & s3 & Hnics & Hrun).
  apply (for_each_adds no_disk_calls) in Hnics;
    [| split; reflexivity | apply no_disk_calls_app
     | intros y t t' Hy; apply (invoke_inv (azure_client.delete_nic y) t t' tt) in Hy;
       eexists; split; [exact Hy | split; reflexivity] ].
  destruct Hnics as (c3 & Hadds3 & Hf3 & Hd3).
  apply bind_inv in Hrun. destruct Hrun as ([] & s4 & Hips & Hrun).
  apply (for_each_adds no_disk_calls) in Hips;
    [| split; reflexivity | apply no_disk_calls_app
     | intros y t t' Hy; apply (invoke_inv (azure_client.delete_public_ip y) t t' tt) in Hy;
       eexists; split; [exact Hy | split; reflexivity] ].
  destruct Hips as (c4 & Hadds4 & Hf4 & Hd4).
  apply bind_inv in Hrun. destruct Hrun as ([] & s5 & Hdisks & Hrun).
  apply delete_data_disks_run in Hdisks.
  destruct Hdisks as (c5 & Hadds5 & Hf5 & Hd5).
  assert (Hos : exists c6,
             adds s5 s' c6
             /\ omap fetched_disk c6 = []
             /\ omap deleted_disk c6
                = match VMDisk.managed_disk
                          (StorageProfile.os_disk
                             (VirtualMachine.storage_profile (AzureInstance._vm (self s)))) with
                  | Some managed_disk => [managed_disk_name managed_disk]
                  | None => []
                  end).
  { destruct (VMDisk.managed_disk _) as [managed_disk|].
    - apply (invoke_inv (azure_client.delete_disk (managed_disk_name managed_disk))
                        s5 s' tt) in Hrun.
      eexists. split; [exact Hrun|]. split; reflexivity.
    - cbn in Hrun. inversion Hrun; subst s'. exists []. split; [apply adds_nothing|].
      split; reflexivity. }
  destruct Hos as (c6 & Hadds6 & Hf6 & Hd6).
  pose proof (adds_trans _ _ _ _ _ Hdealloc Hdelvm) as Ha.
  pose proof (adds_trans _ _ _ _ _ Ha Hadds3) as Hb.
  pose proof (adds_trans _ _ _ _ _ Hb Hadds4) as Hc.
  pose proof (adds_trans _ _ _ _ _ Hc Hadds5) as Hd.
  pose proof (adds_trans _ _ _ _ _ Hd Hadds6) as [Htrace _].
  eexists. split; [exact Htrace|].
  rewrite !omap_app, Hf3, Hf4, Hf6, Hd3, Hd4, Hd5, Hd6.
  cbn [omap list_omap fetched_disk deleted_disk request_of app].
  rewrite !app_nil_r. split; [exact Hf5|]. split; [reflexivity|].
  split; [apply delete_on_terminate_iff|]. split; [reflexivity|].
  intros d tags v Htags Hv Hne.
  destruct (AzureInstance.delete_on_terminate (Some d)) eqn:Htest; [|reflexivity].
  apply delete_on_terminate_iff in Htest.
  destruct Htest as (d' & tags' & Hd' & Htags' & Hv').
  inversion Hd'; subst d'. congruence.
Qed.

Example instance_delete_example :
  let run := @AzureInstance.delete (Scripted.provider disks_script)
               (Scripted.start disks_script an_instance_with_disks) in
  fst run = Returned tt
  /\ requests (trace (snd run))
     = [ azure_client.deallocate_vm "vm1"; azure_client.delete_vm "vm1";
         azure_client.delete_nic (Some "nic1"); azure_client.delete_public_ip (Some "ip1");
         azure_client.get_disk (Some "d1"); azure_client.delete_disk (Some "d1");
         azure_client.get_disk (Some "d2"); azure_client.get_disk (Some "d3");
         azure_client.get_disk (Some "d4"); azure_client.get_disk (Some "d5");
         azure_client.get_disk (Some "gone");
         azure_client.delete_disk (Some "os") ].
Proof. cbv zeta. split; vm_compute; reflexivity. Qed.

Lemma instance_delete_disks_witness :
  exists calls,
    trace (snd (@AzureInstance.delete (Scripted.provider disks_script)
                  (Scripted.start disks_script an_instance_with_disks)))
    = calls
    /\ omap deleted_disk calls = [Some "d1"; Some "os"].
Proof.
  destruct (@instance_delete_disks (Scripted.provider disks_script)
              (Scripted.start disks_script an_instance_with_disks)
              (snd (@AzureInstance.delete (Scripted.provider disks_script)
                      (Scripted.start disks_script an_instance_with_disks)))
              ltac:(vm_compute; reflexivity))
    as (calls & Htrace & _ & Hdeleted & _).
  exists calls. split; [exact Htrace|].
  assert (Hcalls : calls
                   = trace (snd (@AzureInstance.delete (Scripted.provider disks_script)
                                   (Scripted.start disks_script an_instance_with_disks))))
    by (symmetry; exact Htrace).
  rewrite Hdeleted, Hcalls. vm_compute. reflexivity.
Defined.

(** ** Removing a floating IP *)

Section RemoveFloatingIP.
Context `{Provider}.

(** Once the iterator has an unbound configuration ahead of it, the loop
    ends in an exception. *)
Lemma remove_floating_ip_loop_raises (floating_ip : AzureFloatingIP.t)
      (nic_id : option string) (j : nat) (c : IPConfiguration.t) :
  IPConfiguration.public_ip_address c = None ->
  forall (n i : nat) (nic : NetworkInterface.t) (configs : list IPConfiguration.t)
         (s : store AzureInstance.t),
    AzureInstance._nic_ids (self s) !! 0%nat = Some nic_id ->
    NetworkInterface.ip_configurations nic = Some configs ->
    configs !! j = Some c ->
    (i <= j < i + n)%nat ->
    exists e s',
      AzureInstance.remove_floating_ip_loop n i nic floating_ip s = (Raised e, s')
      /\ (update_nic_succeeds -> e = AttributeError)
      /\ (i = j -> e = AttributeError /\ s' = s).
Proof.
  intros Hunbound. induction n as [|n IH]; intros i nic configs s Hnic Hconfigs Hj Hrange.
  - lia.
  - cbn [AzureInstance.remove_floating_ip_loop]. rewrite Hconfigs. cbn [default from_option id].
    destruct (decide (i = j)) as [->|Hne].
    + rewrite Hj, Hunbound. exists AttributeError, s. repeat split.
    + assert (Hi : is_Some (configs !! i)).
      { apply lookup_lt_is_Some. apply lookup_lt_Some in Hj. lia. }
      destruct Hi as [ip_config Hi]. rewrite Hi.
      destruct (IPConfiguration.public_ip_address ip_config) as [public_ip_address|].
      2:{ exists AttributeError, s. split; [reflexivity|]. split; [reflexivity|].
          intros Heq. contradiction. }
      destruct (String.eqb (SubResource.id public_ip_address)
                           (AzureFloatingIP.id floating_ip)).
      * unfold bind, get_self, lift_outcome, py_index. rewrite Hnic.
        set (nic' := NetworkInterface.set_ip_configurations _ nic).
        destruct (invoke (azure_client.update_nic nic_id nic') s) as [[u|e] s1] eqn:Hcall.
        -- pose proof (invoke_inv _ _ _ _ Hcall) as [_ Hself].
           destruct (IH (S i) nic' (alter (IPConfiguration.set_public_ip_address None)
                                          0%nat configs) s1)
             as (e & s' & Hrun & Hattr & _).
           ++ rewrite Hself. exact Hnic.
           ++ subst nic'. reflexivity.
           ++ rewrite list_lookup_alter_ne by lia. exact Hj.
           ++ lia.
           ++ exists e, s'. split; [exact Hrun|]. split; [exact Hattr|].
              intros Heq. contradiction.
        -- exists e, s1. split; [reflexivity|]. split.
           ++ intros Hsucceeds. exfalso.
              destruct (Hsucceeds nic_id nic' (remote s)) as [w' Hw'].
              unfold invoke in Hcall. rewrite Hw' in Hcall. discriminate.
           ++ intros Heq. contradiction.
      * destruct (IH (S i) nic configs s Hnic Hconfigs Hj ltac:(lia))
          as (e & s' & Hrun & Hattr & _).
        exists e, s'. split; [exact Hrun|]. split; [exact Hattr|].
        intros Heq. contradiction.
Qed.
End RemoveFloatingIP.

(** C10: on an instance whose first network interface has an IP
    configuration with no public IP address bound, [remove_floating_ip] never
    returns: it ends in an exception.  The exception is the [AttributeError]
    of reading the id of the absent public IP address, unless an [update_nic]
    made on the way raised first; when the unbound configuration is the first
    one, nothing but [get_nic] has been called. *)
Theorem remove_floating_ip_unbound_configuration `{Provider}
        (s : store AzureInstance.t) (floating_ip : AzureFloatingIP.t)
        (nic_id : option string) (nic : NetworkInterface.t) (w : world)
        (configs : list IPConfiguration.t) (j : nat) (c : IPConfiguration.t) :
  AzureInstance._nic_ids (self s) !! 0%nat = Some nic_id ->
  handle (azure_client.get_nic nic_id) (remote s) = (Returned nic, w) ->
  NetworkInterface.ip_configurations nic = Some configs ->
  configs !! j = Some c ->
  IPConfiguration.public_ip_address c = None ->
  exists e s',
    AzureInstance.remove_floating_ip floating_ip s = (Raised e, s')
    /\ (update_nic_succeeds -> e = AttributeError)
    /\ (j = 0%nat ->
        e = AttributeError
        /\ trace s' = trace s ++ [Event (azure_client.get_nic nic_id) (Returned nic)]).
Proof.
  intros Hnic Hget Hconfigs Hj Hunbound.
  unfold AzureInstance.remove_floating_ip.
  unfold bind, get_self, lift_outcome, py_index, invoke. rewrite Hnic, Hget, Hconfigs.
  match goal with
  | |- context [AzureInstance.remove_floating_ip_loop _ _ _ _ ?s0] =>
      destruct (remove_floating_ip_loop_raises floating_ip nic_id j c Hunbound
                  (length configs) 0%nat nic configs s0 Hnic Hconfigs Hj)
        as (e & s' & Hrun & Hattr & Hfirst)
  end.
  - apply lookup_lt_Some in Hj. lia.
  - exists e, s'. split; [exact Hrun|]. split; [exact Hattr|].
    intros ->. destruct (Hfirst eq_refl) as [-> ->]. split; reflexivity.
Qed.

Lemma remove_floating_ip_unbound_configuration_witness :
  exists s',
    @AzureInstance.remove_floating_ip (Scripted.provider unbound_script)
      (AzureFloatingIP.Build Scripted.a_public_ip "net1")
      (Scripted.start unbound_script an_instance)
    = (Raised AttributeError, s').
Proof.
  destruct (@remove_floating_ip_unbound_configuration (Scripted.provider unbound_script)
              (Scripted.start unbound_script an_instance)
              (AzureFloatingIP.Build Scripted.a_public_ip "net1")
              (Some "nic1") a_nic_with_unbound_configuration tt
              [ IPConfiguration.Build (Some "10.0.0.4")
                  (Some (SubResource.Build "/publicIPAddresses/ip1"));
                IPConfiguration.Build (Some "10.0.0.5") None ]
              1%nat (IPConfiguration.Build (Some "10.0.0.5") None)
              eq_refl eq_refl eq_refl eq_refl eq_refl)
    as (e & s' & Hrun & Hattr & _).
  exists s'. rewrite Hrun. f_equal. f_equal. apply Hattr.
  intros nic_name nic w. exists tt. destruct w. reflexivity.
Defined.

Example remove_floating_ip_example :
  let run := @AzureInstance.remove_floating_ip (Scripted.provider unbound_script)
               (AzureFloatingIP.Build Scripted.a_public_ip "net1")
               (Scripted.start unbound_script an_instance) in
  fst run = Raised AttributeError
  /\ requests (trace (snd run))
     = [ azure_client.get_nic (Some "nic1");
         azure_client.update_nic (Some "nic1")
           (NetworkInterface.Build None
              (Some [ IPConfiguration.Build (Some "10.0.0.4") None;
                      IPConfiguration.Build (Some "10.0.0.5") None ])) ].
Proof. cbv zeta. split; vm_compute; reflexivity. Qed.

(** ** Tag-backed names *)

(** An adapter is tag-backed when its constructor only fills in a missing
    tag mapping, its [name] reads the [Name] tag with the raw name as the
    default, and its setter writes the [Name] tag. *)
Lemma tag_backed_intro {Payload Adapter : Type}
      (payload_tags : Payload -> option (gmap string pyval))
      (raw_name : Payload -> string)
      (set_tags : option (gmap string pyval) -> Payload -> Payload)
      (init : Payload -> Adapter)
      (payload : Adapter -> Payload)
      (name : Adapter -> outcome pyval)
      (set_name : forall P : Provider, string -> @M P Adapter unit) :
  (forall v p, payload_tags (set_tags v p) = v /\ raw_name (set_tags v p) = raw_name p) ->
  (forall p, payload (init p)
             = if negb (truthy (payload_tags p)) then set_tags (Some ∅) p else p) ->
  (forall a, name a
             = match payload_tags (payload a) with
               | None => Raised AttributeError
               | Some tags => Returned (tags_get tags "Name" (VStr (raw_name (payload a))))
               end) ->
  (forall (P : Provider) (s : @store P Adapter) value tags,
      payload_tags (payload (self s)) = Some tags ->
      is_valid_resource_name value = true ->
      payload (self (snd (set_name P value s)))
      = set_tags (Some (tags_update tags "Name" (VStr value))) (payload (self s))) ->
  tag_backed payload_tags raw_name init payload name set_name.
Proof.
  intros Hset Hinit Hname Hsetter. unfold tag_backed. split; [|split; [|split]].
  - intros p. rewrite Hinit.
    destruct (truthy (payload_tags p)) eqn:Htruthy; cbn [negb].
    + split; [|reflexivity]. intros Hnone. rewrite Hnone in Htruthy. discriminate.
    + destruct (Hset (Some ∅) p) as [-> ->]. split; [discriminate|reflexivity].
  - intros p Hfalsy. rewrite Hname, Hinit, Hfalsy. cbn [negb].
    destruct (Hset (Some ∅) p) as [-> ->]. split; reflexivity.
  - intros a tags Htags. rewrite Hname, Htags. reflexivity.
  - intros P s value tags Htags Hvalid.
    rewrite Hname, (Hsetter P s value tags Htags Hvalid).
    destruct (Hset (Some (tags_update tags "Name" (VStr value))) (payload (self s)))
      as [-> ->].
    unfold tags_get, tags_update. rewrite lookup_insert_eq. split; reflexivity.
Qed.

(** The run of a setter, up to the point where its call is answered. *)
Ltac run_setter :=
  let s := fresh "s" in
  let Htags := fresh "Htags" in
  let Hvalid := fresh "Hvalid" in
  intros ? s ? ? Htags Hvalid; destruct s; cbn [self] in Htags;
  unfold AzureInstance.modify_self; unfold_monad; cbn [self remote trace logged];
  rewrite Hvalid; cbn [self remote trace logged]; rewrite Htags;
  cbn [self remote trace logged];
  match goal with
  | |- context [handle ?r ?w0] => destruct (handle r w0)
  end;
  reflexivity.

Ltac run_init :=
  let p := fresh "p" in
  intros p; cbn; destruct (truthy _); reflexivity.

Lemma firewall_tag_backed :
  tag_backed NetworkSecurityGroup.tags NetworkSecurityGroup.name
             AzureVMFirewall.__init__ AzureVMFirewall._vm_firewall
             AzureVMFirewall.name (@AzureVMFirewall.set_name).
Proof.
  apply (tag_backed_intro _ _ NetworkSecurityGroup.set_tags).
  - intros v []. split; reflexivity.
  - unfold AzureVMFirewall.__init__. run_init.
  - reflexivity.
  - unfold AzureVMFirewall.set_name. run_setter.
Qed.

Lemma volume_init_payload (volume : Disk.t) :
  AzureVolume._volume (AzureVolume.__init__ volume)
  = if negb (truthy (Disk.tags volume)) then Disk.set_tags (Some ∅) volume else volume.
Proof.
  unfold AzureVolume.__init__, AzureVolume._update_state. cbn.
  destruct (bool_decide _); cbn; [destruct (truthy (Disk.managed_by volume)); cbn|];
    destruct (truthy (Disk.tags volume)); reflexivity.
Qed.

Lemma volume_tag_backed :
  tag_backed Disk.tags Disk.name AzureVolume.__init__ AzureVolume._volume
             AzureVolume.name (@AzureVolume.set_name).
Proof.
  apply (tag_backed_intro _ _ Disk.set_tags).
  - intros v []. split; reflexivity.
  - apply volume_init_payload.
  - reflexivity.
  - unfold AzureVolume.set_name. run_setter.
Qed.

Lemma snapshot_tag_backed :
  tag_backed Snapshot.tags Snapshot.name AzureSnapshot.__init__ AzureSnapshot._snapshot
             AzureSnapshot.name (@AzureSnapshot.set_name).
Proof.
  apply (tag_backed_intro _ _ Snapshot.set_tags).
  - intros v []. split; reflexivity.
  - unfold AzureSnapshot.__init__. run_init.
  - reflexivity.
  - unfold AzureSnapshot.set_name. run_setter.
Qed.

Lemma image_tag_backed :
  tag_backed Image.tags Image.name AzureMachineImage.__init__ AzureMachineImage._image
             AzureMachineImage.name (@AzureMachineImage.set_name).
Proof.
  apply (tag_backed_intro _ _ Image.set_tags).
  - intros v []. split; reflexivity.
  - unfold AzureMachineImage.__init__. run_init.
  - reflexivity.
  - unfold AzureMachineImage.set_name. run_setter.
Qed.

Lemma network_tag_backed :
  tag_backed VirtualNetwork.tags VirtualNetwork.name AzureNetwork.__init__
             AzureNetwork._network AzureNetwork.name (@AzureNetwork.set_name).
Proof.
  apply (tag_backed_intro _ _ VirtualNetwork.set_tags).
  - intros v []. split; reflexivity.
  - unfold AzureNetwork.__init__. run_init.
  - reflexivity.
  - unfold AzureNetwork.set_name. run_setter.
Qed.

Lemma router_tag_backed :
  tag_backed RouteTable.tags RouteTable.name AzureRouter.__init__
             AzureRouter._route_table AzureRouter.name (@AzureRouter.set_name).
Proof.
  apply (tag_backed_intro _ _ RouteTable.set_tags).
  - intros v []. split; reflexivity.
  - unfold AzureRouter.__init__. run_init.
  - reflexivity.
  - unfold AzureRouter.set_name. run_setter.
Qed.

(** *** The instance constructor *)

Section InstanceInit.
Context `{Provider}.

Lemma keeps_vm_ret {A} (a : A) : keeps_vm (ret a).
Proof. intros s. reflexivity. Qed.

Lemma keeps_vm_bind {A B} (m : M AzureInstance.t A) (k : A -> M AzureInstance.t B) :
  keeps_vm m -> (forall a, keeps_vm (k a)) -> keeps_vm (bind m k).
Proof.
  intros Hm Hk s. unfold bind. specialize (Hm s).
  destruct (m s) as [[a|e] s1]; cbn [snd] in *.
  - rewrite (Hk a s1). exact Hm.
  - exact Hm.
Qed.

Lemma keeps_vm_invoke (r : azure_client.request) : keeps_vm (invoke r).
Proof. intros s. unfold invoke. destruct (handle r (remote s)). reflexivity. Qed.

Lemma keeps_vm_modify (f : AzureInstance.t -> AzureInstance.t) :
  (forall x, AzureInstance._vm (f x) = AzureInstance._vm x) ->
  keeps_vm (AzureInstance.modify_self f).
Proof. intros Hf s. cbn. apply Hf. Qed.

Lemma keeps_vm_for_each {A} (l : list A) (body : A -> M AzureInstance.t unit) :
  (forall x, keeps_vm (body x)) -> keeps_vm (for_each l body).
Proof.
  intros Hbody. induction l as [|x l IH]; cbn [for_each].
  - apply keeps_vm_ret.
  - apply keeps_vm_bind; [apply Hbody|intros _; exact IH].
Qed.

Lemma keeps_vm_get_network_attributes : keeps_vm AzureInstance._get_network_attributes.
Proof.
  unfold AzureInstance._get_network_attributes.
  apply keeps_vm_bind; [apply keeps_vm_modify; reflexivity|intros _].
  apply keeps_vm_bind; [intros s; reflexivity|intros x].
  apply keeps_vm_for_each. intros nic.
  apply keeps_vm_bind; [apply keeps_vm_modify; reflexivity|intros _].
  apply keeps_vm_bind; [apply keeps_vm_invoke|intros fetched].
  apply keeps_vm_bind.
  { destruct (NetworkInterface.network_security_group fetched);
      [apply keeps_vm_modify; reflexivity|apply keeps_vm_ret]. }
  intros _. destruct (truthy (NetworkInterface.ip_configurations fetched));
    [|apply keeps_vm_ret].
  apply keeps_vm_for_each. intros ip_config.
  apply keeps_vm_bind; [apply keeps_vm_modify; reflexivity|intros _].
  destruct (IPConfiguration.public_ip_address ip_config); [|apply keeps_vm_ret].
  apply keeps_vm_bind; [apply keeps_vm_invoke|intros public_ip].
  apply keeps_vm_bind; [apply keeps_vm_modify; reflexivity|intros _].
  apply keeps_vm_modify; reflexivity.
Qed.

Lemma returns_ret {A} (a : A) : returns (ret a).
Proof. intros s. exists a, s. reflexivity. Qed.

Lemma returns_bind {A B} (m : M AzureInstance.t A) (k : A -> M AzureInstance.t B) :
  returns m -> (forall a, returns (k a)) -> returns (bind m k).
Proof.
  intros Hm Hk s. destruct (Hm s) as (a & s1 & Hrun).
  destruct (Hk a s1) as (b & s2 & Hrun2). exists b, s2.
  unfold bind. rewrite Hrun. exact Hrun2.
Qed.

Lemma returns_modify (f : AzureInstance.t -> AzureInstance.t) :
  returns (AzureInstance.modify_self f).
Proof. intros s. eexists. eexists. reflexivity. Qed.

Lemma returns_for_each {A} (l : list A) (body : A -> M AzureInstance.t unit) :
  (forall x, returns (body x)) -> returns (for_each l body).
Proof.
  intros Hbody. induction l as [|x l IH]; cbn [for_each].
  - apply returns_ret.
  - apply returns_bind; [apply Hbody|intros _; exact IH].
Qed.

Section Answering.
Hypothesis Hanswers : never_raises.

Lemma returns_invoke (r : azure_client.request) : returns (invoke r).
Proof.
  intros s. unfold invoke. destruct (Hanswers r (remote s)) as (a & w' & ->).
  eexists. eexists. reflexivity.
Qed.

Lemma returns_get_network_attributes : returns AzureInstance._get_network_attributes.
Proof.
  unfold AzureInstance._get_network_attributes.
  apply returns_bind; [apply returns_modify|intros _].
  apply returns_bind; [intros s; eexists; eexists; reflexivity|intros x].
  apply returns_for_each. intros nic.
  apply returns_bind; [apply returns_modify|intros _].
  apply returns_bind; [apply returns_invoke|intros fetched].
  apply returns_bind.
  { destruct (NetworkInterface.network_security_group fetched);
      [apply returns_modify|apply returns_ret]. }
  intros _. destruct (truthy (NetworkInterface.ip_configurations fetched));
    [|apply returns_ret].
  apply returns_for_each. intros ip_config.
  apply returns_bind; [apply returns_modify|intros _].
  destruct (IPConfiguration.public_ip_address ip_config); [|apply returns_ret].
  apply returns_bind; [apply returns_invoke|intros public_ip].
  apply returns_bind; [apply returns_modify|intros _].
  apply returns_modify.
Qed.
End Answering.

Lemma fill_in_tags_run (s : store AzureInstance.t) :
  exists s',
    fill_in_tags s = (Returned tt, s')
    /\ AzureInstance._vm (self s')
       = (if negb (truthy (VirtualMachine.tags (AzureInstance._vm (self s))))
          then VirtualMachine.set_tags (Some ∅) (AzureInstance._vm (self s))
          else AzureInstance._vm (self s)).
Proof.
  unfold fill_in_tags, AzureInstance.modify_self. unfold_monad.
  destruct (negb (truthy (VirtualMachine.tags (AzureInstance._vm (self s)))));
    eexists; split; reflexivity.
Qed.

(** However the constructor got there, when it returns the instance has a
    tag mapping. *)
Lemma instance_init_has_tags (depth : nat) (vm_instance : VirtualMachine.t)
      (s s' : store AzureInstance.t) :
  AzureInstance.__init__ depth vm_instance s = (Returned tt, s') ->
  VirtualMachine.tags (AzureInstance._vm (self s')) <> None.
Proof.
  unfold AzureInstance.__init__. intros Hrun.
  apply bind_inv in Hrun. destruct Hrun as (u1 & s1 & _ & Hrun).
  apply bind_inv in Hrun. destruct Hrun as (u2 & s2 & _ & Hrun).
  apply bind_inv in Hrun. destruct Hrun as (u3 & s3 & _ & Hrun).
  change (fill_in_tags s3 = (Returned tt, s')) in Hrun.
  destruct (fill_in_tags_run s3) as (s3' & Hfill & Hvm).
  rewrite Hfill in Hrun. inversion Hrun; subst s3'. rewrite Hvm.
  destruct (truthy (VirtualMachine.tags (AzureInstance._vm (self s3)))) eqn:Htruthy;
    cbn [negb].
  - intros Hnone. rewrite Hnone in Htruthy. discriminate.
  - destruct (AzureInstance._vm (self s3)). discriminate.
Qed.

(** With an instance view in the payload the constructor keeps the payload
    and only fills in its tags. *)
Lemma instance_init_with_view (depth : nat) (vm_instance : VirtualMachine.t)
      (instance_view : VirtualMachineInstanceView.t) (statuses : list InstanceViewStatus.t)
      (s s' : store AzureInstance.t) :
  VirtualMachine.instance_view vm_instance = Some instance_view ->
  VirtualMachineInstanceView.statuses instance_view = Some statuses ->
  AzureInstance.__init__ (S depth) vm_instance s = (Returned tt, s') ->
  AzureInstance._vm (self s')
  = (if negb (truthy (VirtualMachine.tags vm_instance))
     then VirtualMachine.set_tags (Some ∅) vm_instance
     else vm_instance).
Proof.
  intros Hview Hstatuses. unfold AzureInstance.__init__. intros Hrun.
  apply bind_inv in Hrun. destruct Hrun as (u1 & s1 & Hset & Hrun).
  apply bind_inv in Hrun. destruct Hrun as (u2 & s2 & Hupdate & Hrun).
  apply bind_inv in Hrun. destruct Hrun as (u3 & s3 & Hnet & Hrun).
  change (fill_in_tags s3 = (Returned tt, s')) in Hrun.
  assert (H1 : AzureInstance._vm (self s1) = vm_instance).
  { cbn in Hset. inversion Hset; subst s1. destruct (self s). reflexivity. }
  assert (H2 : AzureInstance._vm (self s2) = vm_instance).
  { rewrite (update_state_with_view s1 depth instance_view statuses) in Hupdate
      by (try rewrite H1; assumption).
    inversion Hupdate; subst s2. cbn. exact H1. }
  assert (H3 : AzureInstance._vm (self s3) = vm_instance).
  { pose proof (keeps_vm_get_network_attributes s2) as Hkeep.
    rewrite Hnet in Hkeep. cbn [snd] in Hkeep. congruence. }
  destruct (fill_in_tags_run s3) as (s3' & Hfill & Hvm).
  rewrite Hfill in Hrun. inversion Hrun; subst s3'. rewrite Hvm, H3. reflexivity.
Qed.

(** With an instance view in the payload and a provider that answers every
    call, the constructor returns. *)
Lemma instance_init_returns (depth : nat) (vm_instance : VirtualMachine.t)
      (instance_view : VirtualMachineInstanceView.t) (statuses : list InstanceViewStatus.t)
      (s : store AzureInstance.t) :
  never_raises ->
  VirtualMachine.instance_view vm_instance = Some instance_view ->
  VirtualMachineInstanceView.statuses instance_view = Some statuses ->
  exists s', AzureInstance.__init__ (S depth) vm_instance s = (Returned tt, s').
Proof.
  intros Hanswers Hview Hstatuses. unfold AzureInstance.__init__.
  destruct (returns_modify (AzureInstance.set_vm vm_instance) s) as ([] & s1 & Hset).
  assert (H1 : AzureInstance._vm (self s1) = vm_instance).
  { cbn in Hset. inversion Hset; subst s1. destruct (self s). reflexivity. }
  assert (Hview1 : VirtualMachine.instance_view (AzureInstance._vm (self s1))
                   = Some instance_view) by (rewrite H1; exact Hview).
  pose proof (update_state_with_view s1 depth instance_view statuses Hview1 Hstatuses)
    as Hupdate.
  match type of Hupdate with _ = (_, ?s2) =>
    destruct (returns_get_network_attributes Hanswers s2) as ([] & s3 & Hnet)
  end.
  destruct (fill_in_tags_run s3) as (s' & Hfill & _).
  exists s'.
  rewrite (bind_returned _ _ _ _ _ Hset), (bind_returned _ _ _ _ _ Hupdate),
    (bind_returned _ _ _ _ _ Hnet).
  exact Hfill.
Qed.
End InstanceInit.

Lemma instance_name_reads_tag (a : AzureInstance.t) (tags : gmap string pyval) :
  VirtualMachine.tags (AzureInstance._vm a) = Some tags ->
  AzureInstance.name a
  = Returned (default (VStr (VirtualMachine.name (AzureInstance._vm a))) (tags !! "Name")).
Proof. intros Htags. unfold AzureInstance.name. rewrite Htags. reflexivity. Qed.

Lemma instance_set_name_run `{Provider} (s : store AzureInstance.t) (value : string)
      (tags : gmap string pyval) :
  VirtualMachine.tags (AzureInstance._vm (self s)) = Some tags ->
  is_valid_resource_name value = true ->
  AzureInstance._vm (self (snd (AzureInstance.set_name value s)))
  = VirtualMachine.set_tags (Some (tags_update tags "Name" (VStr value)))
                            (AzureInstance._vm (self s)).
Proof.
  revert s value tags. unfold AzureInstance.set_name.
  intros s value tags Htags Hvalid. destruct s as [x w tr lg]. cbn [self] in Htags.
  unfold AzureInstance.modify_self. unfold_monad. cbn [self remote trace logged].
  rewrite Hvalid. cbn [self remote trace logged]. rewrite Htags.
  cbn [self remote trace logged].
  match goal with
  | |- context [handle ?r ?w0] => destruct (handle r w0)
  end.
  reflexivity.
Qed.

(** ** The instance constructor, step by step *)

Section InstanceRefreshSteps.
Context `{Provider}.

Lemma refresh_with_fetched (update_state : M AzureInstance.t unit)
      (s : store AzureInstance.t) (vm : VirtualMachine.t) (w : world) :
  handle (azure_client.get_vm (AzureInstance.id (self s))) (remote s) = (Returned vm, w) ->
  AzureInstance.refresh_with update_state s
  = let s1 :=
      Store (AzureInstance.set_vm
               (if negb (truthy (VirtualMachine.tags vm))
                then VirtualMachine.set_tags (Some ∅) vm else vm) (self s))
            w
            (trace s ++ [Event (azure_client.get_vm (AzureInstance.id (self s)))
                               (Returned vm)])
            (logged s) in
    match update_state s1 with
    | (Returned _, s2) =>
        match AzureInstance._get_network_attributes s2 with
        | (Returned a, s3) => (Returned a, s3)
        | (Raised e, s3) =>
            if match e with CloudError _ | ValueError _ => true | _ => false end
            then (msg <- exn_message e ;;
                  log_exception msg ;;
                  AzureInstance.modify_self (AzureInstance.set_state (Some "unknown"))) s3
            else (Raised e, s3)
        end
    | (Raised e, s2) =>
        if match e with CloudError _ | ValueError _ => true | _ => false end
        then (msg <- exn_message e ;;
              log_exception msg ;;
              AzureInstance.modify_self (AzureInstance.set_state (Some "unknown"))) s2
        else (Raised e, s2)
    end.
Proof.
  intros Hget. destruct s as [x w0 tr lg]. cbn [self remote trace logged] in *.
  unfold AzureInstance.refresh_with, try_except.
  unfold bind at 1 2 3 4 5 6. unfold get_self at 1 2, invoke.
  cbn [self remote trace logged]. rewrite Hget.
  unfold AzureInstance.modify_self at 1. unfold bind at 1, get_self at 1, set_self at 1.
  cbn [self remote trace logged AzureInstance.set_vm AzureInstance._vm].
  destruct (negb (truthy (VirtualMachine.tags vm))).
  - unfold AzureInstance.modify_self at 1. unfold bind at 1, get_self at 1, set_self at 1.
    cbn [self remote trace logged AzureInstance.set_vm AzureInstance._vm
         AzureInstance._state AzureInstance._private_ips AzureInstance._public_ips
         AzureInstance._vm_firewall_ids AzureInstance._public_ip_ids
         AzureInstance._nic_ids].
    destruct (update_state _) as [[[]|e] s2]; [|reflexivity].
    destruct (AzureInstance._get_network_attributes s2) as [[a|e] s3]; reflexivity.
  - unfold ret at 1.
    destruct (update_state _) as [[[]|e] s2]; [|reflexivity].
    destruct (AzureInstance._get_network_attributes s2) as [[a|e] s3]; reflexivity.
Qed.

Lemma update_state_without_view_step (depth : nat) (s : store AzureInstance.t) :
  VirtualMachine.instance_view (AzureInstance._vm (self s)) = None ->
  AzureInstance._update_state (S depth) s
  = match AzureInstance.refresh_with (AzureInstance._update_state depth) s with
    | (Returned _, s1) =>
        (self <- get_self ;;
         match VirtualMachine.instance_view (AzureInstance._vm self) with
         | Some instance_view =>
             match VirtualMachineInstanceView.statuses instance_view with
             | None => raise TypeError
             | Some statuses =>
                 if (1 <? length statuses)%nat
                 then
                   status <- lift_outcome (py_index statuses 1) ;;
                   AzureInstance.modify_self
                     (AzureInstance.set_state (InstanceViewStatus.display_status status))
                 else
                   AzureInstance.modify_self
                     (AzureInstance.set_state
                        (VirtualMachine.provisioning_state (AzureInstance._vm self)))
             end
         | None =>
             AzureInstance.modify_self
               (AzureInstance.set_state
                  (VirtualMachine.provisioning_state (AzureInstance._vm self)))
         end) s1
    | (Raised e, s1) => (Raised e, s1)
    end.
Proof.
  intros Hview. cbn [AzureInstance._update_state].
  unfold bind at 1, get_self at 1. rewrite Hview. cbn [truthy_object negb].
  unfold bind at 1.
  destruct (AzureInstance.refresh_with (AzureInstance._update_state depth) s)
    as [[[]|e] s1]; reflexivity.
Qed.
End InstanceRefreshSteps.

(** ** The payload of a constructed instance *)

Lemma with_tags_filled_twice (vm : VirtualMachine.t) :
  with_tags_filled (with_tags_filled vm) = with_tags_filled vm.
Proof.
  unfold with_tags_filled.
  destruct (truthy (VirtualMachine.tags vm)) eqn:Htruthy; cbn [negb].
  - rewrite Htruthy. reflexivity.
  - reflexivity.
Qed.

Lemma with_tags_filled_has_tags (vm : VirtualMachine.t) :
  VirtualMachine.tags (with_tags_filled vm)
  = Some (if truthy (VirtualMachine.tags vm)
          then default ∅ (VirtualMachine.tags vm) else ∅).
Proof.
  unfold with_tags_filled.
  destruct (truthy (VirtualMachine.tags vm)) eqn:Htruthy; cbn [negb]; [|reflexivity].
  destruct (VirtualMachine.tags vm); [reflexivity|discriminate].
Qed.

Lemma with_tags_filled_name (vm : VirtualMachine.t) :
  VirtualMachine.name (with_tags_filled vm) = VirtualMachine.name vm.
Proof. unfold with_tags_filled. destruct (negb _); reflexivity. Qed.

Lemma with_tags_filled_view (vm : VirtualMachine.t) :
  VirtualMachine.instance_view (with_tags_filled vm) = VirtualMachine.instance_view vm.
Proof. unfold with_tags_filled. destruct (negb _); reflexivity. Qed.

Lemma payload_after_nothing (before : VirtualMachine.t) : payload_after before [] = before.
Proof. reflexivity. Qed.

Lemma payload_after_app (before : VirtualMachine.t) (c1 c2 : list event) :
  payload_after (payload_after before c1) c2 = payload_after before (c1 ++ c2).
Proof.
  unfold payload_after, last_fetched_vm. rewrite omap_app, last_app.
  destruct (last (omap fetched_vm c2)); reflexivity.
Qed.

Lemma payload_after_other (before : VirtualMachine.t) (ev : event) :
  fetched_vm ev = None -> payload_after before [ev] = before.
Proof.
  intros Hev. unfold payload_after, last_fetched_vm. cbn. rewrite Hev. reflexivity.
Qed.

Section FollowsFetches.
Context `{Provider}.

Lemma follows_same {A} (m : M AzureInstance.t A) :
  (forall s, trace (snd (m s)) = trace s
             /\ AzureInstance._vm (self (snd (m s))) = AzureInstance._vm (self s)) ->
  follows_fetches m.
Proof.
  intros Hm s. exists []. destruct (Hm s) as [Htrace Hvm].
  rewrite app_nil_r. split; assumption.
Qed.

Lemma follows_ret {A} (a : A) : follows_fetches (ret a).
Proof. apply follows_same. intros s. split; reflexivity. Qed.

Lemma follows_raise {A} (e : exn) : follows_fetches (@raise _ _ A e).
Proof. apply follows_same. intros s. split; reflexivity. Qed.

Lemma follows_get_self : follows_fetches get_self.
Proof. apply follows_same. intros s. split; reflexivity. Qed.

Lemma follows_lift_outcome {A} (o : outcome A) : follows_fetches (lift_outcome o).
Proof. apply follows_same. intros s. split; reflexivity. Qed.

Lemma follows_log_exception (msg : string) : follows_fetches (log_exception msg).
Proof. apply follows_same. intros s. split; reflexivity. Qed.

Lemma follows_exn_message (e : exn) : follows_fetches (exn_message e).
Proof.
  apply follows_same. intros s. destruct e as [msg|[msg|]| | | | |]; split; reflexivity.
Qed.

Lemma follows_modify (f : AzureInstance.t -> AzureInstance.t) :
  (forall x, AzureInstance._vm (f x) = AzureInstance._vm x) ->
  follows_fetches (AzureInstance.modify_self f).
Proof. intros Hf. apply follows_same. intros s. split; [reflexivity|apply Hf]. Qed.

Lemma follows_bind {A B} (m : M AzureInstance.t A) (k : A -> M AzureInstance.t B) :
  follows_fetches m -> (forall a, follows_fetches (k a)) -> follows_fetches (bind m k).
Proof.
  intros Hm Hk s. unfold bind. destruct (Hm s) as (c1 & Htrace1 & Hvm1).
  destruct (m s) as [[a|e] s1]; cbn [snd] in *.
  - destruct (Hk a s1) as (c2 & Htrace2 & Hvm2). exists (c1 ++ c2). split.
    + rewrite Htrace2, Htrace1, app_assoc. reflexivity.
    + rewrite Hvm2, Hvm1. apply payload_after_app.
  - exists c1. split; assumption.
Qed.

Lemma follows_try_except {A} (body : M AzureInstance.t A) (caught : exn -> bool)
      (handler : exn -> M AzureInstance.t A) :
  follows_fetches body -> (forall e, follows_fetches (handler e)) ->
  follows_fetches (try_except body caught handler).
Proof.
  intros Hbody Hhandler s. unfold try_except. destruct (Hbody s) as (c1 & Htrace1 & Hvm1).
  destruct (body s) as [[a|e] s1]; cbn [snd] in *.
  - exists c1. split; assumption.
  - destruct (caught e).
    + destruct (Hhandler e s1) as (c2 & Htrace2 & Hvm2). exists (c1 ++ c2). split.
      * rewrite Htrace2, Htrace1, app_assoc. reflexivity.
      * rewrite Hvm2, Hvm1. apply payload_after_app.
    + exists c1. split; assumption.
Qed.

Lemma follows_for_each {A} (l : list A) (body : A -> M AzureInstance.t unit) :
  (forall x, follows_fetches (body x)) -> follows_fetches (for_each l body).
Proof.
  intros Hbody. induction l as [|x l IH]; cbn [for_each].
  - apply follows_ret.
  - apply follows_bind; [apply Hbody|intros _; exact IH].
Qed.

(** A call that is not [get_vm] fetches no VM. *)
Lemma follows_invoke (r : azure_client.request) :
  (forall o, fetched_vm (Event r o) = None) -> follows_fetches (invoke r).
Proof.
  intros Hother s. unfold invoke. destruct (handle r (remote s)) as [o w].
  exists [Event r o]. split; [reflexivity|].
  cbn [snd self]. rewrite payload_after_other by apply Hother. reflexivity.
Qed.

Lemma follows_get_network_attributes :
  follows_fetches AzureInstance._get_network_attributes.
Proof.
  unfold AzureInstance._get_network_attributes.
  apply follows_bind; [apply follows_modify; reflexivity|intros _].
  apply follows_bind; [apply follows_get_self|intros x].
  apply follows_for_each. intros nic.
  apply follows_bind; [apply follows_modify; reflexivity|intros _].
  apply follows_bind; [apply follows_invoke; reflexivity|intros fetched].
  apply follows_bind.
  { destruct (NetworkInterface.network_security_group fetched);
      [apply follows_modify; reflexivity|apply follows_ret]. }
  intros _. destruct (truthy (NetworkInterface.ip_configurations fetched));
    [|apply follows_ret].
  apply follows_for_each. intros ip_config.
  apply follows_bind; [apply follows_modify; reflexivity|intros _].
  destruct (IPConfiguration.public_ip_address ip_config); [|apply follows_ret].
  apply follows_bind; [apply follows_invoke; reflexivity|intros public_ip].
  apply follows_bind; [apply follows_modify; reflexivity|intros _].
  apply follows_modify; reflexivity.
Qed.

(** Fetching the VM and making it the payload, tags filled in. *)
Lemma follows_fetch {A} (vm_id : string) (k : M AzureInstance.t A) :
  follows_fetches k ->
  follows_fetches
    (vm <- invoke (azure_client.get_vm vm_id) ;;
     AzureInstance.modify_self (AzureInstance.set_vm vm) ;;
     self <- get_self ;;
     (if negb (truthy (VirtualMachine.tags (AzureInstance._vm self)))
      then AzureInstance.modify_self
             (AzureInstance.set_vm
                (VirtualMachine.set_tags (Some ∅) (AzureInstance._vm self)))
      else ret tt) ;;
     k).
Proof.
  intros Hk s.
  match goal with
  | |- exists calls, trace (snd (?m s)) = _ /\ _ =>
      assert (Hrun : m s
                     = match handle (azure_client.get_vm vm_id) (remote s) with
                       | (Returned vm, w) =>
                           k (Store (AzureInstance.set_vm (with_tags_filled vm) (self s)) w
                                    (trace s ++ [Event (azure_client.get_vm vm_id)
                                                       (Returned vm)])
                                    (logged s))
                       | (Raised e, w) =>
                           (Raised e,
                            Store (self s) w
                                  (trace s ++ [Event (azure_client.get_vm vm_id) (Raised e)])
                                  (logged s))
                       end)
  end.
  { unfold AzureInstance.modify_self.
    unfold bind, invoke, get_self, set_self, ret, with_tags_filled.
    destruct (handle (azure_client.get_vm vm_id) (remote s)) as [[vm|e] w];
      [|reflexivity].
    cbn [self remote trace logged AzureInstance.set_vm AzureInstance._vm].
    destruct (negb (truthy (VirtualMachine.tags vm))); reflexivity. }
  rewrite Hrun. clear Hrun.
  destruct (handle (azure_client.get_vm vm_id) (remote s)) as [[vm|e] w].
  - match goal with
    | |- context [k ?s0] => set (s1 := s0)
    end.
    destruct (Hk s1) as (calls & Htrace & Hvm).
    exists (Event (azure_client.get_vm vm_id) (Returned vm) :: calls). split.
    + rewrite Htrace. cbn [s1 trace]. rewrite <- app_assoc. reflexivity.
    + rewrite Hvm. cbn [s1 self AzureInstance.set_vm AzureInstance._vm].
      change (Event (azure_client.get_vm vm_id) (Returned vm) :: calls)
        with ([Event (azure_client.get_vm vm_id) (Returned vm)] ++ calls).
      rewrite <- (payload_after_app (AzureInstance._vm (self s))). reflexivity.
  - exists [Event (azure_client.get_vm vm_id) (Raised e)]. split; reflexivity.
Qed.

Lemma follows_refresh_with (update_state : M AzureInstance.t unit) :
  follows_fetches update_state ->
  follows_fetches (AzureInstance.refresh_with update_state).
Proof.
  intros Hupdate. unfold AzureInstance.refresh_with.
  apply follows_try_except.
  - apply follows_bind; [apply follows_get_self|intros x].
    apply (follows_fetch (AzureInstance.id x)).
    apply follows_bind; [exact Hupdate|intros _].
    apply follows_get_network_attributes.
  - intros e. apply follows_bind; [apply follows_exn_message|intros msg].
    apply follows_bind; [apply follows_log_exception|intros _].
    apply follows_modify. reflexivity.
Qed.

Lemma follows_update_state (depth : nat) :
  follows_fetches (AzureInstance._update_state depth).
Proof.
  induction depth as [|depth IH]; cbn [AzureInstance._update_state].
  - apply follows_raise.
  - apply follows_bind; [apply follows_get_self|intros x].
    apply follows_bind.
    { destruct (negb (truthy_object (VirtualMachine.instance_view (AzureInstance._vm x))));
        [apply follows_refresh_with; exact IH|apply follows_ret]. }
    intros _. apply follows_bind; [apply follows_get_self|intros y].
    destruct (VirtualMachine.instance_view (AzureInstance._vm y)) as [instance_view|].
    + destruct (VirtualMachineInstanceView.statuses instance_view) as [statuses|];
        [|apply follows_raise].
      destruct (1 <? length statuses)%nat.
      * apply follows_bind; [apply follows_lift_outcome|intros status].
        apply follows_modify. reflexivity.
      * apply follows_modify. reflexivity.
    + apply follows_modify. reflexivity.
Qed.

(** When the constructor returns, the payload is the VM fetched last, or
    the one it was given, with the tags filled in. *)
Lemma instance_init_payload (depth : nat) (vm_instance : VirtualMachine.t)
      (s s' : store AzureInstance.t) :
  AzureInstance.__init__ depth vm_instance s = (Returned tt, s') ->
  exists calls,
    trace s' = trace s ++ calls
    /\ AzureInstance._vm (self s')
       = with_tags_filled (default vm_instance (last_fetched_vm calls)).
Proof.
  unfold AzureInstance.__init__. intros Hrun.
  apply bind_inv in Hrun. destruct Hrun as (u1 & s1 & Hset & Hrun).
  apply bind_inv in Hrun. destruct Hrun as (u2 & s2 & Hupdate & Hrun).
  apply bind_inv in Hrun. destruct Hrun as (u3 & s3 & Hnet & Hrun).
  change (fill_in_tags s3 = (Returned tt, s')) in Hrun.
  assert (H1 : AzureInstance._vm (self s1) = vm_instance /\ trace s1 = trace s).
  { cbn in Hset. inversion Hset; subst s1. destruct (self s). split; reflexivity. }
  destruct H1 as [H1 Htrace1].
  destruct (follows_update_state depth s1) as (c2 & Htrace2 & Hvm2).
  rewrite Hupdate in Htrace2, Hvm2. cbn [snd] in Htrace2, Hvm2.
  destruct (follows_get_network_attributes s2) as (c3 & Htrace3 & Hvm3).
  rewrite Hnet in Htrace3, Hvm3. cbn [snd] in Htrace3, Hvm3.
  destruct (fill_in_tags_run s3) as (s3' & Hfill & Hvm).
  rewrite Hfill in Hrun. inversion Hrun; subst s3'.
  assert (Htrace : trace s' = trace s3).
  { unfold fill_in_tags, AzureInstance.modify_self in Hfill. revert Hfill. unfold_monad.
    destruct (negb (truthy (VirtualMachine.tags (AzureInstance._vm (self s3)))));
      intros Hfill; inversion Hfill; reflexivity. }
  exists (c2 ++ c3). split.
  { rewrite Htrace, Htrace3, Htrace2, Htrace1, app_assoc. reflexivity. }
  fold (with_tags_filled (AzureInstance._vm (self s3))) in Hvm.
  rewrite Hvm, Hvm3, Hvm2, H1, payload_after_app.
  unfold payload_after. destruct (last_fetched_vm (c2 ++ c3)) as [fetched|]; cbn [default from_option id].
  - apply with_tags_filled_twice.
  - reflexivity.
Qed.

(** The name of an instance whose payload has its tags filled in. *)
Lemma name_with_tags_filled (a : AzureInstance.t) (vm : VirtualMachine.t) :
  AzureInstance._vm a = with_tags_filled vm ->
  AzureInstance.name a
  = Returned (match VirtualMachine.tags vm with
              | Some tags => default (VStr (VirtualMachine.name vm)) (tags !! "Name")
              | None => VStr (VirtualMachine.name vm)
              end).
Proof.
  intros Hvm. unfold AzureInstance.name. rewrite Hvm.
  rewrite with_tags_filled_has_tags, with_tags_filled_name. unfold tags_get.
  destruct (VirtualMachine.tags vm) as [tags|]; [|reflexivity].
  destruct (truthy (Some tags)) eqn:Htruthy; [reflexivity|].
  cbn [default from_option id].
  assert (Hempty : tags = ∅).
  { change (negb (bool_decide (tags = ∅)) = false) in Htruthy.
    apply negb_false_iff, bool_decide_eq_true_1 in Htruthy. exact Htruthy. }
  subst tags. reflexivity.
Qed.
End FollowsFetches.

Section InstanceRefetch.
Context `{Provider}.

(** What [_update_state] does after its [refresh], on a payload with an
    instance view. *)
Lemma update_state_with_view_end (s : store AzureInstance.t)
      (instance_view : VirtualMachineInstanceView.t) (statuses : list InstanceViewStatus.t) :
  VirtualMachine.instance_view (AzureInstance._vm (self s)) = Some instance_view ->
  VirtualMachineInstanceView.statuses instance_view = Some statuses ->
  exists s',
    (self <- get_self ;;
     match VirtualMachine.instance_view (AzureInstance._vm self) with
     | Some instance_view =>
         match VirtualMachineInstanceView.statuses instance_view with
         | None => raise TypeError
         | Some statuses =>
             if (1 <? length statuses)%nat
             then
               status <- lift_outcome (py_index statuses 1) ;;
               AzureInstance.modify_self
                 (AzureInstance.set_state (InstanceViewStatus.display_status status))
             else
               AzureInstance.modify_self
                 (AzureInstance.set_state
                    (VirtualMachine.provisioning_state (AzureInstance._vm self)))
         end
     | None =>
         AzureInstance.modify_self
           (AzureInstance.set_state
              (VirtualMachine.provisioning_state (AzureInstance._vm self)))
     end) s = (Returned tt, s')
    /\ AzureInstance._vm (self s') = AzureInstance._vm (self s).
Proof.
  intros Hview Hstatuses. unfold AzureInstance.modify_self. unfold_monad.
  rewrite Hview, Hstatuses.
  destruct statuses as [|first [|second rest]]; eexists; split; reflexivity.
Qed.

(** Without an instance view in the payload, when [get_vm] answers with a
    VM that has one and every call is answered, the constructor returns
    with the fetched VM as the payload, its tags filled in. *)
Lemma instance_init_refetched (depth : nat) (vm_instance fetched : VirtualMachine.t)
      (instance_view : VirtualMachineInstanceView.t) (statuses : list InstanceViewStatus.t)
      (s : store AzureInstance.t) (w : world) :
  never_raises ->
  VirtualMachine.instance_view vm_instance = None ->
  handle (azure_client.get_vm (VirtualMachine.name vm_instance)) (remote s)
  = (Returned fetched, w) ->
  VirtualMachine.instance_view fetched = Some instance_view ->
  VirtualMachineInstanceView.statuses instance_view = Some statuses ->
  exists s',
    AzureInstance.__init__ (S (S depth)) vm_instance s = (Returned tt, s')
    /\ AzureInstance._vm (self s') = with_tags_filled fetched.
Proof.
  intros Hanswers Hnone Hget Hview Hstatuses. unfold AzureInstance.__init__.
  destruct (returns_modify (AzureInstance.set_vm vm_instance) s) as ([] & s1 & Hset).
  assert (H1 : AzureInstance._vm (self s1) = vm_instance /\ remote s1 = remote s).
  { cbn in Hset. inversion Hset; subst s1. destruct (self s). split; reflexivity. }
  destruct H1 as [H1 Hremote].
  assert (Hnone1 : VirtualMachine.instance_view (AzureInstance._vm (self s1)) = None)
    by (rewrite H1; exact Hnone).
  assert (Hget1 : handle (azure_client.get_vm (AzureInstance.id (self s1))) (remote s1)
                  = (Returned fetched, w)).
  { unfold AzureInstance.id. rewrite H1, Hremote. exact Hget. }
  pose proof (update_state_without_view_step (S depth) s1 Hnone1) as Hupdate.
  rewrite (refresh_with_fetched _ s1 fetched w Hget1) in Hupdate. cbv zeta in Hupdate.
  fold (with_tags_filled fetched) in Hupdate.
  match type of Hupdate with
  | context [AzureInstance._update_state (S depth) ?s0] => set (s2 := s0) in *
  end.
  assert (Hview2 : VirtualMachine.instance_view (AzureInstance._vm (self s2))
                   = Some instance_view).
  { cbn [s2 self AzureInstance.set_vm AzureInstance._vm].
    rewrite with_tags_filled_view. exact Hview. }
  rewrite (update_state_with_view s2 depth instance_view statuses Hview2 Hstatuses)
    in Hupdate.
  match type of Hupdate with
  | context [AzureInstance._get_network_attributes ?s0] =>
      set (s3 := s0) in *;
      destruct (returns_get_network_attributes Hanswers s3) as ([] & s4 & Hnet);
      pose proof (keeps_vm_get_network_attributes s3) as Hkeep
  end.
  rewrite Hnet in Hupdate, Hkeep. cbn [snd] in Hkeep.
  assert (H4 : AzureInstance._vm (self s4) = with_tags_filled fetched).
  { rewrite Hkeep. reflexivity. }
  destruct (update_state_with_view_end s4 instance_view statuses) as (s5 & Hend & H5);
    [rewrite H4, with_tags_filled_view; exact Hview|exact Hstatuses|].
  rewrite Hend in Hupdate.
  destruct (returns_get_network_attributes Hanswers s5) as ([] & s6 & Hnet6).
  pose proof (keeps_vm_get_network_attributes s5) as Hkeep6.
  rewrite Hnet6 in Hkeep6. cbn [snd] in Hkeep6.
  destruct (fill_in_tags_run s6) as (s' & Hfill & Hvm).
  exists s'. split.
  - rewrite (bind_returned _ _ _ _ _ Hset), (bind_returned _ _ _ _ _ Hupdate),
      (bind_returned _ _ _ _ _ Hnet6).
    exact Hfill.
  - fold (with_tags_filled (AzureInstance._vm (self s6))) in Hvm.
    rewrite Hvm, Hkeep6, H5, H4. apply with_tags_filled_twice.
Qed.

(** Without an instance view in the payload, when [get_vm] raises a
    [CloudError], [_update_state] returns and keeps the payload. *)
Lemma update_state_vanished (depth : nat) (s : store AzureInstance.t)
      (msg : string) (w : world) :
  VirtualMachine.instance_view (AzureInstance._vm (self s)) = None ->
  handle (azure_client.get_vm (AzureInstance.id (self s))) (remote s)
  = (Raised (CloudError msg), w) ->
  exists s',
    AzureInstance._update_state (S depth) s = (Returned tt, s')
    /\ AzureInstance._vm (self s') = AzureInstance._vm (self s).
Proof.
  intros Hview Hget.
  assert (Hrefresh : forall update_state,
             AzureInstance.refresh_with update_state s
             = (Returned tt,
                Store (AzureInstance.set_state (Some "unknown") (self s)) w
                      (trace s ++ [Event (azure_client.get_vm (AzureInstance.id (self s)))
                                         (Raised (CloudError msg))])
                      (logged s ++ [msg]))).
  { intros update_state. destruct s as [x w0 tr lg].
    cbn [self remote trace logged] in *.
    unfold AzureInstance.refresh_with, try_except.
    unfold bind at 1 2. unfold get_self at 1, invoke.
    cbn [self remote trace logged]. rewrite Hget. reflexivity. }
  eexists. split.
  - rewrite (update_state_without_view_step depth s Hview). rewrite Hrefresh.
    unfold bind, get_self. cbn [self AzureInstance.set_state AzureInstance._vm].
    rewrite Hview. reflexivity.
  - reflexivity.
Qed.

Section NetworkAnswered.
Hypothesis Hnetwork : network_calls_answered.

Lemma returns_get_network_attributes_answered :
  returns AzureInstance._get_network_attributes.
Proof.
  unfold AzureInstance._get_network_attributes.
  apply returns_bind; [apply returns_modify|intros _].
  apply returns_bind; [intros s; eexists; eexists; reflexivity|intros x].
  apply returns_for_each. intros nic.
  apply returns_bind; [apply returns_modify|intros _].
  apply returns_bind.
  { intros s. unfold invoke.
    match goal with
    | |- context [handle (azure_client.get_nic ?n) _] =>
        destruct (proj1 (Hnetwork n (remote s))) as (a & w' & ->)
    end.
    eexists. eexists. reflexivity. }
  intros fetched. apply returns_bind.
  { destruct (NetworkInterface.network_security_group fetched);
      [apply returns_modify|apply returns_ret]. }
  intros _. destruct (truthy (NetworkInterface.ip_configurations fetched));
    [|apply returns_ret].
  apply returns_for_each. intros ip_config.
  apply returns_bind; [apply returns_modify|intros _].
  destruct (IPConfiguration.public_ip_address ip_config); [|apply returns_ret].
  apply returns_bind.
  { intros s. unfold invoke.
    match goal with
    | |- context [handle (azure_client.get_public_ip ?n) _] =>
        destruct (proj2 (Hnetwork n (remote s))) as (a & w' & ->)
    end.
    eexists. eexists. reflexivity. }
  intros public_ip.
  apply returns_bind; [apply returns_modify|intros _].
  apply returns_modify.
Qed.
End NetworkAnswered.

(** Without an instance view in the payload, when [get_vm] raises a
    [CloudError], the constructor keeps the payload and fills in its tags;
    it returns when the calls for the network attributes are answered. *)
Lemma instance_init_vanished (depth : nat) (vm_instance : VirtualMachine.t)
      (s : store AzureInstance.t) (msg : string) (w : world) :
  VirtualMachine.instance_view vm_instance = None ->
  handle (azure_client.get_vm (VirtualMachine.name vm_instance)) (remote s)
  = (Raised (CloudError msg), w) ->
  (network_calls_answered ->
   exists s', AzureInstance.__init__ (S depth) vm_instance s = (Returned tt, s'))
  /\ (forall s',
         AzureInstance.__init__ (S depth) vm_instance s = (Returned tt, s') ->
         AzureInstance._vm (self s') = with_tags_filled vm_instance).
Proof.
  intros Hnone Hget. unfold AzureInstance.__init__.
  destruct (returns_modify (AzureInstance.set_vm vm_instance) s) as ([] & s1 & Hset).
  assert (H1 : AzureInstance._vm (self s1) = vm_instance /\ remote s1 = remote s).
  { cbn in Hset. inversion Hset; subst s1. destruct (self s). split; reflexivity. }
  destruct H1 as [H1 Hremote].
  destruct (update_state_vanished depth s1 msg w) as (s2 & Hupdate & H2).
  { rewrite H1. exact Hnone. }
  { unfold AzureInstance.id. rewrite H1, Hremote. exact Hget. }
  rewrite (bind_returned _ _ _ _ _ Hset), (bind_returned _ _ _ _ _ Hupdate).
  pose proof (keeps_vm_get_network_attributes s2) as Hkeep.
  split.
  - intros Hnetwork.
    destruct (returns_get_network_attributes_answered Hnetwork s2) as ([] & s3 & Hnet).
    destruct (fill_in_tags_run s3) as (s' & Hfill & _).
    exists s'. rewrite (bind_returned _ _ _ _ _ Hnet). exact Hfill.
  - intros s' Hrun. apply bind_inv in Hrun. destruct Hrun as (u3 & s3 & Hnet & Hrun).
    change (fill_in_tags s3 = (Returned tt, s')) in Hrun.
    rewrite Hnet in Hkeep. cbn [snd] in Hkeep.
    destruct (fill_in_tags_run s3) as (s3' & Hfill & Hvm).
    rewrite Hfill in Hrun. inversion Hrun; subst s3'.
    fold (with_tags_filled (AzureInstance._vm (self s3))) in Hvm.
    rewrite Hvm, Hkeep, H2, H1. reflexivity.
Qed.
End InstanceRefetch.

Section InstancePayloadKept.
Context `{Provider}.

Lemma keeps_vm_raise {A} (e : exn) : keeps_vm (@raise _ _ A e).
Proof. intros s. reflexivity. Qed.

Lemma keeps_vm_handler (e : exn) :
  keeps_vm (msg <- exn_message e ;;
            log_exception msg ;;
            AzureInstance.modify_self (AzureInstance.set_state (Some "unknown"))).
Proof.
  apply keeps_vm_bind.
  { intros s. destruct e as [msg|[msg|]| | | | |]; reflexivity. }
  intros msg. apply keeps_vm_bind; [intros s; reflexivity|intros _].
  apply keeps_vm_modify. reflexivity.
Qed.

(** What [_update_state] does after its [refresh] keeps the payload. *)
Lemma keeps_vm_update_state_end :
  keeps_vm (self <- get_self ;;
            match VirtualMachine.instance_view (AzureInstance._vm self) with
            | Some instance_view =>
                match VirtualMachineInstanceView.statuses instance_view with
                | None => raise TypeError
                | Some statuses =>
                    if (1 <? length statuses)%nat
                    then
                      status <- lift_outcome (py_index statuses 1) ;;
                      AzureInstance.modify_self
                        (AzureInstance.set_state
                           (InstanceViewStatus.display_status status))
                    else
                      AzureInstance.modify_self
                        (AzureInstance.set_state
                           (VirtualMachine.provisioning_state (AzureInstance._vm self)))
                end
            | None =>
                AzureInstance.modify_self
                  (AzureInstance.set_state
                     (VirtualMachine.provisioning_state (AzureInstance._vm self)))
            end).
Proof.
  apply keeps_vm_bind; [intros s; reflexivity|intros x].
  destruct (VirtualMachine.instance_view (AzureInstance._vm x)) as [instance_view|].
  - destruct (VirtualMachineInstanceView.statuses instance_view) as [statuses|];
      [|apply keeps_vm_raise].
    destruct (1 <? length statuses)%nat.
    + apply keeps_vm_bind; [intros s; reflexivity|intros status].
      apply keeps_vm_modify. reflexivity.
    + apply keeps_vm_modify. reflexivity.
  - apply keeps_vm_modify. reflexivity.
Qed.

(** On a payload with an instance view [_update_state] keeps the payload,
    however it ends. *)
Lemma update_state_keeps_viewed (depth : nat) (s : store AzureInstance.t)
      (instance_view : VirtualMachineInstanceView.t) :
  VirtualMachine.instance_view (AzureInstance._vm (self s)) = Some instance_view ->
  AzureInstance._vm (self (snd (AzureInstance._update_state depth s)))
  = AzureInstance._vm (self s).
Proof.
  intros Hview. destruct depth as [|depth]; [reflexivity|].
  cbn [AzureInstance._update_state].
  unfold bind at 1, get_self at 1. rewrite Hview. cbn [truthy_object negb].
  unfold bind at 1, ret at 1. apply keeps_vm_update_state_end.
Qed.

(** With an instance view in the payload, [_update_state] returns only
    when the view has a list of statuses. *)
Lemma update_state_viewed_returns (depth : nat) (s s' : store AzureInstance.t)
      (instance_view : VirtualMachineInstanceView.t) :
  VirtualMachine.instance_view (AzureInstance._vm (self s)) = Some instance_view ->
  AzureInstance._update_state depth s = (Returned tt, s') ->
  VirtualMachineInstanceView.statuses instance_view <> None.
Proof.
  intros Hview Hrun Hnone. destruct depth as [|depth]; [discriminate|].
  cbn [AzureInstance._update_state] in Hrun.
  unfold bind at 1, get_self at 1 in Hrun. rewrite Hview in Hrun.
  cbn [truthy_object negb] in Hrun.
  unfold bind at 1, ret at 1 in Hrun. unfold bind at 1, get_self at 1 in Hrun.
  rewrite Hview, Hnone in Hrun. discriminate.
Qed.

(** After a [get_vm] that answers with a VM that has an instance view,
    [refresh] leaves that VM as the payload, tags filled in, however it
    ends. *)
Lemma refresh_with_fetched_payload (depth : nat) (s : store AzureInstance.t)
      (fetched : VirtualMachine.t) (w : world)
      (instance_view : VirtualMachineInstanceView.t) :
  handle (azure_client.get_vm (AzureInstance.id (self s))) (remote s)
  = (Returned fetched, w) ->
  VirtualMachine.instance_view fetched = Some instance_view ->
  AzureInstance._vm
    (self (snd (AzureInstance.refresh_with (AzureInstance._update_state depth) s)))
  = with_tags_filled fetched.
Proof.
  intros Hget Hview. rewrite (refresh_with_fetched _ s fetched w Hget). cbv zeta.
  fold (with_tags_filled fetched).
  match goal with
  | |- context [AzureInstance._update_state depth ?s0] => set (s1 := s0)
  end.
  assert (H1 : AzureInstance._vm (self s1) = with_tags_filled fetched) by reflexivity.
  pose proof (update_state_keeps_viewed depth s1 instance_view) as Hkeep.
  rewrite H1, with_tags_filled_view in Hkeep. specialize (Hkeep Hview).
  destruct (AzureInstance._update_state depth s1) as [[[]|e] s2]; cbn [snd] in Hkeep.
  - pose proof (keeps_vm_get_network_attributes s2) as Hnet.
    destruct (AzureInstance._get_network_attributes s2) as [[a|e] s3];
      cbn [snd] in Hnet |- *.
    + congruence.
    + destruct (match e with CloudError _ | ValueError _ => true | _ => false end).
      * rewrite (keeps_vm_handler e s3). congruence.
      * cbn [snd]. congruence.
  - destruct (match e with CloudError _ | ValueError _ => true | _ => false end).
    + rewrite (keeps_vm_handler e s2). exact Hkeep.
    + exact Hkeep.
Qed.

Lemma init_needs_depth (vm_instance : VirtualMachine.t) (s s' : store AzureInstance.t) :
  AzureInstance.__init__ 0 vm_instance s <> (Returned tt, s').
Proof.
  unfold AzureInstance.__init__. intros Hrun.
  apply bind_inv in Hrun. destruct Hrun as (u1 & s1 & _ & Hrun).
  apply bind_inv in Hrun. destruct Hrun as (u2 & s2 & Hupdate & _).
  discriminate.
Qed.

(** With an instance view in the payload the constructor keeps the payload
    and only fills in its tags, whatever the nesting bound. *)
Lemma instance_init_viewed (depth : nat) (vm_instance : VirtualMachine.t)
      (instance_view : VirtualMachineInstanceView.t) (s s' : store AzureInstance.t) :
  VirtualMachine.instance_view vm_instance = Some instance_view ->
  AzureInstance.__init__ depth vm_instance s = (Returned tt, s') ->
  AzureInstance._vm (self s') = with_tags_filled vm_instance
  /\ VirtualMachineInstanceView.statuses instance_view <> None.
Proof.
  intros Hview Hrun. pose proof Hrun as Hrun0.
  unfold AzureInstance.__init__ in Hrun.
  apply bind_inv in Hrun. destruct Hrun as (u1 & s1 & Hset & Hrun).
  apply bind_inv in Hrun. destruct Hrun as (u2 & s2 & Hupdate & Hrun).
  assert (H1 : AzureInstance._vm (self s1) = vm_instance).
  { cbn in Hset. inversion Hset; subst s1. destruct (self s). reflexivity. }
  assert (Hstatuses : VirtualMachineInstanceView.statuses instance_view <> None).
  { apply (update_state_viewed_returns depth s1 s2); [rewrite H1; exact Hview|].
    destruct u2. exact Hupdate. }
  split; [|exact Hstatuses].
  destruct (VirtualMachineInstanceView.statuses instance_view) as [statuses|] eqn:Hs;
    [|congruence].
  destruct depth as [|depth]; [exfalso; exact (init_needs_depth _ _ _ Hrun0)|].
  exact (instance_init_with_view depth vm_instance instance_view statuses s s'
           Hview Hs Hrun0).
Qed.

(** Without an instance view in the payload, when [get_vm] answers with a
    VM that has one, the fetched VM is the payload whenever the constructor
    returns. *)
Lemma instance_init_refetched_payload (depth : nat) (vm_instance fetched : VirtualMachine.t)
      (instance_view : VirtualMachineInstanceView.t)
      (s s' : store AzureInstance.t) (w : world) :
  VirtualMachine.instance_view vm_instance = None ->
  handle (azure_client.get_vm (VirtualMachine.name vm_instance)) (remote s)
  = (Returned fetched, w) ->
  VirtualMachine.instance_view fetched = Some instance_view ->
  AzureInstance.__init__ depth vm_instance s = (Returned tt, s') ->
  AzureInstance._vm (self s') = with_tags_filled fetched.
Proof.
  intros Hnone Hget Hview Hrun.
  destruct depth as [|depth]; [exfalso; exact (init_needs_depth _ _ _ Hrun)|].
  unfold AzureInstance.__init__ in Hrun.
  apply bind_inv in Hrun. destruct Hrun as (u1 & s1 & Hset & Hrun).
  apply bind_inv in Hrun. destruct Hrun as (u2 & s2 & Hupdate & Hrun).
  apply bind_inv in Hrun. destruct Hrun as (u3 & s3 & Hnet & Hrun).
  change (fill_in_tags s3 = (Returned tt, s')) in Hrun.
  assert (H1 : AzureInstance._vm (self s1) = vm_instance /\ remote s1 = remote s).
  { cbn in Hset. inversion Hset; subst s1. destruct (self s). split; reflexivity. }
  destruct H1 as [H1 Hremote].
  assert (Hget1 : handle (azure_client.get_vm (AzureInstance.id (self s1))) (remote s1)
                  = (Returned fetched, w)).
  { unfold AzureInstance.id. rewrite H1, Hremote. exact Hget. }
  assert (H2 : AzureInstance._vm (self s2) = with_tags_filled fetched).
  { rewrite update_state_without_view_step in Hupdate by (rewrite H1; exact Hnone).
    pose proof (refresh_with_fetched_payload depth s1 fetched w instance_view Hget1 Hview)
      as Hrefresh.
    destruct (AzureInstance.refresh_with (AzureInstance._update_state depth) s1)
      as [[[]|e] t]; [|discriminate].
    cbn [snd] in Hrefresh.
    pose proof (keeps_vm_update_state_end t) as Hend.
    rewrite Hupdate in Hend. cbn [snd] in Hend. congruence. }
  pose proof (keeps_vm_get_network_attributes s2) as Hkeep.
  rewrite Hnet in Hkeep. cbn [snd] in Hkeep.
  destruct (fill_in_tags_run s3) as (s3' & Hfill & Hvm).
  rewrite Hfill in Hrun. inversion Hrun; subst s3'.
  fold (with_tags_filled (AzureInstance._vm (self s3))) in Hvm.
  rewrite Hvm, Hkeep, H2. apply with_tags_filled_twice.
Qed.

(** Without an instance view in the payload, when [get_vm] raises a
    [CloudError], the constructor's payload is kept whenever it returns,
    whatever the nesting bound. *)
Lemma instance_init_vanished_payload (depth : nat) (vm_instance : VirtualMachine.t)
      (s s' : store AzureInstance.t) (msg : string) (w : world) :
  VirtualMachine.instance_view vm_instance = None ->
  handle (azure_client.get_vm (VirtualMachine.name vm_instance)) (remote s)
  = (Raised (CloudError msg), w) ->
  AzureInstance.__init__ depth vm_instance s = (Returned tt, s') ->
  AzureInstance._vm (self s') = with_tags_filled vm_instance.
Proof.
  intros Hnone Hget Hrun.
  destruct depth as [|depth]; [exfalso; exact (init_needs_depth _ _ _ Hrun)|].
  exact (proj2 (instance_init_vanished depth vm_instance s msg w Hnone Hget) s' Hrun).
Qed.
End InstancePayloadKept.

(** C7, as the code has it.  The six adapters whose constructor makes no
    call (firewall, volume, snapshot, machine image, network, router) are
    tag-backed: constructed over a payload without tags they have the empty
    tag mapping, [name] is the raw name until there is a [Name] tag and the
    value of the tag from then on, and the setter makes [name] the value it
    was given.  The instance adapter has a tag mapping whenever its
    constructor returns; its payload is then the VM that the last answered
    [get_vm] call of the construction returned, or the payload it was
    constructed over when no [get_vm] call was answered, with an absent or
    empty tag mapping replaced by the empty one, and [name] is the [Name]
    tag of that payload when it has one and its raw name otherwise.  The
    payload it was constructed over is kept when it carries an instance
    view, and when it carries none and [get_vm] raises a [CloudError]: then
    an absent tag mapping becomes the empty one and [name] is the raw name.
    When it carries none and [get_vm] answers with a VM that has one, the
    fetched VM is the payload.  The constructor returns in these three cases
    when the other calls are answered and the instance view has a list of
    statuses.  The instance's [name] and setter behave as the others'. *)
Theorem tag_backed_adapters :
  tag_backed NetworkSecurityGroup.tags NetworkSecurityGroup.name
             AzureVMFirewall.__init__ AzureVMFirewall._vm_firewall
             AzureVMFirewall.name (@AzureVMFirewall.set_name)
  /\ tag_backed Disk.tags Disk.name AzureVolume.__init__ AzureVolume._volume
                AzureVolume.name (@AzureVolume.set_name)
  /\ tag_backed Snapshot.tags Snapshot.name AzureSnapshot.__init__ AzureSnapshot._snapshot
                AzureSnapshot.name (@AzureSnapshot.set_name)
  /\ tag_backed Image.tags Image.name AzureMachineImage.__init__ AzureMachineImage._image
                AzureMachineImage.name (@AzureMachineImage.set_name)
  /\ tag_backed VirtualNetwork.tags VirtualNetwork.name AzureNetwork.__init__
                AzureNetwork._network AzureNetwork.name (@AzureNetwork.set_name)
  /\ tag_backed RouteTable.tags RouteTable.name AzureRouter.__init__
                AzureRouter._route_table AzureRouter.name (@AzureRouter.set_name)
  /\ (forall (P : Provider) (s s' : @store P AzureInstance.t) depth vm_instance,
         AzureInstance.__init__ depth vm_instance s = (Returned tt, s') ->
         VirtualMachine.tags (AzureInstance._vm (self s')) <> None)
  /\ (forall (P : Provider) (s : @store P AzureInstance.t) depth vm_instance
             instance_view statuses,
         VirtualMachine.instance_view vm_instance = Some instance_view ->
         VirtualMachineInstanceView.statuses instance_view = Some statuses ->
         truthy (VirtualMachine.tags vm_instance) = false ->
         (never_raises ->
          exists s', AzureInstance.__init__ (S depth) vm_instance s = (Returned tt, s'))
         /\ (forall s',
                AzureInstance.__init__ (S depth) vm_instance s = (Returned tt, s') ->
                VirtualMachine.tags (AzureInstance._vm (self s')) = Some ∅
                /\ AzureInstance.name (self s')
                   = Returned (VStr (VirtualMachine.name vm_instance))))
  /\ (forall a tags,
         VirtualMachine.tags (AzureInstance._vm a) = Some tags ->
         AzureInstance.name a
         = Returned (default (VStr (VirtualMachine.name (AzureInstance._vm a)))
                             (tags !! "Name")))
  /\ (forall (P : Provider) (s : @store P AzureInstance.t) value tags,
         VirtualMachine.tags (AzureInstance._vm (self s)) = Some tags ->
         is_valid_resource_name value = true ->
         AzureInstance.name (self (snd (AzureInstance.set_name value s)))
         = Returned (VStr value))
  /\ (forall (P : Provider) (s s' : @store P AzureInstance.t) depth vm_instance,
         AzureInstance.__init__ depth vm_instance s = (Returned tt, s') ->
         exists calls,
           trace s' = trace s ++ calls
           /\ let payload := default vm_instance (last_fetched_vm calls) in
              AzureInstance._vm (self s') = with_tags_filled payload
              /\ VirtualMachine.tags (AzureInstance._vm (self s'))
                 = Some (if truthy (VirtualMachine.tags payload)
                         then default ∅ (VirtualMachine.tags payload) else ∅)
              /\ AzureInstance.name (self s')
                 = Returned
                     (match VirtualMachine.tags payload with
                      | Some tags =>
                          default (VStr (VirtualMachine.name payload)) (tags !! "Name")
                      | None => VStr (VirtualMachine.name payload)
                      end))
  /\ (forall (P : Provider) (s s' : @store P AzureInstance.t) depth vm_instance
             instance_view,
         VirtualMachine.instance_view vm_instance = Some instance_view ->
         AzureInstance.__init__ depth vm_instance s = (Returned tt, s') ->
         AzureInstance._vm (self s') = with_tags_filled vm_instance)
  /\ (forall (P : Provider) (s : @store P AzureInstance.t) vm_instance fetched
             instance_view w,
         VirtualMachine.instance_view vm_instance = None ->
         handle (azure_client.get_vm (VirtualMachine.name vm_instance)) (remote s)
         = (Returned fetched, w) ->
         VirtualMachine.instance_view fetched = Some instance_view ->
         (forall depth statuses,
             never_raises ->
             VirtualMachineInstanceView.statuses instance_view = Some statuses ->
             exists s',
               AzureInstance.__init__ (S (S depth)) vm_instance s = (Returned tt, s'))
         /\ (forall depth s',
                AzureInstance.__init__ depth vm_instance s = (Returned tt, s') ->
                AzureInstance._vm (self s') = with_tags_filled fetched
                /\ AzureInstance.name (self s')
                   = Returned
                       (match VirtualMachine.tags fetched with
                        | Some tags =>
                            default (VStr (VirtualMachine.name fetched)) (tags !! "Name")
                        | None => VStr (VirtualMachine.name fetched)
                        end)))
  /\ (forall (P : Provider) (s : @store P AzureInstance.t) vm_instance msg w,
         VirtualMachine.instance_view vm_instance = None ->
         handle (azure_client.get_vm (VirtualMachine.name vm_instance)) (remote s)
         = (Raised (CloudError msg), w) ->
         (forall depth,
             network_calls_answered ->
             exists s', AzureInstance.__init__ (S depth) vm_instance s = (Returned tt, s'))
         /\ (forall depth s',
                AzureInstance.__init__ depth vm_instance s = (Returned tt, s') ->
                AzureInstance._vm (self s') = with_tags_filled vm_instance
                /\ (truthy (VirtualMachine.tags vm_instance) = false ->
                    VirtualMachine.tags (AzureInstance._vm (self s')) = Some ∅
                    /\ AzureInstance.name (self s')
                       = Returned (VStr (VirtualMachine.name vm_instance))))).
Proof.
  split; [apply firewall_tag_backed|]. split; [apply volume_tag_backed|].
  split; [apply snapshot_tag_backed|]. split; [apply image_tag_backed|].
  split; [apply network_tag_backed|]. split; [apply router_tag_backed|].
  split; [|split; [|split; [|split; [|split; [|split; [|split]]]]]].
  - intros P s s' depth vm_instance. apply instance_init_has_tags.
  - intros P s depth vm_instance instance_view statuses Hview Hstatuses Hfalsy. split.
    + intros Hanswers. eapply instance_init_returns; eassumption.
    + intros s' Hrun.
      pose proof (instance_init_with_view depth vm_instance instance_view statuses s s'
                    Hview Hstatuses Hrun) as Hvm.
      rewrite Hfalsy in Hvm. cbn [negb] in Hvm.
      unfold AzureInstance.name. rewrite Hvm. destruct vm_instance. split; reflexivity.
  - apply instance_name_reads_tag.
  - intros P s value tags Htags Hvalid.
    unfold AzureInstance.name.
    rewrite (instance_set_name_run s value tags Htags Hvalid).
    destruct (AzureInstance._vm (self s)). cbn.
    unfold tags_get, tags_update. rewrite lookup_insert_eq. reflexivity.
  - intros P s s' depth vm_instance Hrun.
    destruct (instance_init_payload depth vm_instance s s' Hrun)
      as (calls & Htrace & Hvm).
    exists calls. split; [exact Htrace|]. cbv zeta. split; [exact Hvm|]. split.
    + rewrite Hvm. apply with_tags_filled_has_tags.
    + apply name_with_tags_filled. exact Hvm.
  - intros P s s' depth vm_instance instance_view Hview Hrun.
    exact (proj1 (instance_init_viewed depth vm_instance instance_view s s' Hview Hrun)).
  - intros P s vm_instance fetched instance_view w Hnone Hget Hview. split.
    + intros depth statuses Hanswers Hstatuses.
      destruct (instance_init_refetched depth vm_instance fetched instance_view statuses
                  s w Hanswers Hnone Hget Hview Hstatuses) as (s' & Hrun & _).
      exists s'. exact Hrun.
    + intros depth s' Hrun.
      pose proof (instance_init_refetched_payload depth vm_instance fetched instance_view
                    s s' w Hnone Hget Hview Hrun) as Hvm.
      split; [exact Hvm|]. apply name_with_tags_filled. exact Hvm.
  - intros P s vm_instance msg w Hnone Hget. split.
    + intros depth.
      exact (proj1 (instance_init_vanished depth vm_instance s msg w Hnone Hget)).
    + intros depth s' Hrun.
      pose proof (instance_init_vanished_payload depth vm_instance s s' msg w
                    Hnone Hget Hrun) as Hvm.
      split; [exact Hvm|]. intros Hfalsy. split.
      * rewrite Hvm, with_tags_filled_has_tags, Hfalsy. reflexivity.
      * rewrite (name_with_tags_filled _ _ Hvm).
        destruct (VirtualMachine.tags vm_instance) as [tags|]; [|reflexivity].
        change (negb (bool_decide (tags = ∅)) = false) in Hfalsy.
        apply negb_false_iff, bool_decide_eq_true_1 in Hfalsy. subst tags. reflexivity.
Qed.

Lemma tag_backed_adapters_witness :
  let volume := AzureVolume.__init__ attached_volume in
  Disk.tags (AzureVolume._volume volume) = Some ∅
  /\ AzureVolume.name volume = Returned (VStr "disk1")
  /\ AzureVolume.name
       (self (snd (@AzureVolume.set_name (Scripted.provider Scripted.plain) "data"
                     (Scripted.start Scripted.plain volume))))
     = Returned (VStr "data")
  /\ (let constructed :=
        snd (@AzureInstance.__init__ (Scripted.provider Scripted.plain) 1
               (Scripted.a_vm (Some running_view))
               (Scripted.start Scripted.plain a_blank_instance)) in
      VirtualMachine.tags (AzureInstance._vm (self constructed)) = Some ∅
      /\ AzureInstance.name (self constructed) = Returned (VStr "vm1"))
  /\ (exists refetched,
         @AzureInstance.__init__ (Scripted.provider refetch_script) 2 (Scripted.a_vm None)
           (Scripted.start refetch_script a_blank_instance)
         = (Returned tt, refetched)
         /\ AzureInstance._vm (self refetched) = a_fetched_vm
         /\ AzureInstance.name (self refetched) = Returned (VStr "web"))
  /\ (exists vanished,
         @AzureInstance.__init__ (Scripted.provider vanished_script) 1 (Scripted.a_vm None)
           (Scripted.start vanished_script a_blank_instance)
         = (Returned tt, vanished)
         /\ VirtualMachine.tags (AzureInstance._vm (self vanished)) = Some ∅
         /\ AzureInstance.name (self vanished) = Returned (VStr "vm1")).
Proof.
  cbv zeta.
  destruct tag_backed_adapters
    as (_ & (_ & Habsent & _ & Hsetter) & _ & _ & _ & _ & _ & Hinstance & _ & _ & _ & _
        & Hrefetched & Hvanished).
  destruct (Habsent attached_volume eq_refl) as [Htags Hname].
  split; [exact Htags|]. split; [exact Hname|]. split; [|split; [|split]].
  - apply (Hsetter (Scripted.provider Scripted.plain)
                   (Scripted.start Scripted.plain (AzureVolume.__init__ attached_volume))
                   "data" ∅).
    + exact Htags.
    + reflexivity.
  - destruct (Hinstance (Scripted.provider Scripted.plain)
                (Scripted.start Scripted.plain a_blank_instance) 0%nat
                (Scripted.a_vm (Some running_view)) running_view
                [ InstanceViewStatus.Build (Some "Provisioning succeeded");
                  InstanceViewStatus.Build (Some "VM running") ]
                eq_refl eq_refl eq_refl) as [_ Hrun].
    apply Hrun. vm_compute. reflexivity.
  - destruct (Hrefetched (Scripted.provider refetch_script)
                (Scripted.start refetch_script a_blank_instance)
                (Scripted.a_vm None) a_fetched_vm running_view tt
                eq_refl eq_refl eq_refl) as [Hreturns Hpayload].
    destruct (Hreturns 0%nat
                [ InstanceViewStatus.Build (Some "Provisioning succeeded");
                  InstanceViewStatus.Build (Some "VM running") ])
      as [refetched Hrun].
    + intros r w. exists (Scripted.answer refetch_script r), w. reflexivity.
    + reflexivity.
    + destruct (Hpayload 2%nat refetched Hrun) as [Hvm Hname'].
      exists refetched. split; [exact Hrun|]. split; [exact Hvm|exact Hname'].
  - destruct (Hvanished (Scripted.provider vanished_script)
                (Scripted.start vanished_script a_blank_instance)
                (Scripted.a_vm None) "not found" tt eq_refl eq_refl)
      as [Hreturns Hkept].
    destruct (Hreturns 0%nat) as [vanished Hrun].
    + intros name w. split; eexists; exists w; reflexivity.
    + destruct (Hkept 1%nat vanished Hrun) as [_ Hempty].
      destruct (Hempty eq_refl) as [Htags' Hname'].
      exists vanished. split; [exact Hrun|]. split; [exact Htags'|exact Hname'].
Defined.

(** C7 as stated fails for the instance adapter: constructed over a payload
    that has no tags and no instance view, it re-fetches the VM, and its tag
    mapping and name are those of the fetched payload. *)
Lemma instance_constructed_over_refetched_payload :
  let payload := Scripted.a_vm None in
  let run := @AzureInstance.__init__ (Scripted.provider refetch_script) 2 payload
               (Scripted.start refetch_script a_blank_instance) in
  VirtualMachine.tags payload = None
  /\ fst run = Returned tt
  /\ requests (trace (snd run)) = [azure_client.get_vm "vm1"]
  /\ VirtualMachine.tags (AzureInstance._vm (self (snd run)))
     = Some {[ "Name" := VStr "web" ]}
  /\ VirtualMachine.tags (AzureInstance._vm (self (snd run))) <> Some ∅
  /\ AzureInstance.name (self (snd run)) = Returned (VStr "web")
  /\ AzureInstance.name (self (snd run)) <> Returned (VStr (VirtualMachine.name payload)).
Proof.
  cbv zeta. split; [reflexivity|]. split; [vm_compute; reflexivity|].
  split; [vm_compute; reflexivity|]. split; [vm_compute; reflexivity|].
  split; [vm_compute; discriminate|]. split; [vm_compute; reflexivity|].
  vm_compute. discriminate.
Qed.

(* ===================================================================== *)
(** * Further properties *)
(* ===================================================================== *)

(** ** The rule container: what [create] sends and keeps *)

Lemma has_char_append_r (c : ascii) (a b : string) :
  has_char c b = true -> has_char c (a +:+ b) = true.
Proof.
  intros Hb. induction a as [|x a IH]; [exact Hb|].
  change (has_char c (String x (a +:+ b)) = true). cbn [has_char].
  rewrite IH. apply orb_true_r.
Qed.

Lemma dash_range_has_dash (a b : string) : has_char "-" (a +:+ "-" +:+ b) = true.
Proof. apply has_char_append_r. reflexivity. Qed.

Lemma dash_range_is_not_star (a b : string) : a +:+ "-" +:+ b <> "*".
Proof.
  intros Heq. pose proof (dash_range_not_star a b) as Hne.
  rewrite Heq in Hne. discriminate.
Qed.

Lemma same_group_refl (a : AzureVMFirewall.t) : same_group a a.
Proof. repeat split. Qed.

Lemma same_group_trans (a b c : AzureVMFirewall.t) :
  same_group a b -> same_group b c -> same_group a c.
Proof. intros (H1 & H2 & H3) (H4 & H5 & H6). repeat split; congruence. Qed.

Lemma same_group_appended (a : AzureVMFirewall.t) (result : SecurityRule.t) :
  same_group a (with_rule_appended a result).
Proof. repeat split. Qed.

Lemma same_group_id (a b : AzureVMFirewall.t) :
  same_group a b -> AzureVMFirewall.id a = AzureVMFirewall.id b.
Proof. intros (H1 & _). exact H1. Qed.

Lemma rule_request_is_create_call firewall direction protocol from_port to_port cidr :
  is_create_call (AzureVMFirewall.id firewall)
                 (rule_request firewall direction protocol from_port to_port cidr).
Proof.
  unfold rule_request, is_create_call. cbn.
  split; [reflexivity|]. split; [reflexivity|]. split; [reflexivity|].
  split; [reflexivity|]. split; [lia|]. split; [apply dash_range_has_dash|].
  split; [apply dash_range_is_not_star|].
  destruct (TrafficDirection.eqb direction TrafficDirection.INBOUND); [left|right];
    reflexivity.
Qed.

Lemma rule_request_numbered firewall direction protocol from_port to_port cidr :
  requested_rule (rule_request firewall direction protocol from_port to_port cidr)
  = Some (numbered (length (rules_of firewall) + 1)).
Proof.
  unfold rule_request, requested_rule, numbered, rules_of. cbn.
  replace (Z.of_nat (length (NetworkSecurityGroup.security_rules
                               (AzureVMFirewall._vm_firewall firewall)) + 1))
    with (Z.of_nat (length (NetworkSecurityGroup.security_rules
                              (AzureVMFirewall._vm_firewall firewall))) + 1) by lia.
  reflexivity.
Qed.

Section CreateEffect.
Context `{Provider}.

Lemma create_effect_nothing (s : store AzureVMFirewall.t) : create_effect s s [].
Proof.
  unfold create_effect. rewrite !app_nil_r.
  repeat split; constructor.
Qed.

Lemma create_effect_trans (s s1 s2 : store AzureVMFirewall.t) c1 c2 :
  create_effect s s1 c1 -> create_effect s1 s2 c2 -> create_effect s s2 (c1 ++ c2).
Proof.
  intros (Ht1 & Hr1 & Hg1 & Hc1) (Ht2 & Hr2 & Hg2 & Hc2). unfold create_effect.
  split; [rewrite Ht2, Ht1, app_assoc; reflexivity|].
  split; [rewrite Hr2, Hr1, omap_app, app_assoc; reflexivity|].
  split; [eapply same_group_trans; eassumption|].
  unfold requests. rewrite map_app. apply Forall_app. split; [exact Hc1|].
  rewrite (same_group_id _ _ Hg1). exact Hc2.
Qed.

(** One run of [_create_rule], however the provider answers. *)
Lemma create_rule_effect (s : store AzureVMFirewall.t)
      direction protocol from_port to_port cidr :
  exists ev,
    create_effect
      s (snd (AzureVMFirewallRuleContainer._create_rule
                direction protocol from_port to_port cidr s)) [ev]
    /\ request_of ev = rule_request (self s) direction protocol from_port to_port cidr.
Proof.
  rewrite create_rule_run.
  destruct (handle (rule_request (self s) direction protocol from_port to_port cidr)
                   (remote s)) as [[result|e] w'].
  - exists (Event (rule_request (self s) direction protocol from_port to_port cidr)
                  (Returned result)).
    split; [|reflexivity]. unfold create_effect. cbn [snd self trace].
    split; [reflexivity|]. split; [|split].
    + unfold rules_of, with_rule_appended, rule_request. reflexivity.
    + apply same_group_appended.
    + constructor; [apply rule_request_is_create_call|constructor].
  - exists (Event (rule_request (self s) direction protocol from_port to_port cidr)
                  (Raised e)).
    split; [|reflexivity]. unfold create_effect. cbn [snd self trace].
    split; [reflexivity|]. split; [|split].
    + unfold rule_request. cbn. rewrite app_nil_r. reflexivity.
    + apply same_group_refl.
    + constructor; [apply rule_request_is_create_call|constructor].
Qed.

Lemma clone_rules_effect (rules : list AzureVMFirewallRule.t) :
  forall (result : option AzureVMFirewallRule.t) (s : store AzureVMFirewall.t),
  exists calls,
    create_effect s (snd (AzureVMFirewallRuleContainer.clone_rules rules result s)) calls.
Proof.
  induction rules as [|rule rules IH]; intros result s.
  - exists []. apply create_effect_nothing.
  - cbn [AzureVMFirewallRuleContainer.clone_rules].
    unfold bind at 1. unfold lift_outcome at 1.
    destruct (AzureVMFirewallRule.from_port rule) as [rule_from_port|e];
      [|exists []; apply create_effect_nothing].
    unfold bind at 1. unfold lift_outcome at 1.
    destruct (AzureVMFirewallRule.to_port rule) as [rule_to_port|e];
      [|exists []; apply create_effect_nothing].
    unfold bind at 1.
    destruct (create_rule_effect s (AzureVMFirewallRule.direction rule)
                (AzureVMFirewallRule.protocol rule) rule_from_port rule_to_port
                (Some (AzureVMFirewallRule.cidr rule))) as (ev & Hstep & _).
    destruct (AzureVMFirewallRuleContainer._create_rule _ _ _ _ _ s) as [[created|e] s1].
    + destruct (IH (Some created) s1) as (calls & Hrest).
      exists ([ev] ++ calls). eapply create_effect_trans; eassumption.
    + exists [ev]. exact Hstep.
Qed.
End CreateEffect.

(** X1: whatever [create] is given and however the provider answers, the
    calls it makes are look-ups of the source firewall and creations, for
    this firewall, of rules with access "Allow", source port range "*",
    destination address prefix "*", a priority above 1000, a direction
    "Inbound" or "Outbound" and a destination port range that has a dash (so
    never "*"); the rules in memory afterwards are the ones before followed
    by the rules the creations were answered with, also when [create] ends
    in an exception; name, id and tags of the security group stay. *)
Theorem create_only_adds_allow_rules `{Provider} (s : store AzureVMFirewall.t)
        (direction : TrafficDirection.t) (protocol : option string)
        (from_port to_port : option Z) (cidr : option string)
        (src_dest_fw : option (string + AzureVMFirewall.t)) :
  let s' := snd (AzureVMFirewallRuleContainer.create
                   direction protocol from_port to_port cidr src_dest_fw s) in
  exists calls,
    trace s' = trace s ++ calls
    /\ rules_of (self s') = rules_of (self s) ++ omap created_rule calls
    /\ same_group (self s) (self s')
    /\ Forall (is_create_call (AzureVMFirewall.id (self s))) (requests calls).
Proof.
  cbv zeta. unfold AzureVMFirewallRuleContainer.create.
  destruct (truthy protocol && truthy from_port && truthy to_port).
  - unfold bind.
    destruct (create_rule_effect s direction (default "" protocol) (default 0 from_port)
                (default 0 to_port) cidr) as (ev & Hstep & _).
    destruct (AzureVMFirewallRuleContainer._create_rule _ _ _ _ _ s) as [[rule|e] s1];
      exists [ev]; exact Hstep.
  - destruct (AzureVMFirewallRuleContainer.truthy_src_dest_fw src_dest_fw) eqn:Htruthy;
      [|exists []; apply create_effect_nothing].
    destruct src_dest_fw as [[fw_id|fw]|].
    + set (r := azure_client.vm_firewalls_get fw_id).
      set (s1 := Store (self s) (snd (handle r (remote s)))
                       (trace s ++ [Event r (fst (handle r (remote s)))]) (logged s)).
      assert (Hlook : create_effect s s1 [Event r (fst (handle r (remote s)))]).
      { unfold create_effect, s1. cbn. rewrite app_nil_r.
        repeat split. constructor; [exact I|constructor]. }
      assert (Hfw : bind (invoke r) (fun found => ret (AzureVMFirewall.__init__ <$> found)) s
                    = (match fst (handle r (remote s)) with
                       | Returned found => Returned (AzureVMFirewall.__init__ <$> found)
                       | Raised e => Raised e
                       end, s1)).
      { unfold bind. rewrite invoke_eq. fold r s1.
        destruct (fst (handle r (remote s))); reflexivity. }
      destruct (fst (handle r (remote s))) as [[found|]|e].
      * rewrite (bind_returned _ _ _ _ _ Hfw). cbn [fmap option_fmap option_map].
        destruct (clone_rules_effect
                    (ClientPagedResultList.data
                       (AzureVMFirewallRuleContainer.list
                          (AzureVMFirewall.__init__ found) None None)) None s1)
          as (calls & Hrest).
        eexists. eapply create_effect_trans; [exact Hlook|exact Hrest].
      * rewrite (bind_returned _ _ _ _ _ Hfw). cbn [fmap option_fmap option_map].
        eexists. exact Hlook.
      * rewrite (bind_raised _ _ _ _ _ Hfw). eexists. exact Hlook.
    + rewrite (bind_returned _ _ s (Some fw) s eq_refl).
      apply clone_rules_effect.
    + discriminate Htruthy.
Qed.

(** ** The rule container: cloning the rules of another firewall *)

Section CloneRules.
Context `{Provider}.


End CloneRules.






(** X4: with a provider that stores rules as requested, the rule that
    [create] returns for a non-empty protocol and ports other than 0 reads
    back the direction and the protocol it was created with; its id and its
    name are "Rule - n", n the number of rules in memory afterwards, its
    priority is 1000 + n, and it is the last rule in memory of the firewall
    it refers to. *)
Theorem created_rule_reads_back_direction `{Provider} (s : store AzureVMFirewall.t)
        (direction : TrafficDirection.t) (protocol : string) (from_port to_port : Z)
        (cidr : option string) (src_dest_fw : option (string + AzureVMFirewall.t)) :
  stores_rules_as_requested ->
  protocol <> EmptyString -> from_port <> 0 -> to_port <> 0 ->
  exists rule s',
    AzureVMFirewallRuleContainer.create
      direction (Some protocol) (Some from_port) (Some to_port) cidr src_dest_fw s
    = (Returned (Some rule), s')
    /\ AzureVMFirewallRule.direction rule = direction
    /\ AzureVMFirewallRule.protocol rule = protocol
    /\ length (rules_of (self s')) = S (length (rules_of (self s)))
    /\ (AzureVMFirewallRule.id rule, SecurityRule.priority (AzureVMFirewallRule._rule rule))
       = numbered (length (rules_of (self s')))
    /\ AzureVMFirewallRule.name rule = AzureVMFirewallRule.id rule
    /\ AzureVMFirewallRule.firewall rule = self s'
    /\ last (rules_of (self s')) = Some (AzureVMFirewallRule._rule rule).
Proof.
  intros Hstores Hprotocol Hfrom Hto.
  unfold AzureVMFirewallRuleContainer.create.
  assert (Htruthy : truthy (Some protocol) && truthy (Some from_port)
                    && truthy (Some to_port) = true).
  { destruct protocol; [congruence|].
    change (negb (from_port =? 0) && negb (to_port =? 0) = true).
    apply Z.eqb_neq in Hfrom, Hto. rewrite Hfrom, Hto. reflexivity. }
  rewrite Htruthy. cbv [default from_option id].
  unfold bind, ret. rewrite create_rule_run.
  unfold rule_request.
  match goal with
  | |- context [handle (azure_client.create_vm_firewall_rule ?f ?n ?p) ?w] =>
      destruct (Hstores f n p w) as [w' Hw']; rewrite Hw'
  end.
  eexists. eexists. split; [reflexivity|].
  cbn [self AzureVMFirewallRule.direction AzureVMFirewallRule.protocol
       AzureVMFirewallRule.id AzureVMFirewallRule.name AzureVMFirewallRule._rule
       AzureVMFirewallRule.firewall rule_of_parameters SecurityRule.direction
       SecurityRule.protocol SecurityRule.name SecurityRule.priority
       RuleParameters.direction RuleParameters.protocol RuleParameters.priority].
  assert (Hlen : length (rules_of (with_rule_appended (self s)
                   (rule_of_parameters
                      ("Rule - " +:+ py_str (Z.of_nat (length (NetworkSecurityGroup.security_rules
                          (AzureVMFirewall._vm_firewall (self s)))) + 1))
                      {| RuleParameters.priority :=
                           1000 + (Z.of_nat (length (NetworkSecurityGroup.security_rules
                              (AzureVMFirewall._vm_firewall (self s)))) + 1);
                         RuleParameters.protocol := protocol;
                         RuleParameters.source_port_range := "*";
                         RuleParameters.source_address_prefix :=
                           if negb (truthy cidr) then "0.0.0.0/0" else default "" cidr;
                         RuleParameters.destination_port_range :=
                           py_str from_port +:+ "-" +:+ py_str to_port;
                         RuleParameters.destination_address_prefix := "*";
                         RuleParameters.access := "Allow";
                         RuleParameters.direction :=
                           if TrafficDirection.eqb direction TrafficDirection.INBOUND
                           then "Inbound" else "Outbound" |})))
                 = S (length (rules_of (self s)))).
  { unfold rules_of, with_rule_appended. cbn. rewrite length_app. cbn. lia. }
  split; [destruct direction; reflexivity|]. split; [reflexivity|].
  split; [exact Hlen|]. split.
  - rewrite Hlen. unfold numbered, rules_of.
    replace (Z.of_nat (S (length (NetworkSecurityGroup.security_rules
                                    (AzureVMFirewall._vm_firewall (self s))))))
      with (Z.of_nat (length (NetworkSecurityGroup.security_rules
                                (AzureVMFirewall._vm_firewall (self s)))) + 1) by lia.
    reflexivity.
  - split; [reflexivity|]. split; [reflexivity|].
    unfold rules_of, with_rule_appended. cbn. apply last_snoc.
Qed.

Lemma created_rule_reads_back_direction_witness :
  exists rule s',
    @AzureVMFirewallRuleContainer.create (Scripted.provider Scripted.plain)
      TrafficDirection.OUTBOUND (Some "udp") (Some 53) (Some 53) None None
      (Scripted.start Scripted.plain an_empty_firewall)
    = (Returned (Some rule), s')
    /\ AzureVMFirewallRule.direction rule = TrafficDirection.OUTBOUND
    /\ AzureVMFirewallRule.protocol rule = "udp".
Proof.
  destruct (@created_rule_reads_back_direction (Scripted.provider Scripted.plain)
              (Scripted.start Scripted.plain an_empty_firewall)
              TrafficDirection.OUTBOUND "udp" 53 53 None None
              (scripted_stores_rules Scripted.plain eq_refl)
              ltac:(discriminate) ltac:(discriminate) ltac:(discriminate))
    as (rule & s' & Hrun & Hdirection & Hprotocol & _).
  exists rule, s'. repeat split; assumption.
Defined.

(** X5: a negative port does not survive the round trip.  With a provider
    that stores rules as requested, a rule created with a negative
    [from_port] gets a destination port range that begins with a dash;
    reading its ports back splits at that dash and fails with [ValueError]
    on the empty first part. *)
Theorem created_rule_with_negative_port_is_unreadable `{Provider}
        (s : store AzureVMFirewall.t)
        (direction : TrafficDirection.t) (protocol : string) (from_port to_port : Z)
        (cidr : option string) (src_dest_fw : option (string + AzureVMFirewall.t)) :
  stores_rules_as_requested ->
  protocol <> EmptyString -> from_port < 0 -> to_port <> 0 ->
  exists rule s',
    AzureVMFirewallRuleContainer.create
      direction (Some protocol) (Some from_port) (Some to_port) cidr src_dest_fw s
    = (Returned (Some rule), s')
    /\ SecurityRule.destination_port_range (AzureVMFirewallRule._rule rule)
       = py_str from_port +:+ "-" +:+ py_str to_port
    /\ AzureVMFirewallRule._port_range_tuple rule = Raised (ValueError None)
    /\ AzureVMFirewallRule.from_port rule = Raised (ValueError None)
    /\ AzureVMFirewallRule.to_port rule = Raised (ValueError None).
Proof.
  intros Hstores Hprotocol Hfrom Hto.
  unfold AzureVMFirewallRuleContainer.create.
  assert (Htruthy : truthy (Some protocol) && truthy (Some from_port)
                    && truthy (Some to_port) = true).
  { destruct protocol; [congruence|].
    change (negb (from_port =? 0) && negb (to_port =? 0) = true).
    assert (Hf : from_port <> 0) by lia.
    apply Z.eqb_neq in Hf, Hto. rewrite Hf, Hto. reflexivity. }
  rewrite Htruthy. cbv [default from_option id].
  unfold bind, ret. rewrite create_rule_run. unfold rule_request.
  match goal with
  | |- context [handle (azure_client.create_vm_firewall_rule ?f ?n ?p) ?w] =>
      destruct (Hstores f n p w) as [w' Hw']; rewrite Hw'
  end.
  eexists. eexists. split; [reflexivity|]. split; [reflexivity|].
  assert (Htuple : forall rule,
             SecurityRule.destination_port_range (AzureVMFirewallRule._rule rule)
             = py_str from_port +:+ "-" +:+ py_str to_port ->
             AzureVMFirewallRule._port_range_tuple rule = Raised (ValueError None)).
  { intros rule Hrange. unfold AzureVMFirewallRule._port_range_tuple. rewrite Hrange.
    rewrite dash_range_not_star.
    destruct from_port as [|p|p]; try lia.
    change (py_str (Z.neg p)) with ("-" +:+ pretty p).
    rewrite append_assoc.
    pose proof (split_first_dash EmptyString (pretty p +:+ "-" +:+ py_str to_port) eq_refl)
      as Hsplit.
    change (EmptyString +:+ "-" +:+ pretty p +:+ "-" +:+ py_str to_port)
      with ("-" +:+ pretty p +:+ "-" +:+ py_str to_port) in Hsplit.
    rewrite Hsplit. reflexivity. }
  unfold AzureVMFirewallRule.from_port, AzureVMFirewallRule.to_port.
  rewrite Htuple by reflexivity. repeat split.
Qed.

Lemma created_rule_with_negative_port_is_unreadable_witness :
  exists rule s',
    @AzureVMFirewallRuleContainer.create (Scripted.provider Scripted.plain)
      TrafficDirection.INBOUND (Some "icmp") (Some (-1)) (Some (-1)) None None
      (Scripted.start Scripted.plain an_empty_firewall)
    = (Returned (Some rule), s')
    /\ SecurityRule.destination_port_range (AzureVMFirewallRule._rule rule) = "-1--1"
    /\ AzureVMFirewallRule.from_port rule = Raised (ValueError None).
Proof.
  destruct (@created_rule_with_negative_port_is_unreadable
              (Scripted.provider Scripted.plain)
              (Scripted.start Scripted.plain an_empty_firewall)
              TrafficDirection.INBOUND "icmp" (-1) (-1) None None
              (scripted_stores_rules Scripted.plain eq_refl)
              ltac:(discriminate) ltac:(lia) ltac:(discriminate))
    as (rule & s' & Hrun & Hrange & _ & Hfrom & _).
  exists rule, s'. split; [exact Hrun|]. split; [exact Hrange|exact Hfrom].
Defined.

(** ** Deleting a rule *)

Lemma remove_first_named_cons (name : string) (o : SecurityRule.t)
      (rest : list SecurityRule.t) :
  remove_first_named name (o :: rest)
  = if String.eqb (SecurityRule.name o) name then rest
    else o :: remove_first_named name rest.
Proof. reflexivity. Qed.

Lemma remove_first_named_cases (name : string) (rules : list SecurityRule.t) :
  (Forall (fun o => SecurityRule.name o <> name) rules
   /\ remove_first_named name rules = rules)
  \/ (exists before o after,
         rules = before ++ o :: after
         /\ SecurityRule.name o = name
         /\ Forall (fun o => SecurityRule.name o <> name) before
         /\ remove_first_named name rules = before ++ after).
Proof.
  induction rules as [|o rest IH].
  - left. split; [constructor|reflexivity].
  - rewrite remove_first_named_cons.
    destruct (String.eqb (SecurityRule.name o) name) eqn:Ho.
    + right. exists [], o, rest. apply String.eqb_eq in Ho.
      repeat split; [assumption|constructor].
    + apply String.eqb_neq in Ho. destruct IH as [[Hnone Hsame]|IH].
      * left. split; [constructor; assumption|]. rewrite Hsame. reflexivity.
      * right. destruct IH as (before & o' & after & Hrules & Hname & Hbefore & Hrun).
        exists (o :: before), o', after. rewrite Hrules at 1. rewrite Hrun.
        repeat split; [assumption|constructor; assumption].
Qed.

Lemma remove_first_named_absent (name : string) (rules : list SecurityRule.t) :
  Forall (fun o => SecurityRule.name o <> name) rules ->
  remove_first_named name rules = rules.
Proof.
  induction 1 as [|o rest Ho _ IH]; [reflexivity|].
  rewrite remove_first_named_cons. apply String.eqb_neq in Ho. rewrite Ho, IH.
  reflexivity.
Qed.

Lemma remove_first_named_first (name : string) (before after : list SecurityRule.t)
      (o : SecurityRule.t) :
  Forall (fun o => SecurityRule.name o <> name) before ->
  SecurityRule.name o = name ->
  remove_first_named name (before ++ o :: after) = before ++ after.
Proof.
  intros Hbefore Ho. induction Hbefore as [|x rest Hx _ IH].
  - change ([] ++ o :: after) with (o :: after). rewrite remove_first_named_cons.
    apply String.eqb_eq in Ho. rewrite Ho. reflexivity.
  - change ((x :: rest) ++ o :: after) with (x :: (rest ++ o :: after)).
    rewrite remove_first_named_cons. apply String.eqb_neq in Hx. rewrite Hx, IH.
    reflexivity.
Qed.

Section RuleDelete.
Context `{MoreCalls}.

Lemma rule_delete_run (rule : AzureVMFirewallRule.t) (s : store (called AzureVMFirewall.t))
      (vm_firewall : pyval) :
  AzureVMFirewall.name (object (self s)) = Returned vm_firewall ->
  AzureVMFirewallRuleRest.delete rule s
  = let r := azure_client_more.delete_vm_firewall_rule
               (AzureVMFirewallRule.id rule) vm_firewall in
    match handle_more r (remote s) with
    | (Returned a, w) =>
        (Returned tt,
         Store (Called (AzureVMFirewall.Build
                          (NetworkSecurityGroup.set_security_rules
                             (remove_first_named (AzureVMFirewallRule.name rule)
                                (rules_of (object (self s))))
                             (AzureVMFirewall._vm_firewall (object (self s)))))
                       (more_trace (self s) ++ [MoreEvent r (Returned a)]))
               w (trace s) (logged s))
    | (Raised e, w) =>
        (Raised e,
         Store (Called (object (self s)) (more_trace (self s) ++ [MoreEvent r (Raised e)]))
               w (trace s) (logged s))
    end.
Proof.
  intros Hname. unfold AzureVMFirewallRuleRest.delete, bind, get_object, lift_outcome.
  rewrite Hname. unfold invoke_more. cbn zeta.
  destruct (handle_more (azure_client_more.delete_vm_firewall_rule
                           (AzureVMFirewallRule.id rule) vm_firewall) (remote s))
    as [[a|e] w]; reflexivity.
Qed.
End RuleDelete.

(** X6: deleting a rule.  [delete] reads the display name of the rule's
    firewall first; when the firewall has no tags that fails and no call is
    made.  Otherwise exactly one call is made, for the rule's id and that
    display name.  When the call fails its exception propagates and the
    rules in memory stay as they were.  When it succeeds, the first rule in
    memory with the rule's name is removed, and only that one: rules of the
    same name after it stay, and when no rule has the name nothing changes. *)
Theorem rule_delete_removes_first_rule_of_that_name `{MoreCalls}
        (rule : AzureVMFirewallRule.t) (s : store (called AzureVMFirewall.t)) :
  match AzureVMFirewall.name (object (self s)) with
  | Raised e => AzureVMFirewallRuleRest.delete rule s = (Raised e, s)
  | Returned vm_firewall =>
      let r := azure_client_more.delete_vm_firewall_rule
                 (AzureVMFirewallRule.id rule) vm_firewall in
      exists answer w s',
        handle_more r (remote s) = (answer, w)
        /\ snd (AzureVMFirewallRuleRest.delete rule s) = s'
        /\ more_trace (self s') = more_trace (self s) ++ [MoreEvent r answer]
        /\ trace s' = trace s /\ remote s' = w
        /\ same_group (object (self s)) (object (self s'))
        /\ match answer with
           | Raised e =>
               fst (AzureVMFirewallRuleRest.delete rule s) = Raised e
               /\ object (self s') = object (self s)
           | Returned _ =>
               fst (AzureVMFirewallRuleRest.delete rule s) = Returned tt
               /\ ((Forall (fun o => SecurityRule.name o <> AzureVMFirewallRule.name rule)
                           (rules_of (object (self s)))
                    /\ rules_of (object (self s')) = rules_of (object (self s)))
                   \/ (exists before o after,
                          rules_of (object (self s)) = before ++ o :: after
                          /\ SecurityRule.name o = AzureVMFirewallRule.name rule
                          /\ Forall (fun o => SecurityRule.name o
                                              <> AzureVMFirewallRule.name rule) before
                          /\ rules_of (object (self s')) = before ++ after))
           end
  end.
Proof.
  destruct (AzureVMFirewall.name (object (self s))) as [vm_firewall|e] eqn:Hname.
  - cbn zeta. rewrite (rule_delete_run rule s vm_firewall Hname). cbn zeta.
    destruct (handle_more (azure_client_more.delete_vm_firewall_rule
                             (AzureVMFirewallRule.id rule) vm_firewall) (remote s))
      as [[a|e] w].
    + eexists (Returned a), w, _. split; [reflexivity|]. split; [reflexivity|].
      cbn [snd fst self remote trace object more_trace].
      split; [reflexivity|]. split; [reflexivity|]. split; [reflexivity|].
      split; [repeat split|]. split; [destruct a; reflexivity|].
      destruct (remove_first_named_cases (AzureVMFirewallRule.name rule)
                  (rules_of (object (self s)))) as [[Hnone Hsame]|Hfound].
      * left. split; [assumption|]. exact Hsame.
      * right. destruct Hfound as (before & o & after & Hrules & Ho & Hbefore & Hrun).
        exists before, o, after. repeat split; assumption.
    + eexists (Raised e), w, _. split; [reflexivity|]. split; [reflexivity|].
      cbn [snd fst self remote trace object more_trace].
      split; [reflexivity|]. split; [reflexivity|]. split; [reflexivity|].
      split; [apply same_group_refl|]. split; reflexivity.
  - unfold AzureVMFirewallRuleRest.delete, bind, get_object, lift_outcome.
    rewrite Hname. reflexivity.
Qed.

(** ** Creating and deleting *)

Lemma numbered_name_inj (i j : nat) : fst (numbered i) = fst (numbered j) -> i = j.
Proof.
  unfold numbered, py_str. cbn [fst]. intros Heq.
  apply (String.app_inj "Rule - ") in Heq. apply pretty_Z_inj in Heq. lia.
Qed.

Lemma remove_first_named_snoc (name : string) (rules : list SecurityRule.t)
      (o : SecurityRule.t) :
  SecurityRule.name o <> name ->
  remove_first_named name (rules ++ [o]) = remove_first_named name rules ++ [o].
Proof.
  intros Ho. induction rules as [|x rest IH].
  - change ([] ++ [o]) with [o]. rewrite remove_first_named_cons.
    apply String.eqb_neq in Ho. rewrite Ho. reflexivity.
  - change ((x :: rest) ++ [o]) with (x :: (rest ++ [o])).
    rewrite !remove_first_named_cons.
    destruct (String.eqb (SecurityRule.name x) name); [reflexivity|].
    rewrite IH. reflexivity.
Qed.

Lemma remove_first_named_length (name : string) (rules : list SecurityRule.t)
      (o : SecurityRule.t) :
  SecurityRule.name o = name ->
  length (remove_first_named name (rules ++ [o])) = length rules.
Proof.
  intros Ho. induction rules as [|x rest IH].
  - change ([] ++ [o]) with [o]. rewrite remove_first_named_cons.
    apply String.eqb_eq in Ho. rewrite Ho. reflexivity.
  - change ((x :: rest) ++ [o]) with (x :: (rest ++ [o])).
    rewrite remove_first_named_cons.
    destruct (String.eqb (SecurityRule.name x) name).
    + rewrite length_app. cbn. lia.
    + cbn [length]. rewrite IH. reflexivity.
Qed.

Section CreateOne.
Context `{Provider}.
Hypothesis Hstores : stores_rules_as_requested.

(** With a provider that stores rules as requested, [create] for a protocol
    and ports puts one rule, numbered after the rules in memory, at the end
    of the rules in memory. *)
Lemma create_one_stored (s : store AzureVMFirewall.t)
      (direction : TrafficDirection.t) (protocol : string) (from_port to_port : Z)
      (cidr : option string) (src_dest_fw : option (string + AzureVMFirewall.t)) :
  protocol <> EmptyString -> from_port <> 0 -> to_port <> 0 ->
  exists rule s',
    AzureVMFirewallRuleContainer.create
      direction (Some protocol) (Some from_port) (Some to_port) cidr src_dest_fw s
    = (Returned (Some rule), s')
    /\ self s' = with_rule_appended (self s) (AzureVMFirewallRule._rule rule)
    /\ AzureVMFirewallRule.firewall rule = self s'
    /\ (SecurityRule.name (AzureVMFirewallRule._rule rule),
        SecurityRule.priority (AzureVMFirewallRule._rule rule))
       = numbered (length (rules_of (self s)) + 1)
    /\ trace s'
       = trace s ++ [Event (rule_request (self s) direction protocol from_port to_port cidr)
                           (Returned (AzureVMFirewallRule._rule rule))]
    /\ logged s' = logged s.
Proof.
  intros Hprotocol Hfrom Hto.
  unfold AzureVMFirewallRuleContainer.create.
  assert (Htruthy : truthy (Some protocol) && truthy (Some from_port)
                    && truthy (Some to_port) = true).
  { destruct protocol; [congruence|].
    change (negb (from_port =? 0) && negb (to_port =? 0) = true).
    apply Z.eqb_neq in Hfrom, Hto. rewrite Hfrom, Hto. reflexivity. }
  rewrite Htruthy. cbv [default from_option id].
  unfold bind, ret. rewrite create_rule_run. unfold rule_request.
  match goal with
  | |- context [handle (azure_client.create_vm_firewall_rule ?f ?n ?p) ?w] =>
      destruct (Hstores f n p w) as [w' Hw']; rewrite Hw'
  end.
  eexists. eexists. split; [reflexivity|].
  cbn [self trace logged AzureVMFirewallRule._rule AzureVMFirewallRule.firewall].
  split; [reflexivity|]. split; [reflexivity|]. split; [|split; reflexivity].
  unfold numbered, rules_of.
  replace (Z.of_nat (length (NetworkSecurityGroup.security_rules
                               (AzureVMFirewall._vm_firewall (self s))) + 1))
    with (Z.of_nat (length (NetworkSecurityGroup.security_rules
                              (AzureVMFirewall._vm_firewall (self s)))) + 1) by lia.
  reflexivity.
Qed.
End CreateOne.

(** X7: creating a rule and deleting it again.  With a provider that stores
    rules as requested and answers the deletion, on a firewall that has tags,
    [delete] of the rule that [create] returned leaves in memory the rules
    there were before the creation, provided none of them has the new rule's
    name.  When one of them has, the first such rule is the one that goes,
    and the new rule stays. *)
Theorem create_then_delete_rule `{MoreCalls} (s : store AzureVMFirewall.t)
        (direction : TrafficDirection.t) (protocol : string) (from_port to_port : Z)
        (cidr : option string) (src_dest_fw : option (string + AzureVMFirewall.t)) :
  stores_rules_as_requested -> more_never_raises ->
  NetworkSecurityGroup.tags (AzureVMFirewall._vm_firewall (self s)) <> None ->
  protocol <> EmptyString -> from_port <> 0 -> to_port <> 0 ->
  exists rule s1 s2,
    AzureVMFirewallRuleContainer.create
      direction (Some protocol) (Some from_port) (Some to_port) cidr src_dest_fw s
    = (Returned (Some rule), s1)
    /\ AzureVMFirewallRuleRest.delete rule (called_store s1) = (Returned tt, s2)
    /\ same_group (self s) (object (self s2))
    /\ (Forall (fun o => SecurityRule.name o <> AzureVMFirewallRule.name rule)
               (rules_of (self s))
        -> rules_of (object (self s2)) = rules_of (self s))
    /\ (forall before o after,
           rules_of (self s) = before ++ o :: after ->
           SecurityRule.name o = AzureVMFirewallRule.name rule ->
           Forall (fun o => SecurityRule.name o <> AzureVMFirewallRule.name rule) before ->
           rules_of (object (self s2))
           = before ++ after ++ [AzureVMFirewallRule._rule rule]).
Proof.
  intros Hstores Hanswers Htags Hprotocol Hfrom Hto.
  destruct (create_one_stored Hstores s direction protocol from_port to_port cidr
              src_dest_fw Hprotocol Hfrom Hto)
    as (rule & s1 & Hcreate & Hself & _ & _ & _ & _).
  destruct (AzureVMFirewall.name (self s1)) as [vm_firewall|e] eqn:Hname.
  2:{ unfold AzureVMFirewall.name in Hname. rewrite Hself in Hname.
      unfold with_rule_appended in Hname. cbn in Hname.
      destruct (NetworkSecurityGroup.tags (AzureVMFirewall._vm_firewall (self s)));
        [discriminate|congruence]. }
  pose proof (rule_delete_run rule (called_store s1) vm_firewall Hname) as Hdelete.
  cbv zeta in Hdelete.
  destruct (Hanswers (azure_client_more.delete_vm_firewall_rule
                        (AzureVMFirewallRule.id rule) vm_firewall) (remote (called_store s1)))
    as (a & w & Hw).
  rewrite Hw in Hdelete.
  exists rule, s1. eexists. split; [exact Hcreate|]. split; [exact Hdelete|].
  cbn [self object called_store]. unfold rules_of at 1 3 5.
  cbn [AzureVMFirewall._vm_firewall NetworkSecurityGroup.security_rules
       NetworkSecurityGroup.set_security_rules].
  assert (Hrules : rules_of (self s1)
                   = rules_of (self s) ++ [AzureVMFirewallRule._rule rule]).
  { rewrite Hself. reflexivity. }
  rewrite Hrules. split.
  { rewrite Hself. repeat split. }
  split.
  - intros Hnone. rewrite (remove_first_named_first _ _ []); [|assumption|reflexivity].
    apply app_nil_r.
  - intros before o after Hsplit Ho Hbefore. rewrite Hsplit.
    rewrite <- app_assoc. change ((o :: after) ++ [AzureVMFirewallRule._rule rule])
      with (o :: (after ++ [AzureVMFirewallRule._rule rule])).
    apply remove_first_named_first; assumption.
Qed.

Lemma scripted_more_never_raises (sc : Scripted.script) (vms : list VirtualMachine.t) :
  @more_never_raises (Scripted.provider sc) (scripted_more sc vms (fun _ => None)).
Proof.
  intros r w. eexists. exists w. reflexivity.
Defined.

Lemma create_then_delete_rule_witness :
  exists rule s1 s2,
    @AzureVMFirewallRuleContainer.create (Scripted.provider Scripted.plain)
      TrafficDirection.INBOUND (Some "tcp") (Some 22) (Some 22) None None
      (Scripted.start Scripted.plain an_empty_firewall)
    = (Returned (Some rule), s1)
    /\ @AzureVMFirewallRuleRest.delete (Scripted.provider Scripted.plain)
         (scripted_more Scripted.plain [] (fun _ => None)) rule (called_store s1)
       = (Returned tt, s2)
    /\ rules_of (object (self s2)) = [].
Proof.
  destruct (@create_then_delete_rule (Scripted.provider Scripted.plain)
              (scripted_more Scripted.plain [] (fun _ => None))
              (Scripted.start Scripted.plain an_empty_firewall)
              TrafficDirection.INBOUND "tcp" 22 22 None None
              (scripted_stores_rules Scripted.plain eq_refl)
              (scripted_more_never_raises Scripted.plain [])
              ltac:(discriminate) ltac:(discriminate) ltac:(discriminate)
              ltac:(discriminate))
    as (rule & s1 & s2 & Hcreate & Hdelete & _ & Hback & _).
  exists rule, s1, s2. split; [exact Hcreate|]. split; [exact Hdelete|].
  apply Hback. constructor.
Defined.

(** X8: a rule name is handed out twice.  The container numbers a new rule
    after the count of the rules in memory.  With a provider that stores
    rules as requested and answers deletions, on a firewall that has tags:
    create a rule, create a second one, delete the first and create a third.
    The third rule is requested under the name and the priority of the
    second, which is still in memory: the last two rules in memory then
    share their name and their priority. *)
Theorem rule_name_reused_after_delete `{MoreCalls} (s : store AzureVMFirewall.t)
        (direction : TrafficDirection.t) (protocol : string) (cidr : option string)
        (src_dest_fw : option (string + AzureVMFirewall.t))
        (ports_a ports_b ports_c : Z * Z) :
  stores_rules_as_requested -> more_never_raises ->
  NetworkSecurityGroup.tags (AzureVMFirewall._vm_firewall (self s)) <> None ->
  protocol <> EmptyString ->
  fst ports_a <> 0 -> snd ports_a <> 0 ->
  fst ports_b <> 0 -> snd ports_b <> 0 ->
  fst ports_c <> 0 -> snd ports_c <> 0 ->
  let create_for (ports : Z * Z) :=
    AzureVMFirewallRuleContainer.create
      direction (Some protocol) (Some (fst ports)) (Some (snd ports)) cidr src_dest_fw in
  exists a sa b sb sd c sc kept,
    create_for ports_a s = (Returned (Some a), sa)
    /\ create_for ports_b sa = (Returned (Some b), sb)
    /\ AzureVMFirewallRuleRest.delete a (called_store sb) = (Returned tt, sd)
    /\ create_for ports_c (object_store sd) = (Returned (Some c), sc)
    /\ AzureVMFirewallRule.name c = AzureVMFirewallRule.name b
    /\ SecurityRule.priority (AzureVMFirewallRule._rule c)
       = SecurityRule.priority (AzureVMFirewallRule._rule b)
    /\ requested_rule (rule_request (object (self sd)) direction protocol
                         (fst ports_c) (snd ports_c) cidr)
       = Some (AzureVMFirewallRule.name b,
               SecurityRule.priority (AzureVMFirewallRule._rule b))
    /\ rules_of (self sc)
       = kept ++ [AzureVMFirewallRule._rule b; AzureVMFirewallRule._rule c]
    /\ length kept = length (rules_of (self s)).
Proof.
  intros Hstores Hanswers Htags Hprotocol Ha1 Ha2 Hb1 Hb2 Hc1 Hc2 create_for.
  subst create_for. cbv beta.
  destruct (create_one_stored Hstores s direction protocol (fst ports_a) (snd ports_a)
              cidr src_dest_fw Hprotocol Ha1 Ha2)
    as (a & sa & Hcreate_a & Hself_a & _ & Hnumbered_a & _ & _).
  destruct (create_one_stored Hstores sa direction protocol (fst ports_b) (snd ports_b)
              cidr src_dest_fw Hprotocol Hb1 Hb2)
    as (b & sb & Hcreate_b & Hself_b & _ & Hnumbered_b & _ & _).
  assert (Hrules_a : rules_of (self sa)
                     = rules_of (self s) ++ [AzureVMFirewallRule._rule a]).
  { rewrite Hself_a. reflexivity. }
  assert (Hrules_b : rules_of (self sb)
                     = (rules_of (self s) ++ [AzureVMFirewallRule._rule a])
                         ++ [AzureVMFirewallRule._rule b]).
  { rewrite Hself_b. rewrite <- Hrules_a. reflexivity. }
  assert (Hlength_a : length (rules_of (self sa)) = (length (rules_of (self s)) + 1)%nat).
  { rewrite Hrules_a, length_app. reflexivity. }
  assert (Hname_a : SecurityRule.name (AzureVMFirewallRule._rule a)
                    = fst (numbered (length (rules_of (self s)) + 1))).
  { rewrite <- Hnumbered_a. reflexivity. }
  assert (Hname_b : SecurityRule.name (AzureVMFirewallRule._rule b)
                    = fst (numbered (length (rules_of (self sa)) + 1))).
  { rewrite <- Hnumbered_b. reflexivity. }
  assert (Hdistinct : SecurityRule.name (AzureVMFirewallRule._rule b)
                      <> AzureVMFirewallRule.name a).
  { unfold AzureVMFirewallRule.name. rewrite Hname_a, Hname_b, Hlength_a.
    intros Heq. apply numbered_name_inj in Heq. lia. }
  destruct (AzureVMFirewall.name (self sb)) as [vm_firewall|e] eqn:Hname.
  2:{ unfold AzureVMFirewall.name in Hname. rewrite Hself_b, Hself_a in Hname.
      unfold with_rule_appended in Hname. cbn in Hname.
      destruct (NetworkSecurityGroup.tags (AzureVMFirewall._vm_firewall (self s)));
        [discriminate|congruence]. }
  pose proof (rule_delete_run a (called_store sb) vm_firewall Hname) as Hdelete.
  cbv zeta in Hdelete.
  destruct (Hanswers (azure_client_more.delete_vm_firewall_rule
                        (AzureVMFirewallRule.id a) vm_firewall) (remote (called_store sb)))
    as (answer & w & Hw).
  rewrite Hw in Hdelete.
  cbn [self object called_store] in Hdelete. rewrite Hrules_b in Hdelete.
  rewrite (remove_first_named_snoc _ _ _ Hdistinct) in Hdelete.
  set (kept := remove_first_named (AzureVMFirewallRule.name a)
                 (rules_of (self s) ++ [AzureVMFirewallRule._rule a])) in *.
  assert (Hkept : length kept = length (rules_of (self s))).
  { apply remove_first_named_length. reflexivity. }
  match type of Hdelete with _ = (_, ?st) => set (sd := st) in * end.
  assert (Hrules_d : rules_of (self (object_store sd))
                     = kept ++ [AzureVMFirewallRule._rule b]) by reflexivity.
  destruct (create_one_stored Hstores (object_store sd) direction protocol
              (fst ports_c) (snd ports_c) cidr src_dest_fw Hprotocol Hc1 Hc2)
    as (c & sc & Hcreate_c & Hself_c & _ & Hnumbered_c & _ & _).
  assert (Hsame : numbered (length (rules_of (self (object_store sd))) + 1)
                  = numbered (length (rules_of (self sa)) + 1)).
  { rewrite Hrules_d, length_app, Hkept, Hlength_a. reflexivity. }
  rewrite Hsame in Hnumbered_c.
  exists a, sa, b, sb, sd, c, sc, kept.
  split; [exact Hcreate_a|]. split; [exact Hcreate_b|]. split; [exact Hdelete|].
  split; [exact Hcreate_c|]. split.
  { unfold AzureVMFirewallRule.name. congruence. }
  split; [congruence|]. split.
  { rewrite rule_request_numbered.
    change (rules_of (object (self sd))) with (rules_of (self (object_store sd))).
    rewrite Hsame, <- Hnumbered_b. reflexivity. }
  split; [|exact Hkept].
  rewrite Hself_c.
  change (rules_of (with_rule_appended (self (object_store sd))
                      (AzureVMFirewallRule._rule c)))
    with (rules_of (self (object_store sd)) ++ [AzureVMFirewallRule._rule c]).
  rewrite Hrules_d, <- app_assoc. reflexivity.
Qed.

Lemma rule_name_reused_after_delete_witness :
  exists a sa b sb sd c sc,
    @AzureVMFirewallRuleContainer.create (Scripted.provider Scripted.plain)
      TrafficDirection.INBOUND (Some "tcp") (Some 22) (Some 22) None None
      (Scripted.start Scripted.plain an_empty_firewall)
    = (Returned (Some a), sa)
    /\ @AzureVMFirewallRuleContainer.create (Scripted.provider Scripted.plain)
         TrafficDirection.INBOUND (Some "tcp") (Some 80) (Some 80) None None sa
       = (Returned (Some b), sb)
    /\ @AzureVMFirewallRuleRest.delete (Scripted.provider Scripted.plain)
         (scripted_more Scripted.plain [] (fun _ => None)) a (called_store sb)
       = (Returned tt, sd)
    /\ @AzureVMFirewallRuleContainer.create (Scripted.provider Scripted.plain)
         TrafficDirection.INBOUND (Some "tcp") (Some 443) (Some 443) None None
         (object_store sd)
       = (Returned (Some c), sc)
    /\ AzureVMFirewallRule.name c = AzureVMFirewallRule.name b.
Proof.
  destruct (@rule_name_reused_after_delete (Scripted.provider Scripted.plain)
              (scripted_more Scripted.plain [] (fun _ => None))
              (Scripted.start Scripted.plain an_empty_firewall)
              TrafficDirection.INBOUND "tcp" None None (22, 22) (80, 80) (443, 443)
              (scripted_stores_rules Scripted.plain eq_refl)
              (scripted_more_never_raises Scripted.plain [])
              ltac:(discriminate) ltac:(discriminate)
              ltac:(discriminate) ltac:(discriminate)
              ltac:(discriminate) ltac:(discriminate)
              ltac:(discriminate) ltac:(discriminate))
    as (a & sa & b & sb & sd & c & sc & kept & Ha & Hb & Hd & Hc & Hname & _).
  exists a, sa, b, sb, sd, c, sc. repeat split; assumption.
Defined.

(** ** Volumes: attachments and detach *)

(** X9: the attachment a volume reports agrees with its state.  For a
    volume constructed over a disk whose provisioning state is "Succeeded",
    [attachments] is [None] exactly when the state is AVAILABLE and an
    attachment exactly when the state is IN_USE; the attachment names the
    volume itself, the VM name parsed out of [managed_by], and never a
    device. *)
Theorem volume_attachments_agree_with_state `{Provider} (volume : Disk.t) :
  Disk.provisioning_state volume = Some "Succeeded" ->
  let self := AzureVolume.__init__ volume in
  (AzureVolumeRest.attachments self = None <-> AzureVolume.state self = VolumeState.AVAILABLE)
  /\ (AzureVolumeRest.attachments self <> None
      <-> AzureVolume.state self = VolumeState.IN_USE)
  /\ (forall info,
         AzureVolumeRest.attachments self = Some info ->
         BaseAttachmentInfo.volume info = self
         /\ BaseAttachmentInfo.device info = None
         /\ exists managed_by,
             Disk.managed_by volume = Some managed_by
             /\ managed_by <> EmptyString
             /\ BaseAttachmentInfo.instance_id info
                = parse_url INSTANCE_RESOURCE_ID managed_by !! VM_NAME).
Proof.
  intros Hstate. cbv zeta.
  unfold AzureVolumeRest.attachments, AzureVolume.state.
  rewrite volume_init_payload, volume_init_state.
  unfold AzureVolume._update_state. cbn [AzureVolume._volume AzureVolume._state].
  rewrite Hstate. rewrite bool_decide_eq_true_2 by reflexivity. cbn [negb].
  assert (Hmanaged : Disk.managed_by
                       (if negb (truthy (Disk.tags volume))
                        then Disk.set_tags (Some ∅) volume else volume)
                     = Disk.managed_by volume).
  { destruct (negb (truthy (Disk.tags volume))); reflexivity. }
  rewrite Hmanaged.
  destruct (Disk.managed_by volume) as [[|c m]|] eqn:Hm.
  - change (truthy (Some EmptyString)) with false. cbv iota.
    cbn [AzureVolume._state].
    change (state_get AzureVolume.VOLUME_STATE_MAP (Some "Unattached") VolumeState.UNKNOWN)
      with VolumeState.AVAILABLE.
    split; [split; reflexivity|]. split; [split; [congruence|discriminate]|].
    intros info Hinfo. discriminate.
  - change (truthy (Some (String c m))) with true. cbv iota.
    cbn [AzureVolume._state].
    change (state_get AzureVolume.VOLUME_STATE_MAP (Some "Attached") VolumeState.UNKNOWN)
      with VolumeState.IN_USE.
    split; [split; discriminate|]. split; [split; [reflexivity|discriminate]|].
    intros info Hinfo. injection Hinfo as <-.
    cbn [BaseAttachmentInfo.volume BaseAttachmentInfo.device
         BaseAttachmentInfo.instance_id].
    split; [reflexivity|]. split; [reflexivity|].
    exists (String c m). split; [reflexivity|]. split; [discriminate|reflexivity].
  - change (truthy (@None string)) with false. cbv iota.
    cbn [AzureVolume._state].
    change (state_get AzureVolume.VOLUME_STATE_MAP (Some "Unattached") VolumeState.UNKNOWN)
      with VolumeState.AVAILABLE.
    split; [split; reflexivity|]. split; [split; [congruence|discriminate]|].
    intros info Hinfo. discriminate.
Qed.

Lemma volume_attachments_agree_with_state_witness :
  AzureVolume.state (AzureVolume.__init__ attached_volume) = VolumeState.IN_USE
  /\ @AzureVolumeRest.attachments (Scripted.provider Scripted.plain)
       (AzureVolume.__init__ attached_volume) <> None.
Proof.
  destruct (@volume_attachments_agree_with_state (Scripted.provider Scripted.plain)
              attached_volume eq_refl) as (_ & Hin_use & _).
  split; [reflexivity|]. apply Hin_use. reflexivity.
Defined.

Lemma py_remove_first (before after : list VMDisk.t) (item : VMDisk.t) :
  Forall (fun x => x <> item) before ->
  py_remove (before ++ item :: after) item = Returned (before ++ after).
Proof.
  induction 1 as [|x rest Hx _ IH].
  - cbn. rewrite decide_True by reflexivity. reflexivity.
  - cbn [app py_remove]. rewrite decide_False by assumption. rewrite IH. reflexivity.
Qed.

Lemma at_most_once_cases (f : VMDisk.t -> bool) (l : list VMDisk.t) :
  (length (List.filter f l) <= 1)%nat ->
  (Forall (fun x => f x = false) l
   /\ existsb f l = false
   /\ List.filter (fun x => negb (f x)) l = l)
  \/ (exists before item after,
         l = before ++ item :: after
         /\ Forall (fun x => f x = false) before
         /\ f item = true
         /\ Forall (fun x => f x = false) after
         /\ existsb f l = true
         /\ List.filter (fun x => negb (f x)) l = before ++ after).
Proof.
  induction l as [|x rest IH]; intros Hlen.
  - left. repeat split. constructor.
  - cbn [List.filter existsb] in *. destruct (f x) eqn:Hx.
    + right. cbn [length] in Hlen.
      assert (Hrest : (length (List.filter f rest) <= 1)%nat) by lia.
      destruct (IH Hrest) as [(Hnone & _ & Hfilter)|Hfound].
      * exists [], x, rest. cbn [negb]. rewrite Hfilter.
        repeat split; [constructor|assumption|assumption].
      * destruct Hfound as (before & item & after & Hl & _ & Hitem & _).
        exfalso. rewrite Hl, List.filter_app in Hlen. cbn [List.filter] in Hlen.
        rewrite Hitem, length_app in Hlen. cbn [length] in Hlen. lia.
    + cbn [negb orb]. destruct (IH Hlen) as [(Hnone & Hexists & Hfilter)|Hfound].
      * left. rewrite Hfilter. repeat split; [constructor|]; assumption.
      * right. destruct Hfound
          as (before & item & after & Hl & Hbefore & Hitem & Hafter & Hexists & Hfilter).
        exists (x :: before), item, after.
        split; [rewrite Hl; reflexivity|]. split; [constructor; assumption|].
        split; [assumption|]. split; [assumption|]. split; [assumption|].
        rewrite Hfilter. reflexivity.
Qed.

Lemma detach_requests_cons (self : AzureVolume.t) (vm : VirtualMachine.t)
      (rest : list VirtualMachine.t) :
  detach_requests self (vm :: rest)
  = (if holds_volume self vm
     then [azure_client_more.update_vm (VirtualMachine.name vm) (without_volume self vm)]
     else [])
      ++ detach_requests self rest.
Proof.
  unfold detach_requests. cbn. destruct (holds_volume self vm); reflexivity.
Qed.

Section Detach.
Context `{MoreCalls}.

Lemma detach_from_vm_no_match (n i : nat) (vm : VirtualMachine.t)
      (s : store (called AzureVolume.t)) :
  Forall (fun item => AzureVolumeRest.is_disk_of (object (self s)) item = false)
         (data_disks_of vm) ->
  AzureVolumeRest.detach_from_vm n i vm s = (Returned tt, s).
Proof.
  intros Hnone. revert i. induction n as [|n IH]; intros i; [reflexivity|].
  cbn [AzureVolumeRest.detach_from_vm].
  destruct (data_disks_of vm !! i) as [item|] eqn:Hitem; [|reflexivity].
  unfold bind at 1, get_object.
  rewrite (proj1 (Forall_lookup _ _) Hnone i item Hitem). apply IH.
Qed.

Lemma detach_from_vm_once (n i : nat) (vm : VirtualMachine.t)
      (s : store (called AzureVolume.t)) (before after : list VMDisk.t) (item : VMDisk.t) :
  data_disks_of vm = before ++ item :: after ->
  Forall (fun item => AzureVolumeRest.is_disk_of (object (self s)) item = false) before ->
  AzureVolumeRest.is_disk_of (object (self s)) item = true ->
  Forall (fun item => AzureVolumeRest.is_disk_of (object (self s)) item = false) after ->
  (i <= length before)%nat -> (length before < n + i)%nat ->
  let r := azure_client_more.update_vm (VirtualMachine.name vm)
             (set_data_disks (before ++ after) vm) in
  AzureVolumeRest.detach_from_vm n i vm s
  = match handle_more r (remote s) with
    | (o, w) =>
        (o, Store (Called (object (self s)) (more_trace (self s) ++ [MoreEvent r o]))
                  w (trace s) (logged s))
    end.
Proof.
  intros Hdisks Hbefore Hitem Hafter. cbv zeta. revert i.
  induction n as [|n IH]; intros i Hi Hn; [lia|].
  cbn [AzureVolumeRest.detach_from_vm]. rewrite Hdisks.
  destruct (decide (i = length before)) as [->|Hne].
  - rewrite list_lookup_middle by reflexivity.
    unfold bind at 1, get_object. rewrite Hitem.
    unfold bind at 1, lift_outcome. rewrite <- Hdisks at 1. rewrite Hdisks.
    rewrite py_remove_first.
    2:{ eapply Forall_impl; [exact Hbefore|]. cbn. intros x Hx ->. congruence. }
    unfold bind, invoke_more.
    change (VirtualMachine.name (set_data_disks (before ++ after) vm))
      with (VirtualMachine.name vm).
    destruct (handle_more (azure_client_more.update_vm (VirtualMachine.name vm)
                             (set_data_disks (before ++ after) vm)) (remote s))
      as [[a|e] w]; [|reflexivity].
    rewrite detach_from_vm_no_match; [destruct a; reflexivity|].
    cbn [self object]. change (data_disks_of (set_data_disks (before ++ after) vm))
      with (before ++ after).
    apply Forall_app. split; assumption.
  - assert (Hlt : (i < length before)%nat) by lia.
    rewrite lookup_app_l by exact Hlt.
    destruct (lookup_lt_is_Some_2 before i Hlt) as [x Hx]. rewrite Hx.
    unfold bind at 1, get_object.
    rewrite (proj1 (Forall_lookup _ _) Hbefore i x Hx).
    apply IH; lia.
Qed.

Lemma detach_from_vm_run (vm : VirtualMachine.t) (s : store (called AzureVolume.t)) :
  more_never_raises ->
  holds_at_most_once (object (self s)) vm ->
  exists s',
    AzureVolumeRest.detach_from_vm (length (data_disks_of vm)) 0 vm s = (Returned tt, s')
    /\ object (self s') = object (self s)
    /\ trace s' = trace s
    /\ logged s' = logged s
    /\ more_requests (more_trace (self s'))
       = more_requests (more_trace (self s)) ++ detach_requests (object (self s)) [vm].
Proof.
  intros Hanswers Honce. rewrite detach_requests_cons.
  change (detach_requests (object (self s)) []) with (@nil azure_client_more.request).
  rewrite app_nil_r.
  destruct (at_most_once_cases _ _ Honce) as [(Hnone & Hexists & _)|Hfound].
  - exists s. rewrite detach_from_vm_no_match by exact Hnone.
    unfold holds_volume. rewrite Hexists. rewrite app_nil_r. repeat split.
  - destruct Hfound
      as (before & item & after & Hl & Hbefore & Hitem & Hafter & Hexists & Hfilter).
    rewrite (detach_from_vm_once _ 0 vm s before after item Hl Hbefore Hitem Hafter);
      [|lia|rewrite Hl, length_app; cbn [length]; lia].
    destruct (Hanswers (azure_client_more.update_vm (VirtualMachine.name vm)
                          (set_data_disks (before ++ after) vm)) (remote s))
      as (a & w & Hw).
    rewrite Hw. eexists. split; [destruct a; reflexivity|].
    cbn [self object trace logged more_trace].
    split; [reflexivity|]. split; [reflexivity|]. split; [reflexivity|].
    unfold holds_volume, without_volume. rewrite Hexists, Hfilter.
    unfold more_requests. rewrite map_app. reflexivity.
Qed.

Lemma detach_loop_run (vms : list VirtualMachine.t) :
  more_never_raises ->
  forall s : store (called AzureVolume.t),
    Forall (holds_at_most_once (object (self s))) vms ->
    exists s',
      for_each vms (fun vm => AzureVolumeRest.detach_from_vm
                                (length (data_disks_of vm)) 0 vm) s
      = (Returned tt, s')
      /\ object (self s') = object (self s)
      /\ trace s' = trace s
      /\ logged s' = logged s
      /\ more_requests (more_trace (self s'))
         = more_requests (more_trace (self s)) ++ detach_requests (object (self s)) vms.
Proof.
  intros Hanswers. induction vms as [|vm rest IH]; intros s Honce.
  - exists s. change (detach_requests (object (self s)) [])
      with (@nil azure_client_more.request).
    rewrite app_nil_r. repeat split.
  - inversion Honce as [|vm' rest' Hvm Hrest]; subst.
    destruct (detach_from_vm_run vm s Hanswers Hvm)
      as (s1 & Hrun1 & Hobject1 & Htrace1 & Hlogged1 & Hmore1).
    destruct (IH s1) as (s2 & Hrun2 & Hobject2 & Htrace2 & Hlogged2 & Hmore2).
    { rewrite Hobject1. exact Hrest. }
    exists s2. split.
    { cbn [for_each]. unfold bind at 1. rewrite Hrun1. exact Hrun2. }
    split; [congruence|]. split; [congruence|]. split; [congruence|].
    rewrite Hmore2, Hmore1, Hobject1. rewrite <- app_assoc. f_equal.
    rewrite (detach_requests_cons _ vm rest), (detach_requests_cons _ vm []).
    change (detach_requests (object (self s)) []) with (@nil azure_client_more.request).
    rewrite app_nil_r. reflexivity.
Qed.
End Detach.

(** X10: detaching a volume.  With a provider that answers every call,
    when no VM holds the volume as more than one of its data disks,
    [detach] returns [True] after one [list_vm] and one [update_vm] for every
    listed VM that holds the volume, in the order listed: each is sent under
    the VM's name with the volume's data disk taken out and the other data
    disks as they were.  VMs that do not hold the volume get no call, and
    [force] changes nothing. *)
Theorem detach_updates_each_holding_vm `{MoreCalls}
        (s : store (called AzureVolume.t)) (force : bool)
        (vms : list VirtualMachine.t) (w : world) :
  more_never_raises ->
  handle_more azure_client_more.list_vm (remote s) = (Returned vms, w) ->
  Forall (holds_at_most_once (object (self s))) vms ->
  exists s',
    AzureVolumeRest.detach force s = (Returned true, s')
    /\ object (self s') = object (self s)
    /\ trace s' = trace s
    /\ more_requests (more_trace (self s'))
       = more_requests (more_trace (self s))
           ++ azure_client_more.list_vm :: detach_requests (object (self s)) vms
    /\ (Forall (fun vm => holds_volume (object (self s)) vm = false) vms ->
        more_requests (more_trace (self s'))
        = more_requests (more_trace (self s)) ++ [azure_client_more.list_vm]).
Proof.
  intros Hanswers Hlist Honce.
  pose (s0 := Store (Called (object (self s))
                       (more_trace (self s)
                          ++ [MoreEvent azure_client_more.list_vm (Returned vms)]))
                    w (trace s) (logged s)).
  destruct (detach_loop_run vms Hanswers s0 Honce)
    as (s' & Hrun & Hobject & Htrace & _ & Hmore).
  assert (Hrequests : more_requests (more_trace (self s'))
                      = more_requests (more_trace (self s))
                          ++ azure_client_more.list_vm
                               :: detach_requests (object (self s)) vms).
  { rewrite Hmore. cbn [s0 self object more_trace]. unfold more_requests.
    rewrite map_app, <- app_assoc. reflexivity. }
  exists s'. split.
  { unfold AzureVolumeRest.detach. unfold bind at 1, invoke_more. rewrite Hlist.
    fold s0. unfold bind at 1. rewrite Hrun. reflexivity. }
  split; [exact Hobject|]. split; [exact Htrace|]. split; [exact Hrequests|].
  intros Hnone. rewrite Hrequests. f_equal. f_equal.
  clear -Hnone.
  induction Hnone as [|vm rest Hvm _ IH]; [reflexivity|].
  rewrite detach_requests_cons, Hvm. exact IH.
Qed.

Lemma detach_updates_each_holding_vm_witness :
  exists s',
    @AzureVolumeRest.detach (Scripted.provider Scripted.plain)
      (scripted_more Scripted.plain [a_vm_with_disks; Scripted.a_vm None] (fun _ => None))
      false
      (called_store (Scripted.start Scripted.plain
                       (AzureVolume.__init__ (tagged_disk "d2" None))))
    = (Returned true, s')
    /\ length (more_trace (self s')) = 2%nat.
Proof.
  destruct (@detach_updates_each_holding_vm (Scripted.provider Scripted.plain)
              (scripted_more Scripted.plain [a_vm_with_disks; Scripted.a_vm None]
                             (fun _ => None))
              (called_store (Scripted.start Scripted.plain
                               (AzureVolume.__init__ (tagged_disk "d2" None))))
              false [a_vm_with_disks; Scripted.a_vm None] tt
              (scripted_more_never_raises Scripted.plain _) eq_refl)
    as (s' & Hrun & _ & _ & Hrequests & _).
  - repeat constructor.
  - exists s'. split; [exact Hrun|].
    apply (f_equal (@length _)) in Hrequests. unfold more_requests in Hrequests.
    rewrite length_map in Hrequests. rewrite Hrequests. reflexivity.
Defined.

(** ** Names and descriptions *)

(** X11: the description of a firewall.  On a firewall that has tags, the
    [description] setter takes any value unchecked, makes one call that
    sends the tags with [Description] set to that value, and leaves the
    call's outcome as its own; whatever the outcome, [description] then
    reads the value back while the name, the id and the rules stay as they
    were.  The [name] setter in turn leaves the description as it was. *)
Theorem firewall_description_is_independent_of_name `{Provider}
        (s : store AzureVMFirewall.t) (tags : gmap string pyval) :
  NetworkSecurityGroup.tags (AzureVMFirewall._vm_firewall (self s)) = Some tags ->
  (forall value : pyval,
      let r := azure_client.update_vm_firewall_tags
                 (AzureVMFirewall.id (self s)) (Some (<["Description" := value]> tags)) in
      let s' := snd (AzureVMFirewallRest.set_description value s) in
      exists (answer : outcome unit) w,
        handle r (remote s) = (answer, w)
        /\ fst (AzureVMFirewallRest.set_description value s) = answer
        /\ trace s' = trace s ++ [Event r answer]
        /\ AzureVMFirewallRest.description (self s') = Returned value
        /\ AzureVMFirewall.name (self s') = AzureVMFirewall.name (self s)
        /\ AzureVMFirewall.id (self s') = AzureVMFirewall.id (self s)
        /\ rules_of (self s') = rules_of (self s))
  /\ (forall value : string,
         is_valid_resource_name value = true ->
         let s' := snd (AzureVMFirewall.set_name value s) in
         AzureVMFirewallRest.description (self s')
         = AzureVMFirewallRest.description (self s)
         /\ AzureVMFirewall.id (self s') = AzureVMFirewall.id (self s)
         /\ rules_of (self s') = rules_of (self s)).
Proof.
  intros Htags. destruct s as [x w tr lg]. cbn [self remote trace] in *. split.
  - intros value. cbv zeta.
    assert (Hrun : AzureVMFirewallRest.set_description value (Store x w tr lg)
                   = let r := azure_client.update_vm_firewall_tags
                                (AzureVMFirewall.id x)
                                (Some (<["Description" := value]> tags)) in
                     let '(o, w') := handle r w in
                     (o, Store (AzureVMFirewall.Build
                                  (NetworkSecurityGroup.set_tags
                                     (Some (<["Description" := value]> tags))
                                     (AzureVMFirewall._vm_firewall x)))
                               w' (tr ++ [Event r o]) lg)).
    { unfold AzureVMFirewallRest.set_description. unfold_monad.
      cbn [self remote trace logged]. rewrite Htags. reflexivity. }
    rewrite Hrun. cbv zeta.
    destruct (handle (azure_client.update_vm_firewall_tags
                        (AzureVMFirewall.id x)
                        (Some (<["Description" := value]> tags))) w) as [answer w'].
    exists answer, w'. cbn [fst snd self trace].
    split; [reflexivity|]. split; [reflexivity|]. split; [reflexivity|].
    unfold AzureVMFirewallRest.description, AzureVMFirewall.name, AzureVMFirewall.id,
      rules_of.
    cbn [AzureVMFirewall._vm_firewall NetworkSecurityGroup.set_tags
         NetworkSecurityGroup.name NetworkSecurityGroup.tags
         NetworkSecurityGroup.security_rules].
    rewrite Htags. unfold tags_get.
    rewrite lookup_insert_eq, lookup_insert_ne by discriminate.
    repeat split.
  - intros value Hvalid. cbv zeta.
    unfold AzureVMFirewall.set_name. unfold_monad.
    cbn [self remote trace logged]. rewrite Hvalid. cbn [self remote trace logged].
    rewrite Htags. cbn [self remote trace logged].
    match goal with
    | |- context [handle ?r ?w0] => destruct (handle r w0)
    end.
    cbn [fst snd self].
    unfold AzureVMFirewallRest.description, AzureVMFirewall.id, rules_of.
    cbn [AzureVMFirewall._vm_firewall NetworkSecurityGroup.set_tags
         NetworkSecurityGroup.name NetworkSecurityGroup.tags
         NetworkSecurityGroup.security_rules].
    rewrite Htags. unfold tags_get, tags_update.
    rewrite lookup_insert_ne by discriminate.
    repeat split.
Qed.

Lemma firewall_description_is_independent_of_name_witness :
  AzureVMFirewallRest.description
    (self (snd (@AzureVMFirewallRest.set_description (Scripted.provider Scripted.plain)
                  (VStr "web servers")
                  (Scripted.start Scripted.plain an_empty_firewall))))
  = Returned (VStr "web servers").
Proof.
  destruct (@firewall_description_is_independent_of_name
              (Scripted.provider Scripted.plain)
              (Scripted.start Scripted.plain an_empty_firewall) ∅ eq_refl)
    as [Hdescription _].
  destruct (Hdescription (VStr "web servers")) as (answer & w & _ & _ & _ & Hreads & _).
  exact Hreads.
Defined.

(** X12: a name that is not a valid resource name changes nothing.  The
    [name] setter of each of the seven adapters that have one (firewall,
    volume, snapshot, machine image, network, router, instance) raises
    [InvalidNameException] for it before anything else happens: no call is
    made, and the adapter and its tags are as before. *)
Theorem invalid_name_changes_nothing `{Provider} (value : string) :
  is_valid_resource_name value = false ->
  (forall s, AzureVMFirewall.set_name value s = (Raised InvalidNameException, s))
  /\ (forall s, AzureVolume.set_name value s = (Raised InvalidNameException, s))
  /\ (forall s, AzureSnapshot.set_name value s = (Raised InvalidNameException, s))
  /\ (forall s, AzureMachineImage.set_name value s = (Raised InvalidNameException, s))
  /\ (forall s, AzureNetwork.set_name value s = (Raised InvalidNameException, s))
  /\ (forall s, AzureRouter.set_name value s = (Raised InvalidNameException, s))
  /\ (forall s, AzureInstance.set_name value s = (Raised InvalidNameException, s)).
Proof.
  intros Hinvalid.
  repeat split; intros s;
    unfold AzureVMFirewall.set_name, AzureVolume.set_name, AzureSnapshot.set_name,
      AzureMachineImage.set_name, AzureNetwork.set_name, AzureRouter.set_name,
      AzureInstance.set_name;
    unfold assert_valid_resource_name, bind at 1; rewrite Hinvalid; reflexivity.
Qed.

Lemma invalid_name_changes_nothing_witness :
  @AzureInstance.set_name (Scripted.provider Scripted.plain) ""
    (Scripted.start Scripted.plain an_instance)
  = (Raised InvalidNameException, Scripted.start Scripted.plain an_instance).
Proof.
  destruct (@invalid_name_changes_nothing (Scripted.provider Scripted.plain) "" eq_refl)
    as (_ & _ & _ & _ & _ & _ & Hinstance).
  apply Hinstance.
Defined.

(** ** Refreshing networks and subnets *)

Section Refresh.
Context `{Provider}.

Lemma network_refresh_run (s : store AzureNetwork.t) :
  AzureNetworkRest.refresh s
  = let r := azure_client.get_network (Some (AzureNetwork.id (self s))) in
    match handle r (remote s) with
    | (Returned network, w) =>
        (Returned tt,
         Store (AzureNetwork.Build network (VirtualNetwork.provisioning_state network))
               w (trace s ++ [Event r (Returned network)]) (logged s))
    | (Raised e, w) =>
        let s1 := Store (self s) w (trace s ++ [Event r (Raised e)]) (logged s) in
        match e with
        | CloudError msg | ValueError (Some msg) =>
            (Returned tt,
             Store (AzureNetwork.Build (AzureNetwork._network (self s)) (Some "unknown"))
                   w (trace s ++ [Event r (Raised e)]) (logged s ++ [msg]))
        | ValueError None => (Raised AttributeError, s1)
        | _ => (Raised e, s1)
        end
    end.
Proof.
  destruct s as [x w tr lg]. cbv zeta. cbn [self remote trace logged].
  unfold AzureNetworkRest.refresh, try_except. unfold_monad.
  cbn [self remote trace logged].
  destruct (handle (azure_client.get_network (Some (AzureNetwork.id x))) w)
    as [[network|e] w']; [reflexivity|].
  destruct e as [msg|[msg|]| | | | |]; reflexivity.
Qed.

Lemma subnet_refresh_run (s : store AzureSubnet.t) (self_id : string) :
  AzureSubnet.id (self s) = Returned self_id ->
  AzureSubnetRest.refresh s
  = let r := azure_client.get_network (Some self_id) in
    match handle r (remote s) with
    | (Returned network, w) =>
        (Returned tt,
         Store (AzureSubnet.Build (AzureSubnet._subnet (self s))
                                  (VirtualNetwork.provisioning_state network)
                                  (AzureSubnet._url_params (self s)) network)
               w (trace s ++ [Event r (Returned network)]) (logged s))
    | (Raised e, w) =>
        let s1 := Store (self s) w (trace s ++ [Event r (Raised e)]) (logged s) in
        match e with
        | CloudError msg | ValueError (Some msg) =>
            (Returned tt,
             Store (AzureSubnet.Build (AzureSubnet._subnet (self s)) (Some "unknown")
                                      (AzureSubnet._url_params (self s))
                                      (AzureSubnet._network (self s)))
                   w (trace s ++ [Event r (Raised e)]) (logged s ++ [msg]))
        | ValueError None => (Raised AttributeError, s1)
        | _ => (Raised e, s1)
        end
    end.
Proof.
  destruct s as [x w tr lg]. cbv zeta. cbn [self remote trace logged]. intros Hid.
  unfold AzureSubnetRest.refresh, try_except. unfold_monad.
  cbn [self remote trace logged]. rewrite Hid. cbn [self remote trace logged].
  destruct (handle (azure_client.get_network (Some self_id)) w)
    as [[network|e] w']; [reflexivity|].
  destruct e as [msg|[msg|]| | | | |]; reflexivity.
Qed.
End Refresh.

Lemma append_length (a b : string) :
  String.length (a +:+ b) = (String.length a + String.length b)%nat.
Proof.
  induction a as [|c a IH]; [reflexivity|].
  change (S (String.length (a +:+ b)) = S (String.length a + String.length b)).
  rewrite IH. reflexivity.
Qed.

(** X13: refreshing a network.  [refresh] makes one [get_network] call for
    the network's id.  When it is answered, the answer replaces the payload
    and its provisioning state the state; the tags are not looked at, so
    that over an answer without tags [name] raises [AttributeError], which
    it never does on a constructed network.  When the call raises a
    [CloudError], [refresh] returns all the same: the message is logged,
    the payload is kept and the state is UNKNOWN.  Any exception other than
    [CloudError] and [ValueError] propagates and changes nothing. *)
Theorem network_refresh_outcomes `{Provider} (s : store AzureNetwork.t) :
  let r := azure_client.get_network (Some (AzureNetwork.id (self s))) in
  let s' := snd (AzureNetworkRest.refresh s) in
  exists (answer : outcome VirtualNetwork.t) w,
    handle r (remote s) = (answer, w)
    /\ trace s' = trace s ++ [Event r answer]
    /\ remote s' = w
    /\ match answer with
       | Returned network =>
           fst (AzureNetworkRest.refresh s) = Returned tt
           /\ self s' = AzureNetwork.Build network (VirtualNetwork.provisioning_state network)
           /\ logged s' = logged s
           /\ AzureNetwork.name (self s')
              = match VirtualNetwork.tags network with
                | None => Raised AttributeError
                | Some tags =>
                    Returned (tags_get tags "Name" (VStr (VirtualNetwork.name network)))
                end
           /\ AzureNetwork.name (AzureNetwork.__init__ network) <> Raised AttributeError
       | Raised (CloudError msg) =>
           fst (AzureNetworkRest.refresh s) = Returned tt
           /\ AzureNetwork._network (self s') = AzureNetwork._network (self s)
           /\ AzureNetworkRest.state (self s') = NetworkState.UNKNOWN
           /\ logged s' = logged s ++ [msg]
       | Raised (ValueError _) => AzureNetwork._network (self s') = AzureNetwork._network (self s)
       | Raised e =>
           fst (AzureNetworkRest.refresh s) = Raised e
           /\ self s' = self s
           /\ logged s' = logged s
       end.
Proof.
  cbv zeta. rewrite network_refresh_run. cbv zeta.
  destruct (handle (azure_client.get_network (Some (AzureNetwork.id (self s)))) (remote s))
    as [[network|e] w].
  - exists (Returned network), w. cbn [fst snd self trace remote logged].
    split; [reflexivity|]. split; [reflexivity|]. split; [reflexivity|].
    split; [reflexivity|]. split; [reflexivity|]. split; [reflexivity|].
    split; [reflexivity|].
    unfold AzureNetwork.__init__, AzureNetwork.name. cbn [AzureNetwork._network].
    destruct (VirtualNetwork.tags network) as [tags|] eqn:Htags.
    + destruct (negb (truthy (Some tags))); cbn [AzureNetwork._network];
        [cbn [VirtualNetwork.set_tags VirtualNetwork.tags]|rewrite Htags]; discriminate.
    + change (negb (truthy (@None (gmap string pyval)))) with true. cbv iota.
      cbn [AzureNetwork._network VirtualNetwork.set_tags VirtualNetwork.tags].
      discriminate.
  - exists (Raised e), w.
    destruct e as [msg|[msg|]| | | | |]; cbn [fst snd self trace remote logged];
      repeat split; reflexivity.
Qed.

(** X14: refreshing a subnet.  [refresh] asks [get_network] for the
    subnet's own id, the network id followed by "|$|" and the subnet name,
    which is never the network id the constructor asked for.  When the call
    is answered, the answer becomes the subnet's network and the network's
    provisioning state the subnet's state, the subnet payload staying as it
    was; on a [CloudError] the message is logged and the state is set to
    "unknown"; other exceptions than [CloudError] and [ValueError]
    propagate and change nothing. *)
Theorem subnet_refresh_asks_for_the_subnet_id `{Provider} (s : store AzureSubnet.t)
        (network_id : string) :
  AzureSubnet.network_id (self s) = Some network_id ->
  let asked := network_id +:+ "|$|" +:+ Subnet.name (AzureSubnet._subnet (self s)) in
  let r := azure_client.get_network (Some asked) in
  let s' := snd (AzureSubnetRest.refresh s) in
  asked <> network_id
  /\ exists (answer : outcome VirtualNetwork.t) w,
      handle r (remote s) = (answer, w)
      /\ trace s' = trace s ++ [Event r answer]
      /\ AzureSubnet._subnet (self s') = AzureSubnet._subnet (self s)
      /\ AzureSubnet.id (self s') = Returned asked
      /\ match answer with
         | Returned network =>
             fst (AzureSubnetRest.refresh s) = Returned tt
             /\ AzureSubnet._network (self s') = network
             /\ AzureSubnet._state (self s') = VirtualNetwork.provisioning_state network
             /\ logged s' = logged s
         | Raised (CloudError msg) =>
             fst (AzureSubnetRest.refresh s) = Returned tt
             /\ AzureSubnet._network (self s') = AzureSubnet._network (self s)
             /\ AzureSubnet._state (self s') = Some "unknown"
             /\ logged s' = logged s ++ [msg]
         | Raised (ValueError _) =>
             AzureSubnet._network (self s') = AzureSubnet._network (self s)
         | Raised e =>
             fst (AzureSubnetRest.refresh s) = Raised e
             /\ self s' = self s
             /\ logged s' = logged s
         end.
Proof.
  intros Hnetwork. cbv zeta. split.
  { intros Heq. apply (f_equal String.length) in Heq.
    rewrite !append_length in Heq. cbn [String.length] in Heq. lia. }
  assert (Hid : AzureSubnet.id (self s)
                = Returned (network_id +:+ "|$|"
                              +:+ Subnet.name (AzureSubnet._subnet (self s)))).
  { unfold AzureSubnet.id. rewrite Hnetwork. reflexivity. }
  rewrite (subnet_refresh_run s _ Hid). cbv zeta.
  destruct (handle (azure_client.get_network
                      (Some (network_id +:+ "|$|"
                               +:+ Subnet.name (AzureSubnet._subnet (self s)))))
                   (remote s)) as [[network|e] w].
  - exists (Returned network), w. cbn [fst snd self trace remote logged].
    split; [reflexivity|]. split; [reflexivity|]. split; [reflexivity|].
    split; [|repeat split].
    unfold AzureSubnet.id, AzureSubnet.network_id in *.
    cbn [AzureSubnet._url_params AzureSubnet._subnet]. rewrite Hnetwork. reflexivity.
  - exists (Raised e), w.
    assert (Hkept : forall state network,
               AzureSubnet.id (AzureSubnet.Build (AzureSubnet._subnet (self s)) state
                                 (AzureSubnet._url_params (self s)) network)
               = Returned (network_id +:+ "|$|"
                             +:+ Subnet.name (AzureSubnet._subnet (self s)))).
    { intros state network. unfold AzureSubnet.id, AzureSubnet.network_id in *.
      cbn [AzureSubnet._url_params AzureSubnet._subnet]. rewrite Hnetwork. reflexivity. }
    destruct e as [msg|[msg|]| | | | |]; cbn [fst snd self trace remote logged];
      (split; [reflexivity|]); (split; [reflexivity|]);
      (split; [reflexivity|]); (split; [solve [apply Hkept | exact Hid]|]);
      repeat split; reflexivity.
Qed.

Lemma subnet_refresh_asks_for_the_subnet_id_witness :
  trace (snd (@AzureSubnetRest.refresh (Scripted.provider Scripted.plain)
                (Scripted.start Scripted.plain (a_subnet "net1" "sub1"))))
  = [Event (azure_client.get_network (Some "net1|$|sub1")) (Returned Scripted.a_network)].
Proof.
  destruct (@subnet_refresh_asks_for_the_subnet_id (Scripted.provider Scripted.plain)
              (Scripted.start Scripted.plain (a_subnet "net1" "sub1")) "net1" eq_refl)
    as (_ & answer & w & Hhandle & Htrace & _).
  rewrite Htrace. injection Hhandle as <- _. reflexivity.
Defined.

(** ** The state of an instance without an instance view *)

Section InstanceRefresh.
Context `{Provider}.

Lemma update_state_exhausts (depth : nat) :
  never_has_instance_view ->
  forall s : store AzureInstance.t,
    VirtualMachine.instance_view (AzureInstance._vm (self s)) = None ->
    exists s' calls,
      AzureInstance._update_state depth s = (Raised RecursionError, s')
      /\ trace s' = trace s ++ calls
      /\ length calls = depth
      /\ Forall is_get_vm (requests calls).
Proof.
  intros Hnever. induction depth as [|depth IH]; intros s Hview.
  - exists s, []. rewrite app_nil_r. repeat split. constructor.
  - rewrite (update_state_without_view_step depth s Hview).
    destruct (Hnever (AzureInstance.id (self s)) (remote s)) as (vm & w & Hget & Hvm).
    rewrite (refresh_with_fetched _ s vm w Hget). cbv zeta.
    match goal with
    | |- context [AzureInstance._update_state depth ?s1] =>
        destruct (IH s1) as (s' & calls & Hrun & Htrace & Hlength & Hcalls)
    end.
    { cbn [self AzureInstance.set_vm AzureInstance._vm].
      destruct (negb (truthy (VirtualMachine.tags vm))); exact Hvm. }
    rewrite Hrun.
    exists s', (Event (azure_client.get_vm (AzureInstance.id (self s))) (Returned vm)
                  :: calls).
    split; [reflexivity|]. split.
    { rewrite Htrace. cbn [trace]. rewrite <- app_assoc. reflexivity. }
    split; [cbn [length]; rewrite Hlength; reflexivity|].
    constructor; [exact I|exact Hcalls].
Qed.
End InstanceRefresh.

(** X15: the state of an instance whose VM is gone.  When [get_vm] raises
    a [CloudError], [refresh] logs the message and returns with the state
    UNKNOWN.  [_update_state] on an instance without an instance view goes
    through the same [refresh], and then sets the state once more: it
    returns with the provisioning state of the payload it already had as
    the state, the "unknown" that [refresh] had set being overwritten. *)
Theorem update_state_overwrites_unknown `{Provider} (s : store AzureInstance.t)
        (depth : nat) (msg : string) (w : world) :
  VirtualMachine.instance_view (AzureInstance._vm (self s)) = None ->
  handle (azure_client.get_vm (AzureInstance.id (self s))) (remote s)
  = (Raised (CloudError msg), w) ->
  exists s1 s2,
    AzureInstance.refresh depth s = (Returned tt, s1)
    /\ AzureInstance.state (self s1) = InstanceState.UNKNOWN
    /\ logged s1 = logged s ++ [msg]
    /\ AzureInstance._update_state (S depth) s = (Returned tt, s2)
    /\ AzureInstance._state (self s2)
       = VirtualMachine.provisioning_state (AzureInstance._vm (self s))
    /\ AzureInstance.state (self s2)
       = state_get AzureInstance.INSTANCE_STATE_MAP
                   (VirtualMachine.provisioning_state (AzureInstance._vm (self s)))
                   InstanceState.UNKNOWN
    /\ AzureInstance._vm (self s2) = AzureInstance._vm (self s)
    /\ logged s2 = logged s ++ [msg]
    /\ trace s2 = trace s ++ [Event (azure_client.get_vm (AzureInstance.id (self s)))
                                    (Raised (CloudError msg))].
Proof.
  intros Hview Hget.
  assert (Hrefresh : forall update_state,
             AzureInstance.refresh_with update_state s
             = (Returned tt,
                Store (AzureInstance.set_state (Some "unknown") (self s)) w
                      (trace s ++ [Event (azure_client.get_vm (AzureInstance.id (self s)))
                                         (Raised (CloudError msg))])
                      (logged s ++ [msg]))).
  { intros update_state. destruct s as [x w0 tr lg].
    cbn [self remote trace logged] in *.
    unfold AzureInstance.refresh_with, try_except.
    unfold bind at 1 2. unfold get_self at 1, invoke.
    cbn [self remote trace logged]. rewrite Hget. reflexivity. }
  eexists. eexists. split; [apply Hrefresh|]. split; [reflexivity|].
  split; [reflexivity|]. split.
  { rewrite (update_state_without_view_step depth s Hview). rewrite Hrefresh.
    unfold bind, get_self. cbn [self AzureInstance.set_state AzureInstance._vm].
    rewrite Hview. reflexivity. }
  cbn [self logged trace AzureInstance.set_state AzureInstance._vm AzureInstance._state].
  repeat split.
Qed.

Lemma update_state_overwrites_unknown_witness :
  exists s2,
    @AzureInstance._update_state (Scripted.provider vanished_script) 1
      (Scripted.start vanished_script a_blank_instance)
    = (Returned tt, s2)
    /\ AzureInstance._state (self s2) = Some "Succeeded"
    /\ logged s2 = ["not found"].
Proof.
  destruct (@update_state_overwrites_unknown (Scripted.provider vanished_script)
              (Scripted.start vanished_script a_blank_instance) 0 "not found" tt
              eq_refl eq_refl)
    as (s1 & s2 & _ & _ & _ & Hrun & Hstate & _ & _ & Hlogged & _).
  exists s2. split; [exact Hrun|]. split; [exact Hstate|exact Hlogged].
Defined.

(** X16: an instance never gets a state while [get_vm] answers without an
    instance view.  [_update_state] and [refresh] call each other; when
    every [get_vm] is answered with a VM that has no instance view, on an
    instance that has none either, [_update_state] ends in
    [RecursionError] whatever the bound on the nesting of calls is, having
    made as many [get_vm] calls as the bound allows and no other call.  So
    do [refresh], whose handler does not catch that exception, and the
    constructor over a payload without an instance view. *)
Theorem update_state_without_view_exhausts_recursion `{Provider}
        (s : store AzureInstance.t) (depth : nat) :
  never_has_instance_view ->
  (VirtualMachine.instance_view (AzureInstance._vm (self s)) = None ->
   exists s' calls,
     AzureInstance._update_state depth s = (Raised RecursionError, s')
     /\ trace s' = trace s ++ calls
     /\ length calls = depth
     /\ Forall is_get_vm (requests calls))
  /\ (exists s' calls,
         AzureInstance.refresh depth s = (Raised RecursionError, s')
         /\ trace s' = trace s ++ calls
         /\ length calls = S depth
         /\ Forall is_get_vm (requests calls))
  /\ (forall vm_instance,
         VirtualMachine.instance_view vm_instance = None ->
         exists s' calls,
           AzureInstance.__init__ depth vm_instance s = (Raised RecursionError, s')
           /\ trace s' = trace s ++ calls
           /\ length calls = depth
           /\ Forall is_get_vm (requests calls)).
Proof.
  intros Hnever. split; [apply update_state_exhausts; exact Hnever|]. split.
  - destruct (Hnever (AzureInstance.id (self s)) (remote s)) as (vm & w & Hget & Hvm).
    unfold AzureInstance.refresh. rewrite (refresh_with_fetched _ s vm w Hget). cbv zeta.
    match goal with
    | |- context [AzureInstance._update_state depth ?s1] =>
        destruct (update_state_exhausts depth Hnever s1)
          as (s' & calls & Hrun & Htrace & Hlength & Hcalls)
    end.
    { cbn [self AzureInstance.set_vm AzureInstance._vm].
      destruct (negb (truthy (VirtualMachine.tags vm))); exact Hvm. }
    rewrite Hrun.
    exists s', (Event (azure_client.get_vm (AzureInstance.id (self s))) (Returned vm)
                  :: calls).
    split; [reflexivity|]. split.
    { rewrite Htrace. cbn [trace]. rewrite <- app_assoc. reflexivity. }
    split; [cbn [length]; rewrite Hlength; reflexivity|].
    constructor; [exact I|exact Hcalls].
  - intros vm_instance Hview. unfold AzureInstance.__init__.
    unfold bind at 1. unfold AzureInstance.modify_self at 1.
    unfold bind at 1, get_self at 1, set_self at 1.
    match goal with
    | |- context [bind (AzureInstance._update_state depth) _ ?s1] =>
        destruct (update_state_exhausts depth Hnever s1 Hview)
          as (s' & calls & Hrun & Htrace & Hlength & Hcalls)
    end.
    exists s', calls. split.
    { unfold bind at 1. rewrite Hrun. reflexivity. }
    split; [exact Htrace|]. split; [exact Hlength|exact Hcalls].
Qed.

Lemma scripted_never_has_instance_view :
  @never_has_instance_view (Scripted.provider Scripted.plain).
Proof.
  intros vm_id w. exists (Scripted.a_vm None), w. split; reflexivity.
Defined.

Lemma update_state_without_view_exhausts_recursion_witness :
  exists s',
    @AzureInstance.refresh (Scripted.provider Scripted.plain) 1000
      (Scripted.start Scripted.plain an_instance)
    = (Raised RecursionError, s')
    /\ length (trace s') = 1001%nat.
Proof.
  destruct (@update_state_without_view_exhausts_recursion
              (Scripted.provider Scripted.plain)
              (Scripted.start Scripted.plain an_instance) 1000
              scripted_never_has_instance_view)
    as (_ & (s' & calls & Hrun & Htrace & Hlength & _) & _).
  exists s'. split; [exact Hrun|]. rewrite Htrace, length_app, Hlength. reflexivity.
Defined.

(** ** The network attributes of an instance *)

Section Establishes.
Context `{Provider} {Self : Type}.





End Establishes.

Section NetworkAttributes.
Context `{Provider}.



End NetworkAttributes.

Section Gathering.
Context `{Provider}.






End Gathering.



(** ** Floating IPs *)

Lemma unbind_first_twice (v : option SubResource.t) (configs : list IPConfiguration.t) :
  alter (IPConfiguration.set_public_ip_address v) 0%nat
        (alter (IPConfiguration.set_public_ip_address v) 0%nat configs)
  = alter (IPConfiguration.set_public_ip_address v) 0%nat configs.
Proof. destruct configs; reflexivity. Qed.

Section RemoveBound.
Context `{Provider}.
Variables (floating_ip : AzureFloatingIP.t) (nic_id : option string)
          (nic0 : NetworkInterface.t) (configs : list IPConfiguration.t).
Hypothesis Hbound : Forall (fun c => IPConfiguration.public_ip_address c <> None) configs.
Hypothesis Hsucceeds : update_nic_succeeds.

(** With every configuration bound, the loop returns, having sent the
    interface with its first configuration unbound once for every
    configuration ahead that has the floating IP. *)
Lemma remove_floating_ip_loop_bound (n : nat) :
  forall (i : nat) (nic : NetworkInterface.t) (cur : list IPConfiguration.t)
         (s : store AzureInstance.t),
    AzureInstance._nic_ids (self s) !! 0%nat = Some nic_id ->
    NetworkInterface.ip_configurations nic = Some cur ->
    length cur = length configs ->
    (forall k, (i <= k)%nat -> cur !! k = configs !! k) ->
    with_first_bound_to None nic cur = with_first_bound_to None nic0 configs ->
    (length cur <= n + i)%nat ->
    exists s' calls,
      AzureInstance.remove_floating_ip_loop n i nic floating_ip s = (Returned tt, s')
      /\ self s' = self s
      /\ trace s' = trace s ++ calls
      /\ requests calls
         = replicate (length (List.filter (binds floating_ip) (drop i configs)))
                     (azure_client.update_nic nic_id (with_first_bound_to None nic0 configs)).
Proof.
  induction n as [|n IH]; intros i nic cur s Hnic Hcur Hlength Hsame Hsent Hn.
  - exists s, []. rewrite app_nil_r. rewrite drop_ge by lia. repeat split.
  - cbn [AzureInstance.remove_floating_ip_loop]. rewrite Hcur. cbn [default from_option id].
    destruct (cur !! i) as [c|] eqn:Hc.
    2:{ exists s, []. rewrite app_nil_r. apply lookup_ge_None in Hc.
        rewrite drop_ge by lia. repeat split. }
    assert (Hc' : configs !! i = Some c) by (rewrite <- Hsame by lia; exact Hc).
    rewrite (drop_S _ _ _ Hc'). cbn [List.filter].
    pose proof (proj1 (Forall_lookup _ _) Hbound i c Hc') as Hbound_c.
    cbv beta in Hbound_c.
    unfold binds at 1.
    destruct (IPConfiguration.public_ip_address c) as [public_ip_address|];
      [|congruence].
    destruct (String.eqb (SubResource.id public_ip_address)
                         (AzureFloatingIP.id floating_ip)).
    + unfold bind at 1, get_self at 1. unfold bind at 1, lift_outcome, py_index.
      rewrite Hnic. cbn [fmap option_fmap option_map].
      change (NetworkInterface.set_ip_configurations
                (Some (alter (IPConfiguration.set_public_ip_address None) 0%nat cur)) nic)
        with (with_first_bound_to None nic cur).
      rewrite Hsent.
      destruct (Hsucceeds nic_id (with_first_bound_to None nic0 configs) (remote s))
        as [w' Hw'].
      unfold bind at 1, invoke. rewrite Hw'.
      match goal with
      | |- context [AzureInstance.remove_floating_ip_loop n (S i) ?nic1 floating_ip ?s1] =>
          destruct (IH (S i) nic1
                       (alter (IPConfiguration.set_public_ip_address None) 0%nat configs) s1)
            as (s' & calls & Hrun & Hself & Htrace & Hcalls)
      end.
      * exact Hnic.
      * reflexivity.
      * apply length_alter.
      * intros k Hk. apply list_lookup_alter_ne. lia.
      * unfold with_first_bound_to. rewrite unbind_first_twice. reflexivity.
      * rewrite length_alter. lia.
      * exists s', (Event (azure_client.update_nic nic_id
                             (with_first_bound_to None nic0 configs)) (Returned tt)
                      :: calls).
        split; [exact Hrun|]. split; [rewrite Hself; reflexivity|]. split.
        { rewrite Htrace. cbn [trace]. rewrite <- app_assoc. reflexivity. }
        cbn [length replicate]. unfold requests in *. cbn [map request_of].
        rewrite Hcalls. reflexivity.
    + destruct (IH (S i) nic cur s Hnic Hcur Hlength) as (s' & calls & Hrun & Hrest);
        [intros k Hk; apply Hsame; lia|exact Hsent|lia|].
      exists s', calls. split; [exact Hrun|exact Hrest].
Qed.
End RemoveBound.

Lemma remove_floating_ip_run_bound `{Provider}
      (s : store AzureInstance.t) (floating_ip : AzureFloatingIP.t)
      (nic_id : option string) (nic : NetworkInterface.t) (w : world)
      (configs : list IPConfiguration.t) :
  AzureInstance._nic_ids (self s) !! 0%nat = Some nic_id ->
  handle (azure_client.get_nic nic_id) (remote s) = (Returned nic, w) ->
  NetworkInterface.ip_configurations nic = Some configs ->
  Forall (fun c => IPConfiguration.public_ip_address c <> None) configs ->
  update_nic_succeeds ->
  exists s' calls,
    AzureInstance.remove_floating_ip floating_ip s = (Returned tt, s')
    /\ self s' = self s
    /\ trace s' = trace s ++ Event (azure_client.get_nic nic_id) (Returned nic) :: calls
    /\ requests calls
       = replicate (length (List.filter (binds floating_ip) configs))
                   (azure_client.update_nic nic_id (with_first_bound_to None nic configs)).
Proof.
  intros Hnic Hget Hconfigs Hbound Hsucceeds.
  unfold AzureInstance.remove_floating_ip.
  unfold bind, get_self, lift_outcome, py_index, invoke. rewrite Hnic, Hget, Hconfigs.
  match goal with
  | |- context [AzureInstance.remove_floating_ip_loop _ _ _ _ ?s0] =>
      destruct (remove_floating_ip_loop_bound floating_ip nic_id nic configs Hbound
                  Hsucceeds (length configs) 0%nat nic configs s0)
        as (s' & calls & Hrun & Hself & Htrace & Hcalls)
  end.
  - exact Hnic.
  - exact Hconfigs.
  - reflexivity.
  - reflexivity.
  - reflexivity.
  - lia.
  - exists s', calls.
    split; [exact Hrun|]. split; [exact Hself|]. split; [|exact Hcalls].
    rewrite Htrace. cbn [trace]. rewrite <- app_assoc. reflexivity.
Qed.

(** X18: removing a floating IP unbinds the first configuration.  On an
    instance whose first interface has a public IP address bound on every
    configuration, with [update_nic] succeeding, [remove_floating_ip]
    returns after fetching the interface and sending it back once for
    every configuration that has the floating IP bound: not at all when
    none has.  What it sends is the interface with the public IP address
    of the first configuration removed, wherever the floating IP is bound;
    the configurations after the first are sent as they were fetched. *)
Theorem remove_floating_ip_unbinds_first_configuration `{Provider}
        (s : store AzureInstance.t) (floating_ip : AzureFloatingIP.t)
        (nic_id : option string) (nic : NetworkInterface.t) (w : world)
        (configs : list IPConfiguration.t) :
  AzureInstance._nic_ids (self s) !! 0%nat = Some nic_id ->
  handle (azure_client.get_nic nic_id) (remote s) = (Returned nic, w) ->
  NetworkInterface.ip_configurations nic = Some configs ->
  Forall (fun c => IPConfiguration.public_ip_address c <> None) configs ->
  update_nic_succeeds ->
  exists s' calls sent,
    AzureInstance.remove_floating_ip floating_ip s = (Returned tt, s')
    /\ self s' = self s
    /\ trace s' = trace s ++ Event (azure_client.get_nic nic_id) (Returned nic) :: calls
    /\ requests calls
       = replicate (length (List.filter (binds floating_ip) configs))
                   (azure_client.update_nic nic_id sent)
    /\ NetworkInterface.network_security_group sent
       = NetworkInterface.network_security_group nic
    /\ NetworkInterface.ip_configurations sent
       = Some (match configs with
               | [] => []
               | first :: others =>
                   IPConfiguration.Build (IPConfiguration.private_ip_address first) None
                     :: others
               end).
Proof.
  intros Hnic Hget Hconfigs Hbound Hsucceeds.
  destruct (remove_floating_ip_run_bound s floating_ip nic_id nic w configs
              Hnic Hget Hconfigs Hbound Hsucceeds)
    as (s' & calls & Hrun & Hself & Htrace & Hcalls).
  exists s', calls, (with_first_bound_to None nic configs).
  split; [exact Hrun|]. split; [exact Hself|]. split; [exact Htrace|].
  split; [exact Hcalls|]. split; [reflexivity|].
  destruct configs; reflexivity.
Qed.

Lemma remove_floating_ip_unbinds_first_configuration_witness :
  exists s',
    @AzureInstance.remove_floating_ip (Scripted.provider two_addresses_script)
      (a_floating_ip "/publicIPAddresses/ip2")
      (Scripted.start two_addresses_script an_instance)
    = (Returned tt, s')
    /\ requests (trace s')
       = [ azure_client.get_nic (Some "nic1");
           azure_client.update_nic (Some "nic1")
             (NetworkInterface.Build None
                (Some [ IPConfiguration.Build (Some "10.0.0.4") None;
                        IPConfiguration.Build (Some "10.0.0.5")
                          (Some (SubResource.Build "/publicIPAddresses/ip2")) ])) ].
Proof.
  destruct (@remove_floating_ip_unbinds_first_configuration
              (Scripted.provider two_addresses_script)
              (Scripted.start two_addresses_script an_instance)
              (a_floating_ip "/publicIPAddresses/ip2")
              (Some "nic1") a_nic_with_two_addresses tt
              [ IPConfiguration.Build (Some "10.0.0.4")
                  (Some (SubResource.Build "/publicIPAddresses/ip1"));
                IPConfiguration.Build (Some "10.0.0.5")
                  (Some (SubResource.Build "/publicIPAddresses/ip2")) ]
              eq_refl eq_refl eq_refl)
    as (s' & calls & sent & Hrun & _ & Htrace & Hcalls & Hgroup & Hsent).
  - repeat constructor; discriminate.
  - intros nic_name nic []. exists tt. reflexivity.
  - exists s'. split; [exact Hrun|]. rewrite Htrace.
    unfold requests in *. cbn [app map request_of trace Scripted.start].
    rewrite Hcalls. destruct sent as [group sent_configs].
    cbn in Hgroup, Hsent. subst. reflexivity.
Defined.

(** X19: adding a floating IP and removing it again.  On an instance
    whose first interface has a first configuration, with a provider whose
    [update_nic] succeeds and which hands back the interface it was sent,
    [add_floating_ip] sends the interface with the floating IP bound on
    the first configuration in place of whatever was bound there.  When
    the other configurations all have a public IP address,
    [remove_floating_ip] of the same floating IP then returns, and what it
    sends, once for each configuration that has the floating IP, is the
    interface with nothing bound on the first configuration: an address
    that was bound there before the two calls is not restored.  Neither
    call changes the instance's own lists of addresses. *)
Theorem add_then_remove_floating_ip `{Provider}
        (s : store AzureInstance.t) (floating_ip : AzureFloatingIP.t)
        (nic_id : option string) (nic : NetworkInterface.t) (w : world)
        (first : IPConfiguration.t) (others : list IPConfiguration.t) :
  AzureInstance._nic_ids (self s) !! 0%nat = Some nic_id ->
  handle (azure_client.get_nic nic_id) (remote s) = (Returned nic, w) ->
  NetworkInterface.ip_configurations nic = Some (first :: others) ->
  Forall (fun c => IPConfiguration.public_ip_address c <> None) others ->
  update_nic_succeeds ->
  stores_interfaces ->
  let bound :=
    NetworkInterface.Build
      (NetworkInterface.network_security_group nic)
      (Some (IPConfiguration.Build (IPConfiguration.private_ip_address first)
               (Some (SubResource.Build (AzureFloatingIP.id floating_ip))) :: others)) in
  let unbound :=
    NetworkInterface.Build
      (NetworkInterface.network_security_group nic)
      (Some (IPConfiguration.Build (IPConfiguration.private_ip_address first) None
               :: others)) in
  exists s1 s2 calls,
    AzureInstanceRest.add_floating_ip floating_ip s = (Returned tt, s1)
    /\ requests (trace s1)
       = requests (trace s)
           ++ [azure_client.get_nic nic_id; azure_client.update_nic nic_id bound]
    /\ self s1 = self s
    /\ AzureInstance.remove_floating_ip floating_ip s1 = (Returned tt, s2)
    /\ self s2 = self s
    /\ trace s2 = trace s1 ++ Event (azure_client.get_nic nic_id) (Returned bound) :: calls
    /\ requests calls
       = replicate (S (length (List.filter (binds floating_ip) others)))
                   (azure_client.update_nic nic_id unbound).
Proof.
  intros Hnic Hget Hconfigs Hbound Hsucceeds Hstores. cbv zeta.
  set (bound := NetworkInterface.Build
                  (NetworkInterface.network_security_group nic)
                  (Some (IPConfiguration.Build (IPConfiguration.private_ip_address first)
                           (Some (SubResource.Build (AzureFloatingIP.id floating_ip)))
                           :: others))).
  destruct (Hsucceeds nic_id bound w) as [w1 Hupdate].
  destruct (Hstores nic_id bound w w1 Hupdate) as [w2 Hfetch].
  assert (Hadd : AzureInstanceRest.add_floating_ip floating_ip s
                 = (Returned tt,
                    Store (self s) w1
                          ((trace s ++ [Event (azure_client.get_nic nic_id) (Returned nic)])
                             ++ [Event (azure_client.update_nic nic_id bound) (Returned tt)])
                          (logged s))).
  { unfold AzureInstanceRest.add_floating_ip.
    unfold bind, get_self, lift_outcome, py_index, invoke. rewrite Hnic, Hget, Hconfigs.
    cbn [lookup list_lookup self remote trace logged].
    change (NetworkInterface.set_ip_configurations _ nic) with bound.
    rewrite Hnic, Hupdate. reflexivity. }
  match type of Hadd with _ = (_, ?st) => set (s1 := st) in * end.
  destruct (remove_floating_ip_run_bound s1 floating_ip nic_id bound w2
              (IPConfiguration.Build (IPConfiguration.private_ip_address first)
                 (Some (SubResource.Build (AzureFloatingIP.id floating_ip))) :: others))
    as (s2 & calls & Hremove & Hself & Htrace & Hcalls).
  - exact Hnic.
  - exact Hfetch.
  - reflexivity.
  - constructor; [discriminate|exact Hbound].
  - exact Hsucceeds.
  - exists s1, s2, calls. split; [exact Hadd|]. split.
    { unfold requests. cbn [s1 trace]. rewrite !map_app, <- app_assoc. reflexivity. }
    split; [reflexivity|]. split; [exact Hremove|]. split; [exact Hself|].
    split; [exact Htrace|].
    rewrite Hcalls. cbn [List.filter]. unfold binds at 1.
    cbn [IPConfiguration.public_ip_address SubResource.id].
    rewrite String.eqb_refl. reflexivity.
Qed.

Lemma interface_keeping_update_nic_succeeds : @update_nic_succeeds interface_keeping.
Proof. intros nic_name nic w. exists nic. reflexivity. Defined.

Lemma interface_keeping_stores_interfaces : @stores_interfaces interface_keeping.
Proof.
  intros nic_name nic w w' Hupdate. exists nic. cbn in Hupdate |- *.
  injection Hupdate as <-. reflexivity.
Defined.

Lemma add_then_remove_floating_ip_witness :
  exists s1 s2,
    @AzureInstanceRest.add_floating_ip interface_keeping
      (a_floating_ip "/publicIPAddresses/ip3")
      (@Store interface_keeping _ an_instance a_nic_with_two_addresses [] [])
    = (Returned tt, s1)
    /\ @AzureInstance.remove_floating_ip interface_keeping
         (a_floating_ip "/publicIPAddresses/ip3") s1
       = (Returned tt, s2)
    /\ remote s2
       = NetworkInterface.Build None
           (Some [ IPConfiguration.Build (Some "10.0.0.4") None;
                   IPConfiguration.Build (Some "10.0.0.5")
                     (Some (SubResource.Build "/publicIPAddresses/ip2")) ]).
Proof.
  destruct (@add_then_remove_floating_ip interface_keeping
              (@Store interface_keeping _ an_instance a_nic_with_two_addresses [] [])
              (a_floating_ip "/publicIPAddresses/ip3")
              (Some "nic1") a_nic_with_two_addresses a_nic_with_two_addresses
              (IPConfiguration.Build (Some "10.0.0.4")
                 (Some (SubResource.Build "/publicIPAddresses/ip1")))
              [ IPConfiguration.Build (Some "10.0.0.5")
                  (Some (SubResource.Build "/publicIPAddresses/ip2")) ]
              eq_refl eq_refl eq_refl)
    as (s1 & s2 & calls & Hadd & _ & _ & Hremove & _).
  - repeat constructor; discriminate.
  - exact interface_keeping_update_nic_succeeds.
  - exact interface_keeping_stores_interfaces.
  - exists s1, s2. split; [exact Hadd|]. split; [exact Hremove|].
    vm_compute in Hadd. injection Hadd as <-.
    vm_compute in Hremove. injection Hremove as <-. reflexivity.
Defined.
